(** * A schema-aware configuration provider (package [configuration])

    Shallow embedding of the Go configuration provider: field
    registry, path resolution, lazily loaded JSON document, accessors.

    Go strings are byte strings; they are modelled by [string] (a list
    of 8-bit [ascii]).  Dynamic values ([interface{}]) are modelled by
    [GoValue].  The provider is a mutable struct used through a pointer:
    its methods are state transformers over the provider and the
    process' world (environment variables and files). *)

From Stdlib Require Import ZArith Ascii String List Bool Lia.
From stdpp Require Import base option list strings gmap.

Set Warnings "-register-all".

Local Open Scope string_scope.
Local Open Scope Z_scope.

(** ** Values and errors *)

(** A Go [interface{}] value, as far as this package handles them.
    [GFloat64 x] is the float64 whose value is the whole number [x]
    (fractional floats are not modelled).  A [map[string]interface{}]
    is represented by its entries; their order carries no meaning. *)
Inductive GoValue : Type :=
  | GNil
  | GBool (b : bool)
  | GInt (n : Z)
  | GFloat64 (x : Z)
  | GString (s : string)
  | GMap (entries : list (string * GoValue)).

Definition ConfigKey := string.

(** An operand of a [fmt.Errorf] call. *)
Inductive fmtArg : Type :=
  | AValue (v : GoValue)
  | AStr (s : string)
  | ANum (n : Z)
  | AKeys (ks : list ConfigKey)
  | AStrs (ss : list string).

(** A Go [error].  An error built by [fmt.Errorf] is represented by the
    format string and the operands of the call, which determine its
    message; [SjsonError] is an error of the sjson library and
    [PathError] is the [*fs.PathError] of a failed file operation. *)
Inductive error : Type :=
  | Errorf (format : string) (args : list fmtArg)
  | SjsonError (msg : string)
  | PathError (op path : string).

(** ** strings.EqualFold and the wildcard escape *)

Definition isLetter (c : ascii) : bool :=
  let n := N_of_ascii c in
  (((65 <=? n) && (n <=? 90)) || ((97 <=? n) && (n <=? 122)))%N.

Definition isDigit (c : ascii) : bool :=
  let n := N_of_ascii c in ((48 <=? n) && (n <=? 57))%N.

(** Simple case folding of one byte.  [strings.EqualFold] folds
    Unicode letters; the model folds the letters of ASCII only, and
    agrees with it on strings made of ASCII bytes ([isASCII]).  On
    other strings a match here is a match in Go, not the converse; the
    statements that conclude from the absence of a match are made on
    ASCII strings. *)
Definition foldByte (c : ascii) : ascii :=
  let n := N_of_ascii c in
  if ((65 <=? n) && (n <=? 90))%N then ascii_of_N (n + 32) else c.

Fixpoint EqualFold (s t : string) : bool :=
  match s, t with
  | EmptyString, EmptyString => true
  | String a s', String b t' =>
      Ascii.eqb (foldByte a) (foldByte b) && EqualFold s' t'
  | _, _ => false
  end.

(** A string of ASCII bytes (below 128). *)
Fixpoint isASCII (s : string) : bool :=
  match s with
  | EmptyString => true
  | String c rest => (N_of_ascii c <? 128)%N && isASCII rest
  end.

Definition isWildcard (c : ascii) : bool :=
  Ascii.eqb c "*" || Ascii.eqb c "?".

(** [regexp.MustCompile(`([*?])`).ReplaceAllString(key, "\\$1")]: every
    [*] and [?] gets a backslash in front of it. *)
Fixpoint escapeWildcards (key : string) : string :=
  match key with
  | EmptyString => EmptyString
  | String c rest =>
      if isWildcard c
      then String "\" (String c (escapeWildcards rest))
      else String c (escapeWildcards rest)
  end.

(** ** Field definitions and validators *)

Definition ConfigValueValidationFunc := ConfigKey -> GoValue -> option error.

Record FieldDefinition : Type := {
  EnvVar : string;
  Key : ConfigKey;
  Default : GoValue;
  CaseSensitive : bool;
  Sensitive : bool;
  ValidationFunc : option ConfigValueValidationFunc
}.

Definition IntGreaterThan (greaterThan : Z) : ConfigValueValidationFunc :=
  fun key value =>
    match value with
    | GInt s =>
        if s >? greaterThan then None
        else Some (Errorf "value %d is not greater than %d"
                          [ANum s; ANum greaterThan])
    | _ => Some (Errorf "%v is not an int" [AValue value])
    end.

Definition StringInStrings (caseSensitive : bool) (allowedValues : list string)
  : ConfigValueValidationFunc :=
  fun key value =>
    match value with
    | GString s =>
        if existsb (fun v =>
                      (caseSensitive && String.eqb s v)
                      || (negb caseSensitive && EqualFold s v))
                   allowedValues
        then None
        else Some (Errorf "value %v not in allowed values: %s"
                          [AStr s; AStrs allowedValues])
    | _ => Some (Errorf "%v is not a string" [AValue value])
    end.

(** ** The JSON document and the gjson / sjson path operations

    The document is a byte buffer holding JSON text.  Its text is
    represented by the value it denotes: [None] is the empty text and
    [Some j] the text of [j].  The two libraries are modelled on
    documents made of objects and scalars (no arrays) and on dotted
    paths with backslash escapes and the wildcards [*] and [?]; the
    other operators of the path syntax (the pipe, the modifiers, the
    array access character, the force prefix and numeric components,
    which address arrays) are not, and their bytes are read as bytes of
    a key.  The model is that of the libraries on plain paths
    ([plainPath]) and on keys of plain bytes and wildcards; the
    statements about what is written and read are made on these. *)

Inductive Json : Type :=
  | JNull
  | JBool (b : bool)
  | JNum (n : Z)
  | JString (s : string)
  | JObject (members : list (string * Json)).

Definition Text := option Json.

(** One dot-separated component of a path: the key with the escapes
    removed, and whether it has an unescaped wildcard. *)
Record component : Type := { part : string; wild : bool }.

Definition consChar (c : ascii) (w : bool) (cs : list component)
  : list component :=
  match cs with
  | [] => [{| part := String c EmptyString; wild := w |}]
  | h :: t => {| part := String c (part h); wild := wild h || w |} :: t
  end.

(** Splitting a path as gjson's [parseObjectPath] and sjson's
    [parsePath] do, one component after the other: a dot ends a
    component, a backslash takes the next byte literally. *)
Fixpoint parsePath (path : string) : list component :=
  match path with
  | EmptyString => [{| part := EmptyString; wild := false |}]
  | String c rest =>
      if Ascii.eqb c "."
      then {| part := EmptyString; wild := false |} :: parsePath rest
      else if Ascii.eqb c "\"
      then match rest with
           | EmptyString => [{| part := EmptyString; wild := false |}]
           | String e rest' => consChar e false (parsePath rest')
           end
      else consChar c (isWildcard c) (parsePath rest)
  end.

(** The pattern match of a wildcard component against a key
    ([match.Match]): [*] matches any run of bytes, [?] one byte, a
    backslash takes the next pattern byte literally. *)
Fixpoint wildMatch (pat : list ascii) (str : list ascii) : bool :=
  match pat with
  | [] => match str with [] => true | _ => false end
  | p :: pat' =>
      if Ascii.eqb p "*"
      then (fix star (s : list ascii) : bool :=
              wildMatch pat' s
              || match s with [] => false | _ :: s' => star s' end) str
      else if Ascii.eqb p "?"
      then match str with [] => false | _ :: s' => wildMatch pat' s' end
      else if Ascii.eqb p "\"
      then match pat', str with
           | q :: pat'', c :: s' => Ascii.eqb q c && wildMatch pat'' s'
           | _, _ => false
           end
      else match str with
           | c :: s' => Ascii.eqb p c && wildMatch pat' s'
           | [] => false
           end
  end.

Definition componentMatch (c : component) (key : string) : bool :=
  if wild c
  then wildMatch (list_ascii_of_string (part c)) (list_ascii_of_string key)
  else String.eqb (part c) key.

(** The first member, in document order, for which [f] gives a result. *)
Fixpoint firstHit {A B : Type} (f : A -> option B) (l : list A) : option B :=
  match l with
  | [] => None
  | x :: l' => match f x with Some y => Some y | None => firstHit f l' end
  end.

(** gjson's object walk: the members are scanned in order; a member
    whose key matches the component is entered for the rest of the
    path, and the scan goes on when nothing is found under it. *)
Fixpoint getComponents (cs : list component) (j : Json) : option Json :=
  match cs with
  | [] => Some j
  | c :: cs' =>
      match j with
      | JObject ms =>
          firstHit (fun m : string * Json =>
                      if componentMatch c (fst m)
                      then getComponents cs' (snd m) else None) ms
      | _ => None
      end
  end.

(** [gjson.Get(json, path)]; [None] is a result that does not exist.
    The pipe, the modifiers and the array access character are read as
    bytes of a key. *)
Definition gjson_Get (json : Text) (path : string) : option Json :=
  match json with
  | None => None
  | Some j => getComponents (parsePath path) j
  end.

Definition membersOf (j : Json) : list (string * Json) :=
  match j with JObject ms => ms | _ => [] end.

Definition hasKey (k : string) (ms : list (string * Json)) : bool :=
  existsb (fun m => String.eqb k (fst m)) ms.

(** Replace the value of the first member with key [k]. *)
Fixpoint replaceFirst (k : string) (f : Json -> Json)
  (ms : list (string * Json)) : list (string * Json) :=
  match ms with
  | [] => []
  | m :: ms' =>
      if String.eqb k (fst m) then (fst m, f (snd m)) :: ms'
      else m :: replaceFirst k f ms'
  end.

(** sjson's write along a path: an existing member is rewritten in
    place, a missing one is added to the object (this model adds it at
    the end), and a value that is not an object gives way to a new
    object. *)
Fixpoint setComponents (cs : list string) (raw : Json) (j : Json) : Json :=
  match cs with
  | [] => raw
  | k :: cs' =>
      let ms := membersOf j in
      if hasKey k ms
      then JObject (replaceFirst k (setComponents cs' raw) ms)
      else JObject (ms ++ [(k, setComponents cs' raw JNull)])
  end.

(** How [sjson.Set] writes a Go value, and what [Result.Value] gives
    back. *)
Fixpoint toJSON (v : GoValue) : Json :=
  match v with
  | GNil => JNull
  | GBool b => JBool b
  | GInt n => JNum n
  | GFloat64 x => JNum x
  | GString s => JString s
  | GMap es => JObject (map (fun e => (fst e, toJSON (snd e))) es)
  end.

(** The float64 nearest to a whole number (ties to even): the number
    itself up to 2^53, and a multiple of a power of two above. *)
Definition float64_of_Z (n : Z) : Z :=
  let a := Z.abs n in
  if a <? 2 ^ 53 then n
  else
    let e := Z.log2 a - 52 in
    let q := Z.shiftr a e in
    let r := a - Z.shiftl q e in
    let half := Z.shiftl 1 (e - 1) in
    let q' := if (half <? r) || ((r =? half) && Z.odd q) then q + 1 else q in
    Z.sgn n * Z.shiftl q' e.

Fixpoint Value (j : Json) : GoValue :=
  match j with
  | JNull => GNil
  | JBool b => GBool b
  | JNum n => GFloat64 (float64_of_Z n)
  | JString s => GString s
  | JObject ms => GMap (map (fun m => (fst m, Value (snd m))) ms)
  end.

(** [sjson.Set(json, path, value)].  An empty path and a path with an
    unescaped wildcard are refused; the array access character, the
    force prefix and numeric components are not modelled. *)
Definition sjson_Set (json : Text) (path : string) (value : GoValue)
  : Text * option error :=
  if String.eqb path ""
  then (json, Some (SjsonError "path cannot be empty"))
  else
    let cs := parsePath path in
    if existsb wild cs
    then (json, Some (SjsonError "wildcard characters not allowed in path"))
    else
      let j := match json with Some j => j | None => JNull end in
      (Some (setComponents (map part cs) (toJSON value) j), None).

(** Remove the first member with key [k]. *)
Fixpoint removeFirst (k : string) (ms : list (string * Json))
  : list (string * Json) :=
  match ms with
  | [] => []
  | m :: ms' => if String.eqb k (fst m) then ms' else m :: removeFirst k ms'
  end.

(** sjson's delete along a path; [None] when there is nothing to
    delete. *)
Fixpoint deleteComponents (cs : list string) (j : Json) : option Json :=
  match cs with
  | [] => None
  | k :: cs' =>
      let ms := membersOf j in
      if hasKey k ms
      then match cs' with
           | [] => Some (JObject (removeFirst k ms))
           | _ =>
               match firstHit (fun m : string * Json =>
                                 if String.eqb k (fst m)
                                 then Some (deleteComponents cs' (snd m))
                                 else None) ms with
               | Some (Some _) =>
                   Some (JObject
                     (replaceFirst k
                        (fun v => match deleteComponents cs' v with
                                  | Some v' => v' | None => v end) ms))
               | _ => None
               end
           end
      else None
  end.

(** [sjson.Delete(json, path)]: the text is returned as it is when the
    path names nothing.  As for [sjson_Set], only the refusal of
    wildcards is modelled among the paths sjson does not take as keys. *)
Definition sjson_Delete (json : Text) (path : string) : Text * option error :=
  if String.eqb path ""
  then (json, Some (SjsonError "path cannot be empty"))
  else
    let cs := parsePath path in
    if existsb wild cs
    then (json, Some (SjsonError "wildcard characters not allowed in path"))
    else
      match json with
      | None => (json, None)
      | Some j =>
          match deleteComponents (map part cs) j with
          | Some j' => (Some j', None)
          | None => (json, None)
          end
      end.

(** The keys of the top-level object, in document order
    ([gjson.Get(json, "@this")] followed by [ForEach]); on a scalar
    the iterator is called once, with an empty key. *)
Definition topLevelKeys (json : Text) : list string :=
  match json with
  | None => []
  | Some (JObject ms) => map fst ms
  | Some _ => [EmptyString]
  end.

(** ** The provider, the world and the monad of its methods *)

(** [cfg] is [None] for the nil slice and [Some t] for a buffer with
    text [t] ([Some None] is a buffer of length 0).  [mu] is the state
    of the mutex: [true] while it is held. *)
Record ConfigProvider : Type := {
  cfg : option Text;
  fields : list FieldDefinition;
  fileName : string;
  scope : string;
  mu : bool;
  dirty : bool;
  explicitValues : bool;
  settingDefaults : bool
}.

(** The part of the process' surroundings the provider touches: the
    environment variables, the files (by name, with their text) and the
    names [os.WriteFile] fails on. *)
Record World : Type := {
  environ : gmap string string;
  files : gmap string Text;
  unwritable : gset string
}.

(** What a call does: it returns, or it ends the process
    ([log.Fatalf]), or it waits for ever on the mutex it already holds
    (one goroutine runs; nobody else can release it), or the bound on
    the nesting of calls was too small. *)
Inductive outcome (A : Type) : Type :=
  | Returns (a : A) (p : ConfigProvider) (w : World)
  | Exits (p : ConfigProvider) (w : World)
  | Blocks (p : ConfigProvider) (w : World)
  | OutOfFuel.
Arguments Returns {A} a p w.
Arguments Exits {A} p w.
Arguments Blocks {A} p w.
Arguments OutOfFuel {A}.

Definition M (A : Type) : Type := ConfigProvider -> World -> outcome A.

Definition ret {A : Type} (a : A) : M A := fun p w => Returns a p w.

Definition bind {A B : Type} (m : M A) (f : A -> M B) : M B :=
  fun p w =>
    match m p w with
    | Returns a p' w' => f a p' w'
    | Exits p' w' => Exits p' w'
    | Blocks p' w' => Blocks p' w'
    | OutOfFuel => OutOfFuel
    end.

Notation "'let*' x ':=' m 'in' k" := (bind m (fun x => k))
  (at level 10, x name, m at level 100, k at level 200).

Definition getProvider : M ConfigProvider := fun p w => Returns p p w.
Definition getWorld : M World := fun p w => Returns w p w.
Definition modify (f : ConfigProvider -> ConfigProvider) : M unit :=
  fun p w => Returns tt (f p) w.
Definition fatal {A : Type} : M A := fun p w => Exits p w.

Definition with_cfg (c : option Text) (p : ConfigProvider) : ConfigProvider :=
  {| cfg := c; fields := fields p; fileName := fileName p; scope := scope p;
     mu := mu p; dirty := dirty p; explicitValues := explicitValues p;
     settingDefaults := settingDefaults p |}.
Definition with_fields (fs : list FieldDefinition) (p : ConfigProvider) :=
  {| cfg := cfg p; fields := fs; fileName := fileName p; scope := scope p;
     mu := mu p; dirty := dirty p; explicitValues := explicitValues p;
     settingDefaults := settingDefaults p |}.
Definition with_fileName (f : string) (p : ConfigProvider) :=
  {| cfg := cfg p; fields := fields p; fileName := f; scope := scope p;
     mu := mu p; dirty := dirty p; explicitValues := explicitValues p;
     settingDefaults := settingDefaults p |}.
Definition with_scope (s : string) (p : ConfigProvider) :=
  {| cfg := cfg p; fields := fields p; fileName := fileName p; scope := s;
     mu := mu p; dirty := dirty p; explicitValues := explicitValues p;
     settingDefaults := settingDefaults p |}.
Definition with_mu (b : bool) (p : ConfigProvider) :=
  {| cfg := cfg p; fields := fields p; fileName := fileName p; scope := scope p;
     mu := b; dirty := dirty p; explicitValues := explicitValues p;
     settingDefaults := settingDefaults p |}.
Definition with_dirty (b : bool) (p : ConfigProvider) :=
  {| cfg := cfg p; fields := fields p; fileName := fileName p; scope := scope p;
     mu := mu p; dirty := b; explicitValues := explicitValues p;
     settingDefaults := settingDefaults p |}.
Definition with_explicitValues (b : bool) (p : ConfigProvider) :=
  {| cfg := cfg p; fields := fields p; fileName := fileName p; scope := scope p;
     mu := mu p; dirty := dirty p; explicitValues := b;
     settingDefaults := settingDefaults p |}.
Definition with_settingDefaults (b : bool) (p : ConfigProvider) :=
  {| cfg := cfg p; fields := fields p; fileName := fileName p; scope := scope p;
     mu := mu p; dirty := dirty p; explicitValues := explicitValues p;
     settingDefaults := b |}.

(** [os.LookupEnv]: no variable has the empty name. *)
Definition LookupEnv (w : World) (key : string) : option string :=
  if String.eqb key "" then None else environ w !! key.

(** [os.ReadFile]: the text of the file, or an error ([None]). *)
Definition ReadFile (w : World) (name : string) : option Text :=
  files w !! name.

(** [os.WriteFile(name, data, 0644)]. *)
Definition WriteFile (name : string) (data : Text) : M (option error) :=
  fun p w =>
    if decide (name ∈ unwritable w)
    then Returns (Some (PathError "open" name)) p w
    else Returns None p
           {| environ := environ w;
              files := <[name := data]> (files w);
              unwritable := unwritable w |}.

(** [p.mu.Lock()] and the deferred [p.mu.Unlock()]. *)
Definition Lock : M unit :=
  fun p w => if mu p then Blocks p w else Returns tt (with_mu true p) w.
Definition Unlock : M unit := modify (with_mu false).

(** ** The field registry *)

Definition getConfigValueKeys (p : ConfigProvider) : list ConfigKey :=
  map Key (fields p).

Definition fieldMatches (key : ConfigKey) (v : FieldDefinition) : bool :=
  (negb (CaseSensitive v) && EqualFold key (Key v))
  || (CaseSensitive v && String.eqb key (Key v)).

Definition getFieldDefinition (p : ConfigProvider) (key : ConfigKey)
  : option FieldDefinition :=
  find (fieldMatches key) (fields p).

(** A construction option: it changes the provider and may fail. *)
Definition ConfigProviderOption :=
  ConfigProvider -> ConfigProvider * option error.

Definition WithExplicitValues : ConfigProviderOption :=
  fun p => (with_explicitValues true p, None).

Fixpoint addFieldDefinitions (definitions : list FieldDefinition)
  (p : ConfigProvider) : ConfigProvider * option error :=
  match definitions with
  | [] => (p, None)
  | d :: rest =>
      if negb (CaseSensitive d)
         && existsb (fun k => EqualFold k (Key d)) (getConfigValueKeys p)
      then (p, Some (Errorf
             "unable to add case-insensitive field definition for %s, another field already defined with matching case-folded key"
             [AStr (Key d)]))
      else addFieldDefinitions rest (with_fields (fields p ++ [d]) p)
  end.

Definition WithFieldDefinitions (definitions : list FieldDefinition)
  : ConfigProviderOption := addFieldDefinitions definitions.

Definition WithFilePersistence (name : string) : ConfigProviderOption :=
  fun p => (with_fileName name p, None).

Definition WithScope (s : string) : ConfigProviderOption :=
  fun p => (with_scope s p, None).

(** The zero value [&ConfigProvider{}]. *)
Definition zeroProvider : ConfigProvider :=
  {| cfg := None; fields := []; fileName := ""; scope := ""; mu := false;
     dirty := false; explicitValues := false; settingDefaults := false |}.

Fixpoint applyOptions (opts : list (option ConfigProviderOption))
  (p : ConfigProvider) : option ConfigProvider * option error :=
  match opts with
  | [] => (Some p, None)
  | None :: rest => applyOptions rest p
  | Some fn :: rest =>
      match fn p with
      | (_, Some err) => (None, Some err)
      | (p', None) => applyOptions rest p'
      end
  end.

(** [NewConfigProvider(opts...)]; a nil option is [None]. *)
Definition NewConfigProvider (opts : list (option ConfigProviderOption))
  : option ConfigProvider * option error :=
  applyOptions opts zeroProvider.

(** ** The document store *)

Definition isNil (v : GoValue) : bool :=
  match v with GNil => true | _ => false end.

Definition nonEmpty (s : string) : bool := negb (String.eqb s "").

(** [p.cfg == nil || len(p.cfg) == 0]. *)
Definition emptyBuffer (c : option Text) : bool :=
  match c with None | Some None => true | Some (Some _) => false end.

(** [string(p.cfg)]. *)
Definition bufferText (c : option Text) : Text :=
  match c with None => None | Some t => t end.

Definition writeConfig (json : Text) : M (option error) :=
  let* _ := modify (with_dirty true) in
  let* _ := modify (with_cfg (Some json)) in
  let* p := getProvider in
  if nonEmpty (fileName p)
  then WriteFile (fileName p) (bufferText (cfg p))
  else ret None.

Definition setConfigFromFile : M unit :=
  let* p := getProvider in
  let* w := getWorld in
  match ReadFile w (fileName p) with
  | None => ret tt
  | Some data => modify (with_cfg (Some data))
  end.

(** The loop of [setDefaultConfig], over the calls [p.Set]. *)
Fixpoint setDefaults (set : ConfigKey -> GoValue -> M (option error))
  (fs : list FieldDefinition) : M unit :=
  match fs with
  | [] => ret tt
  | v :: rest =>
      if negb (isNil (Default v))
      then let* err := set (Key v) (Default v) in
           match err with
           | Some _ => fatal
           | None => setDefaults set rest
           end
      else setDefaults set rest
  end.

Definition setDefaultConfigWith (set : ConfigKey -> GoValue -> M (option error))
  : M unit :=
  let* p := getProvider in
  setDefaults set (fields p).

Definition getConfigWith (set : ConfigKey -> GoValue -> M (option error))
  : M Text :=
  let* p := getProvider in
  let* _ :=
    (if negb (settingDefaults p)
        && (match cfg p with None => true | Some _ => false end || dirty p)
     then
       let* _ := (if nonEmpty (fileName p) then setConfigFromFile else ret tt) in
       let* p1 := getProvider in
       let* _ :=
         (if emptyBuffer (cfg p1)
          then let* _ := modify (with_settingDefaults true) in
               let* _ := setDefaultConfigWith set in
               modify (with_settingDefaults false)
          else ret tt) in
       modify (with_dirty false)
     else ret tt) in
  let* p2 := getProvider in
  ret (bufferText (cfg p2)).

(** ** The accessors *)

(** The path of a key, as [GetWithScope] and [SetWithScope] both build
    it: the key, under the scope of the call when there is one, under
    the scope of the provider when there is one. *)
Definition resolvePath (p : ConfigProvider) (scope' : string) (key : ConfigKey)
  : string :=
  let path := key in
  let path := if nonEmpty scope' then scope' ++ "." ++ key else path in
  if nonEmpty (scope p) then scope p ++ "." ++ key else path.

(** [SetWithScope], [Set], [setDefaultConfig] and [getConfig] call one
    another; [fuel] bounds the nesting of these calls. *)
Fixpoint SetWithScope (fuel : nat) (scope' : string) (key : ConfigKey)
  (value : GoValue) : M (option error) :=
  match fuel with
  | O => fun _ _ => OutOfFuel
  | S fuel' =>
      let* p := getProvider in
      let v := getFieldDefinition p key in
      let validation :=
        match v with
        | Some d =>
            match ValidationFunc d with
            | Some f => f key value
            | None => None
            end
        | None =>
            if explicitValues p
            then Some (Errorf "key '%s' is not valid, valid keys are: %v"
                              [AStr key; AKeys (getConfigValueKeys p)])
            else None
        end in
      match validation with
      | Some err => ret (Some err)
      | None =>
          let key :=
            match v with
            | Some d => if negb (CaseSensitive d) then Key d else key
            | None => key
            end in
          let path := resolvePath p scope' key in
          let* _ := Lock in
          let* json :=
            getConfigWith (fun k d => SetWithScope fuel' "" k d) in
          match sjson_Set json (escapeWildcards path) value with
          | (_, Some err) => let* _ := Unlock in ret (Some err)
          | (cfg', None) =>
              let* err := writeConfig cfg' in
              let* _ := Unlock in
              ret err
          end
      end
  end.

(** [Set] (the name is taken in Rocq). *)
Definition Set' (fuel : nat) (key : ConfigKey) (value : GoValue)
  : M (option error) :=
  SetWithScope fuel "" key value.

Definition setDefaultConfig (fuel : nat) : M unit :=
  setDefaultConfigWith (Set' fuel).

Definition getConfig (fuel : nat) : M Text := getConfigWith (Set' fuel).

Definition getFromConfig (fuel : nat) (path : string) : M (Json + error) :=
  let* json := getConfig fuel in
  match gjson_Get json path with
  | None => ret (inr (Errorf "no value found at path %s" [AStr path]))
  | Some res => ret (inl res)
  end.

Definition GetWithScope (fuel : nat) (scope' : string) (key : ConfigKey)
  : M (GoValue * option error) :=
  let* p := getProvider in
  let* w := getWorld in
  let d := getFieldDefinition p key in
  match match d with
        | Some d => LookupEnv w (EnvVar d)
        | None => None
        end with
  | Some e => ret (GString e, None)
  | None =>
      let key :=
        match d with
        | Some d => if negb (CaseSensitive d) then Key d else key
        | None => key
        end in
      let path := resolvePath p scope' key in
      let* r := getFromConfig fuel path in
      match r with
      | inr err => ret (GString "", Some err)
      | inl res => ret (Value res, None)
      end
  end.

Definition Get (fuel : nat) (key : ConfigKey) : M (GoValue * option error) :=
  GetWithScope fuel "" key.

Definition RemoveScope (fuel : nat) (scope' : string) : M (option error) :=
  let* p := getProvider in
  let path := if nonEmpty (scope p) then scope p ++ "." ++ scope' else scope' in
  let* _ := Lock in
  let* json := getConfig fuel in
  match sjson_Delete json path with
  | (_, Some err) => let* _ := Unlock in ret (Some err)
  | (cfg', None) =>
      let* err := writeConfig cfg' in
      let* _ := Unlock in
      ret err
  end.

Definition GetScopes (fuel : nat) : M (list string) :=
  let* json := getConfig fuel in
  ret (topLevelKeys json).

(** ** The typed accessors *)

(** The value of a run of decimal digits, or [None] at another byte. *)
Fixpoint digitsValue (acc : Z) (s : string) : option Z :=
  match s with
  | EmptyString => Some acc
  | String c rest =>
      if isDigit c
      then digitsValue (acc * 10 + (Z.of_N (N_of_ascii c) - 48)) rest
      else None
  end.

Definition inInt64 (n : Z) : bool := (- 2 ^ 63 <=? n) && (n <? 2 ^ 63).

(** [strconv.Atoi] on a 64-bit platform: an optional sign and at least
    one decimal digit, within the range of [int]; [None] is an
    error. *)
Definition Atoi (s : string) : option Z :=
  let digits (sign : Z) (body : string) :=
    match body with
    | EmptyString => None
    | _ =>
        match digitsValue 0 body with
        | Some n => if inInt64 (sign * n) then Some (sign * n) else None
        | None => None
        end
    end in
  match s with
  | EmptyString => None
  | String c rest =>
      if Ascii.eqb c "-" then digits (-1) rest
      else if Ascii.eqb c "+" then digits 1 rest
      else digits 1 s
  end.

(** [int64(v)] for a float64 that is a whole number.  Outside the
    range of int64 the result depends on the platform; the model takes
    the one of amd64. *)
Definition int64_of_float64 (x : Z) : Z :=
  if inInt64 x then x else - 2 ^ 63.

Definition GetIntWithScope (fuel : nat) (scope' : string) (key : ConfigKey)
  : M (Z * option error) :=
  let* r := GetWithScope fuel scope' key in
  match r with
  | (_, Some err) => ret (0, Some err)
  | (v, None) =>
      match v with
      | GFloat64 x => ret (int64_of_float64 x, None)
      | GString s =>
          match Atoi s with
          | Some i => ret (i, None)
          | None =>
              ret (0, Some (Errorf "value %v for key %s is not an int"
                              [AValue v; AStr key]))
          end
      | _ => ret (0, Some (Errorf "value %v for key %s is not an int"
                             [AValue v; AStr key]))
      end
  end.

Definition GetStringWithScope (fuel : nat) (scope' : string) (key : ConfigKey)
  : M (string * option error) :=
  let* r := GetWithScope fuel scope' key in
  match r with
  | (_, Some err) => ret ("", Some err)
  | (v, None) =>
      match v with
      | GString s => ret (s, None)
      | _ => ret ("", Some (Errorf "value %v for key %s is not a string"
                              [AValue v; AStr key]))
      end
  end.

Definition GetInt (fuel : nat) (key : ConfigKey) : M (Z * option error) :=
  GetIntWithScope fuel "" key.

Definition GetString (fuel : nat) (key : ConfigKey)
  : M (string * option error) :=
  GetStringWithScope fuel "" key.

(** The calls of [fn] made by [VisitAllFieldsWithScope], in order. *)
Definition VisitAllFieldsWithScope {A : Type} (p : ConfigProvider)
  (scope' : string) (fn : FieldDefinition -> A) : list A :=
  map fn (fields p).

(** ** Vocabulary of the statements *)

(** A path without wildcard bytes. *)
Fixpoint noWildcards (s : string) : bool :=
  match s with
  | EmptyString => true
  | String c rest => negb (isWildcard c) && noWildcards rest
  end.

Definition lit (k : string) : component := {| part := k; wild := false |}.

(** The check at the head of [SetWithScope]: the validation function of
    the definition, or the refusal of an unknown key. *)
Definition validateSet (p : ConfigProvider) (key : ConfigKey) (value : GoValue)
  : option error :=
  match getFieldDefinition p key with
  | Some d =>
      match ValidationFunc d with
      | Some f => f key value
      | None => None
      end
  | None =>
      if explicitValues p
      then Some (Errorf "key '%s' is not valid, valid keys are: %v"
                        [AStr key; AKeys (getConfigValueKeys p)])
      else None
  end.

(** The key with the case convention of its definition. *)
Definition canonicalKey (p : ConfigProvider) (key : ConfigKey) : ConfigKey :=
  match getFieldDefinition p key with
  | Some d => if negb (CaseSensitive d) then Key d else key
  | None => key
  end.

(** The environment variable that overrides a key, when one is set. *)
Definition envOverride (p : ConfigProvider) (w : World) (key : ConfigKey)
  : option string :=
  match getFieldDefinition p key with
  | Some d => LookupEnv w (EnvVar d)
  | None => None
  end.

(** The part of [SetWithScope] that runs under the mutex. *)
Definition lockedSet (fuel : nat) (path : string) (value : GoValue)
  : M (option error) :=
  let* _ := Lock in
  let* json := getConfig fuel in
  match sjson_Set json (escapeWildcards path) value with
  | (_, Some err) => let* _ := Unlock in ret (Some err)
  | (cfg', None) =>
      let* err := writeConfig cfg' in
      let* _ := Unlock in
      ret err
  end.

(** The setup of the provider (registry, file name, scope, mode), the
    two flags as seen between calls, the environment and the set of
    unwritable files. *)
Record frame (p : ConfigProvider) (w : World) (p' : ConfigProvider)
  (w' : World) : Prop := {
  frame_fields : fields p' = fields p;
  frame_fileName : fileName p' = fileName p;
  frame_scope : scope p' = scope p;
  frame_explicitValues : explicitValues p' = explicitValues p;
  frame_settingDefaults : settingDefaults p' = settingDefaults p;
  frame_mu : mu p' = mu p;
  frame_environ : environ w' = environ w;
  frame_unwritable : unwritable w' = unwritable w
}.

(** Two providers with the same registry, scope and mode. *)
Definition sameSetup (p p' : ConfigProvider) : Prop :=
  fields p' = fields p /\ scope p' = scope p
  /\ explicitValues p' = explicitValues p.

(** A method keeps the frame when every call that returns does. *)
Definition keepsFrame {A : Type} (m : M A) : Prop :=
  forall p w a p' w', m p w = Returns a p' w' -> frame p w p' w'.

Definition plainByte (c : ascii) : bool :=
  isLetter c || isDigit c || Ascii.eqb c "_" || Ascii.eqb c "-".

Definition keyStart (c : ascii) : bool := isLetter c || Ascii.eqb c "_".

(** A plain path: keys joined by dots, each key a letter or underscore
    followed by letters, digits, underscores and hyphens.  On these
    paths the path syntax has no operator but the dot. *)
Fixpoint plainFrom (start : bool) (s : string) : bool :=
  match s with
  | EmptyString => negb start
  | String c rest =>
      if Ascii.eqb c "."
      then negb start && plainFrom true rest
      else (if start then keyStart c else plainByte c) && plainFrom false rest
  end.

Definition plainPath (s : string) : bool := plainFrom true s.

(** ** Sample registries and worlds *)

Definition sampleField (key : ConfigKey) (envVar : string) (default : GoValue)
  (caseSensitive : bool) (validate : option ConfigValueValidationFunc)
  : FieldDefinition :=
  {| EnvVar := envVar; Key := key; Default := default;
     CaseSensitive := caseSensitive; Sensitive := false;
     ValidationFunc := validate |}.

Definition regionField : FieldDefinition :=
  sampleField "region" "NEW_RELIC_REGION" (GString "us") false
              (Some (StringInStrings false ["us"; "eu"])).

Definition apiKeyField : FieldDefinition :=
  sampleField "apiKey" "" GNil false None.

Definition emptyWorld : World :=
  {| environ := ∅; files := ∅; unwritable := ∅ |}.

Definition regionWorld : World :=
  {| environ := {[ "NEW_RELIC_REGION" := "eu" ]}; files := ∅; unwritable := ∅ |}.

Definition sampleProvider : ConfigProvider :=
  with_fields [regionField; apiKeyField] zeroProvider.

(** ** Reading back, as the specification words it *)

(** A successful set followed by a get of the same key, in the same
    scope, gives the value that was set, unless an environment variable
    overrides the key. *)
Definition roundTripAsStated (fuel : nat) (p : ConfigProvider) (w : World)
  (scope' : string) (key : ConfigKey) (value : GoValue) : Prop :=
  forall p' w',
    SetWithScope fuel scope' key value p w = Returns None p' w' ->
    envOverride p w key = None ->
    exists p'' w'',
      GetWithScope fuel scope' key p' w' = Returns (value, None) p'' w''.

(** The values JSON gives back as they were written: nil, booleans,
    strings, and the float64 that are whole numbers. *)
Definition exactInJSON (v : GoValue) : bool :=
  match v with
  | GNil | GBool _ | GString _ => true
  | GFloat64 x => float64_of_Z x =? x
  | GInt _ | GMap _ => false
  end.

(** The keys, from the root of the document, of the path of a key in
    the scope of the provider. *)
Definition defaultPath (p : ConfigProvider) (key : ConfigKey) : string :=
  resolvePath p "" (canonicalKey p key).

Definition pathKeys (path : string) : list string :=
  map part (parsePath path).

(** Neither path leads through the other. *)
Definition apart (ks1 ks2 : list string) : Prop :=
  ~ ks1 `prefix_of` ks2 /\ ~ ks2 `prefix_of` ks1.

(** The object a text denotes for a write. *)
Definition rootOf (json : Text) : Json :=
  match json with Some j => j | None => JNull end.

(** The buffer after the defaults of the definitions [fs] have been
    written in order, starting from the buffer [c]. *)
Fixpoint materialize (p : ConfigProvider) (c : option Text)
  (fs : list FieldDefinition) : option Text :=
  match fs with
  | [] => c
  | d :: rest =>
      if negb (isNil (Default d))
      then materialize p
             (Some (Some (setComponents (pathKeys (defaultPath p (Key d)))
                            (toJSON (Default d)) (rootOf (bufferText c)))))
             rest
      else materialize p c rest
  end.

(** A provider as [NewConfigProvider] leaves it when no file is
    configured: nothing loaded, mutex free. *)
Definition fresh (p : ConfigProvider) : Prop :=
  cfg p = None /\ fileName p = "" /\ mu p = false /\ settingDefaults p = false.

(** Defaults as the specification words them: the default itself comes
    back from the first get. *)
Definition defaultsAsStated (fuel : nat) (fs : list FieldDefinition)
  (w : World) : Prop :=
  forall p D,
    NewConfigProvider [Some (WithFieldDefinitions fs)] = (Some p, None) ->
    In D fs -> Default D <> GNil -> envOverride p w (Key D) = None ->
    exists p' w', Get fuel (Key D) p w = Returns (Default D, None) p' w'.

Definition retriesField : FieldDefinition :=
  sampleField "retries" "" (GInt 3) false (Some (IntGreaterThan 0)).

(** ** Escaping, as the specification words it *)

(** [getFromConfig] and [RemoveScope] with the wildcards of the path
    escaped before the JSON operation, as [SetWithScope] does. *)
Definition getFromConfig_escaped (fuel : nat) (path : string)
  : M (Json + error) :=
  let* json := getConfig fuel in
  match gjson_Get json (escapeWildcards path) with
  | None => ret (inr (Errorf "no value found at path %s" [AStr path]))
  | Some res => ret (inl res)
  end.

Definition RemoveScope_escaped (fuel : nat) (scope' : string)
  : M (option error) :=
  let* p := getProvider in
  let path := if nonEmpty (scope p) then scope p ++ "." ++ scope' else scope' in
  let* _ := Lock in
  let* json := getConfig fuel in
  match sjson_Delete json (escapeWildcards path) with
  | (_, Some err) => let* _ := Unlock in ret (Some err)
  | (cfg', None) =>
      let* err := writeConfig cfg' in
      let* _ := Unlock in
      ret err
  end.

(** A loaded provider whose document has a key with a wildcard byte
    after a key the wildcard matches. *)
Definition wildcardProvider : ConfigProvider :=
  with_cfg (Some (Some (JObject [("ab", JString "x"); ("a*", JString "y")])))
           zeroProvider.

(** ** Registration and unknown keys, as the specification words them *)

Definition duplicateKeyError (d : FieldDefinition) : error :=
  Errorf
    "unable to add case-insensitive field definition for %s, another field already defined with matching case-folded key"
    [AStr (Key d)].

Definition register (ds : list FieldDefinition)
  : option ConfigProvider * option error :=
  NewConfigProvider [Some (WithFieldDefinitions ds)].

(** One case-sensitive and one case-insensitive definition with the
    same case-folded key can be registered in either order. *)
Definition mixedCaseAsStated (d1 d2 : FieldDefinition) : Prop :=
  CaseSensitive d1 = true -> CaseSensitive d2 = false ->
  EqualFold (Key d1) (Key d2) = true ->
  snd (register [d1; d2]) = None /\ snd (register [d2; d1]) = None.

Definition unknownKeyError (p : ConfigProvider) (key : ConfigKey) : error :=
  Errorf "key '%s' is not valid, valid keys are: %v"
         [AStr key; AKeys (getConfigValueKeys p)].

(** Outside the explicit-values mode, a set of an unregistered key
    succeeds and a get retrieves the value. *)
Definition unknownKeySetAsStated (fuel : nat) (p : ConfigProvider) (w : World)
  (key : ConfigKey) (value : GoValue) : Prop :=
  getFieldDefinition p key = None -> explicitValues p = false ->
  exists p' w',
    Set' fuel key value p w = Returns None p' w'
    /\ exists p'' w'', Get fuel key p' w' = Returns (value, None) p'' w''.

Definition readOnlyWorld : World :=
  {| environ := ∅; files := ∅; unwritable := {[ "/etc/newrelic.json" ]} |}.

(** A loaded provider whose backing file cannot be written. *)
Definition readOnlyProvider : ConfigProvider :=
  with_fileName "/etc/newrelic.json"
    (with_cfg (Some (Some (JObject [("region", JString "us")]))) zeroProvider).

(** ** Vocabulary of the further properties *)

(** The definitions [ds] can be registered after the definitions
    [seen]: no case-insensitive one case-folds to the key of a
    definition in front of it. *)
Definition registrable (seen ds : list FieldDefinition) : Prop :=
  forall l1 d l2,
    ds = (l1 ++ d :: l2)%list -> CaseSensitive d = false ->
    forall d', In d' (seen ++ l1)%list -> EqualFold (Key d') (Key d) = false.

(** A path without a backslash. *)
Fixpoint noBackslash (s : string) : bool :=
  match s with
  | EmptyString => true
  | String c rest => negb (Ascii.eqb c "\") && noBackslash rest
  end.

(** A key of plain bytes and wildcards: a plain path in which [*] and
    [?] may stand for any byte of a key. *)
Fixpoint wildPlainFrom (start : bool) (s : string) : bool :=
  match s with
  | EmptyString => negb start
  | String c rest =>
      if Ascii.eqb c "."
      then negb start && wildPlainFrom true rest
      else ((if start then keyStart c else plainByte c) || isWildcard c)
           && wildPlainFrom false rest
  end.

Definition wildPlainPath (s : string) : bool := wildPlainFrom true s.

(** The registry has ASCII keys only. *)
Definition asciiKeys (ds : list FieldDefinition) : bool :=
  forallb (fun d => isASCII (Key d)) ds.

(** The buffer after the attempt of [getConfig] to read the file. *)
Definition bufferAfterFile (p : ConfigProvider) (w : World) : option Text :=
  if nonEmpty (fileName p)
  then match ReadFile w (fileName p) with
       | Some data => Some data
       | None => cfg p
       end
  else cfg p.

(** [getConfig] has defaults to write: it loads, finds the buffer empty
    after the file, and some definition has a default. *)
Definition loadWritesDefaults (p : ConfigProvider) (w : World) : bool :=
  negb (settingDefaults p)
  && (match cfg p with None => true | Some _ => false end || dirty p)
  && emptyBuffer (bufferAfterFile p w)
  && negb (forallb (fun d => isNil (Default d)) (fields p)).

(** A key of one component: no dot, no backslash, no wildcard. *)
Fixpoint simpleKey (s : string) : bool :=
  match s with
  | EmptyString => true
  | String c rest =>
      negb (Ascii.eqb c ".") && negb (Ascii.eqb c "\")
      && negb (isWildcard c) && simpleKey rest
  end.

(** A plain key: a plain path of one component. *)
Definition plainKey (s : string) : bool := plainPath s && simpleKey s.

(** * Properties *)

(** ** Strings *)

Lemma foldByte_idem (c : ascii) : foldByte (foldByte c) = foldByte c.
Proof. destruct c as [[] [] [] [] [] [] [] []]; reflexivity. Qed.

Lemma EqualFold_refl (s : string) : EqualFold s s = true.
Proof.
  induction s as [|c s IH]; simpl; [reflexivity|].
  rewrite Ascii.eqb_refl, IH. reflexivity.
Qed.

Lemma EqualFold_sym (s t : string) : EqualFold s t = EqualFold t s.
Proof.
  revert t. induction s as [|a s IH]; intros [|b t]; simpl; try reflexivity.
  rewrite IH. f_equal. apply Ascii.eqb_sym.
Qed.

Lemma EqualFold_trans (s t u : string) :
  EqualFold s t = true -> EqualFold t u = true -> EqualFold s u = true.
Proof.
  revert t u. induction s as [|a s IH]; intros [|b t] [|c u]; simpl;
    try discriminate; try reflexivity.
  intros [Hab Hst]%andb_prop [Hbc Htu]%andb_prop.
  apply Ascii.eqb_eq in Hab, Hbc. rewrite Hab, Hbc, Ascii.eqb_refl. simpl.
  eapply IH; eassumption.
Qed.

Lemma String_eqb_EqualFold (s t : string) :
  String.eqb s t = true -> EqualFold s t = true.
Proof. intros ->%String.eqb_eq. apply EqualFold_refl. Qed.

Lemma escapeWildcards_id (s : string) :
  noWildcards s = true -> escapeWildcards s = s.
Proof.
  induction s as [|c s IH]; simpl; [reflexivity|].
  intros [Hc Hs]%andb_prop. apply negb_true_iff in Hc. rewrite Hc.
  f_equal. auto.
Qed.

Lemma noWildcards_app (s t : string) :
  noWildcards (s ++ t) = noWildcards s && noWildcards t.
Proof.
  induction s as [|c s IH]; simpl; [reflexivity|].
  rewrite IH. apply andb_assoc.
Qed.

(** ** The path operations on documents *)

Lemma existsb_wild_consChar c w cs :
  cs <> [] -> existsb wild (consChar c w cs) = w || existsb wild cs.
Proof.
  destruct cs as [|h t]; [congruence|]. intros _. simpl.
  destruct (wild h), w, (existsb wild t); reflexivity.
Qed.

Lemma parsePath_nonempty (path : string) : parsePath path <> [].
Proof.
  assert (H : forall n path, (String.length path <= n)%nat -> parsePath path <> []).
  { clear path. induction n as [|n IH]; intros [|c rest] Hlen; simpl in *;
      try discriminate; try lia.
    destruct (Ascii.eqb c "."); [discriminate|].
    destruct (Ascii.eqb c "\").
    - destruct rest as [|e rest']; [discriminate|].
      simpl in Hlen.
      specialize (IH rest' ltac:(lia)).
      destruct (parsePath rest'); [congruence|discriminate].
    - specialize (IH rest ltac:(lia)).
      destruct (parsePath rest); [congruence|discriminate]. }
  eapply H. reflexivity.
Qed.

Lemma parsePath_noWildcards (path : string) :
  noWildcards path = true -> existsb wild (parsePath path) = false.
Proof.
  assert (H : forall n path, (String.length path <= n)%nat ->
              noWildcards path = true -> existsb wild (parsePath path) = false).
  { clear path. induction n as [|n IH]; intros [|c rest] Hlen; simpl in *;
      try reflexivity; try lia.
    intros [Hc Hrest]%andb_prop. apply negb_true_iff in Hc.
    destruct (Ascii.eqb c ".").
    { simpl. apply IH; [lia|assumption]. }
    destruct (Ascii.eqb c "\").
    - destruct rest as [|e rest']; [reflexivity|].
      simpl in Hlen, Hrest. apply andb_prop in Hrest as [_ Hrest'].
      rewrite existsb_wild_consChar by apply parsePath_nonempty.
      simpl. apply IH; [lia|assumption].
    - rewrite existsb_wild_consChar by apply parsePath_nonempty.
      rewrite Hc. simpl. apply IH; [lia|assumption]. }
  eapply H. reflexivity.
Qed.

Lemma literal_components (cs : list component) :
  existsb wild cs = false -> cs = map lit (map part cs).
Proof.
  induction cs as [|[k w] cs IH]; simpl; [reflexivity|].
  intros [Hw Hcs]%orb_false_elim. simpl in Hw. subst w.
  f_equal. auto.
Qed.

Lemma componentMatch_lit (k key : string) :
  componentMatch (lit k) key = String.eqb k key.
Proof. reflexivity. Qed.

Lemma firstHit_app {A B} (f : A -> option B) (l1 l2 : list A) :
  firstHit f (l1 ++ l2) =
  match firstHit f l1 with Some y => Some y | None => firstHit f l2 end.
Proof.
  induction l1 as [|x l1 IH]; simpl; [reflexivity|].
  destruct (f x); [reflexivity|apply IH].
Qed.

Lemma firstHit_none {A B} (f : A -> option B) (l : list A) :
  (forall x, In x l -> f x = None) -> firstHit f l = None.
Proof.
  induction l as [|x l IH]; simpl; [reflexivity|].
  intros H. rewrite (H x) by auto. apply IH. auto.
Qed.

Lemma hasKey_false k ms :
  hasKey k ms = false -> forall m, In m ms -> String.eqb k (fst m) = false.
Proof.
  unfold hasKey. intros H m Hm.
  destruct (String.eqb k (fst m)) eqn:E; [|reflexivity].
  assert (existsb (fun m => String.eqb k (fst m)) ms = true)
    by (apply existsb_exists; eauto).
  congruence.
Qed.

(** Reading a member after [replaceFirst]: the scan meets the rewritten
    member first. *)
Lemma firstHit_replaceFirst k (f : Json -> Json) (g : Json -> option Json) ms :
  hasKey k ms = true ->
  firstHit (fun m : string * Json =>
              if String.eqb k (fst m) then g (snd m) else None)
           (replaceFirst k f ms) =
  match firstHit (fun m : string * Json =>
                    if String.eqb k (fst m) then Some (snd m) else None) ms with
  | Some v =>
      match g (f v) with
      | Some r => Some r
      | None =>
          firstHit (fun m : string * Json =>
                      if String.eqb k (fst m) then g (snd m) else None)
                   (removeFirst k ms)
      end
  | None => None
  end.
Proof.
  induction ms as [|[k' v'] ms IH]; simpl; [discriminate|].
  destruct (String.eqb k k') eqn:E; simpl.
  - intros _. rewrite E. reflexivity.
  - intros H. rewrite E. rewrite IH by assumption.
    destruct (firstHit _ ms); [|reflexivity].
    destruct (g (f j)); reflexivity.
Qed.

(** Reading back what was just written, along a path of literal keys. *)
Lemma getComponents_setComponents (ks : list string) (raw j : Json) :
  getComponents (map lit ks) (setComponents ks raw j) = Some raw.
Proof.
  revert j. induction ks as [|k ks IH]; intros j; simpl; [reflexivity|].
  destruct (hasKey k (membersOf j)) eqn:Hk.
  - assert (Hfun : forall ms,
      firstHit (fun m : string * Json =>
                  if componentMatch (lit k) (fst m)
                  then getComponents (map lit ks) (snd m) else None) ms =
      firstHit (fun m : string * Json =>
                  if String.eqb k (fst m)
                  then getComponents (map lit ks) (snd m) else None) ms)
      by reflexivity.
    rewrite Hfun, firstHit_replaceFirst by assumption.
    destruct (firstHit _ (membersOf j)) eqn:Hf.
    + rewrite IH. reflexivity.
    + exfalso. clear -Hk Hf. induction (membersOf j) as [|m ms IHm];
        simpl in *; [discriminate|].
      destruct (String.eqb k (fst m)); [discriminate|]. auto.
  - rewrite firstHit_app. rewrite firstHit_none.
    + cbn [firstHit fst snd]. rewrite componentMatch_lit, String.eqb_refl.
      rewrite IH. reflexivity.
    + intros m Hm. rewrite componentMatch_lit.
      rewrite (hasKey_false _ _ Hk m Hm). reflexivity.
Qed.

(** [sjson.Set] followed by [gjson.Get] on the same path, when the path
    has no wildcard byte. *)
Lemma gjson_Get_sjson_Set (json : Text) (path : string) (value : GoValue) :
  path <> "" -> noWildcards path = true ->
  exists j', sjson_Set json path value = (Some j', None)
             /\ gjson_Get (Some j') path = Some (toJSON value).
Proof.
  intros Hne Hnw. unfold sjson_Set.
  destruct (String.eqb path "") eqn:E;
    [apply String.eqb_eq in E; contradiction|].
  rewrite parsePath_noWildcards by assumption.
  eexists. split; [reflexivity|]. simpl.
  rewrite (literal_components (parsePath path)) at 1
    by (apply parsePath_noWildcards; assumption).
  apply getComponents_setComponents.
Qed.

(** ** The steps of [SetWithScope] *)

Lemma SetWithScope_S fuel scope' key value p w :
  SetWithScope (S fuel) scope' key value p w =
  match validateSet p key value with
  | Some err => Returns (Some err) p w
  | None => lockedSet fuel (resolvePath p scope' (canonicalKey p key)) value p w
  end.
Proof.
  unfold validateSet, canonicalKey. cbn [SetWithScope].
  unfold bind at 1. unfold getProvider at 1.
  destruct (getFieldDefinition p key) as [d|].
  - destruct (ValidationFunc d) as [f|]; [destruct (f key value)|]; reflexivity.
  - destruct (explicitValues p); reflexivity.
Qed.

(** The path under which [GetWithScope] reads. *)
Lemma GetWithScope_unfold fuel scope' key p w :
  GetWithScope fuel scope' key p w =
  match envOverride p w key with
  | Some e => Returns (GString e, None) p w
  | None =>
      match getConfig fuel p w with
      | Returns json p' w' =>
          match gjson_Get json (resolvePath p scope' (canonicalKey p key)) with
          | Some res => Returns (Value res, None) p' w'
          | None =>
              Returns (GString "",
                       Some (Errorf "no value found at path %s"
                               [AStr (resolvePath p scope' (canonicalKey p key))]))
                      p' w'
          end
      | Exits p' w' => Exits p' w'
      | Blocks p' w' => Blocks p' w'
      | OutOfFuel => OutOfFuel
      end
  end.
Proof.
  unfold GetWithScope, canonicalKey, getFromConfig, envOverride.
  unfold bind at 1. unfold getProvider at 1.
  unfold bind at 1. unfold getWorld at 1.
  destruct (getFieldDefinition p key) as [d|].
  - destruct (LookupEnv w (EnvVar d)); [reflexivity|].
    unfold bind. destruct (getConfig fuel p w); try reflexivity.
    destruct (gjson_Get _ _); reflexivity.
  - unfold bind. destruct (getConfig fuel p w); try reflexivity.
    destruct (gjson_Get _ _); reflexivity.
Qed.

(** ** What the methods leave alone *)

Lemma frame_refl p w : frame p w p w.
Proof. split; reflexivity. Qed.

Lemma frame_trans p1 w1 p2 w2 p3 w3 :
  frame p1 w1 p2 w2 -> frame p2 w2 p3 w3 -> frame p1 w1 p3 w3.
Proof. intros [] []. split; congruence. Qed.

Lemma keepsFrame_ret {A} (a : A) : keepsFrame (ret a).
Proof. intros p w a' p' w' [= <- <- <-]. apply frame_refl. Qed.

Lemma keepsFrame_bind {A B} (m : M A) (f : A -> M B) :
  keepsFrame m -> (forall a, keepsFrame (f a)) -> keepsFrame (bind m f).
Proof.
  intros Hm Hf p w b p' w' H. unfold bind in H.
  destruct (m p w) as [a p1 w1| | |] eqn:E; try discriminate.
  eapply frame_trans; [eapply Hm; eassumption|eapply Hf; eassumption].
Qed.

Lemma keepsFrame_writeConfig json : keepsFrame (writeConfig json).
Proof.
  intros p w a p' w' H. unfold writeConfig, bind, modify, getProvider in H.
  cbn in H. destruct (nonEmpty (fileName p)).
  - unfold WriteFile in H. destruct (decide _);
      injection H as <- <- <-; split; reflexivity.
  - injection H as <- <- <-. split; reflexivity.
Qed.

Lemma keepsFrame_setConfigFromFile : keepsFrame setConfigFromFile.
Proof.
  intros p w a p' w' H.
  unfold setConfigFromFile, bind, modify, getProvider, getWorld, ret in H.
  destruct (ReadFile w (fileName p)); injection H as <- <- <-;
    split; reflexivity.
Qed.

Lemma keepsFrame_setDefaults set fs :
  (forall k v, keepsFrame (set k v)) -> keepsFrame (setDefaults set fs).
Proof.
  intros Hset. induction fs as [|d fs IH]; simpl.
  - apply keepsFrame_ret.
  - destruct (negb (isNil (Default d))); [|assumption].
    apply keepsFrame_bind; [apply Hset|].
    intros [err|]; [|assumption].
    intros p w a p' w' H. discriminate.
Qed.

Lemma keepsFrame_getConfigWith set :
  (forall k v, keepsFrame (set k v)) -> keepsFrame (getConfigWith set).
Proof.
  intros Hset p w json p' w' H.
  unfold getConfigWith in H. unfold bind at 1 in H. unfold getProvider at 1 in H.
  unfold bind at 1 in H.
  destruct (negb (settingDefaults p) && _) eqn:Htrig.
  2:{ injection H as <- <- <-. apply frame_refl. }
  apply andb_prop in Htrig as [Hsd _]. apply negb_true_iff in Hsd.
  unfold bind at 1 in H.
  destruct ((if nonEmpty (fileName p) then setConfigFromFile else ret tt) p w)
    as [[] p1 w1| | |] eqn:E1; try discriminate.
  assert (F1 : frame p w p1 w1).
  { destruct (nonEmpty (fileName p));
      [eapply keepsFrame_setConfigFromFile|eapply keepsFrame_ret]; eassumption. }
  unfold bind at 1 in H. unfold getProvider at 1 in H.
  unfold bind at 1 in H.
  destruct (emptyBuffer (cfg p1)).
  - unfold bind at 1 in H. unfold modify at 1 in H.
    unfold bind at 1 in H.
    destruct (setDefaultConfigWith set (with_settingDefaults true p1) w1)
      as [[] p2 w2| | |] eqn:E2; try discriminate.
    assert (F2 : frame (with_settingDefaults true p1) w1 p2 w2).
    { unfold setDefaultConfigWith, bind, getProvider in E2.
      eapply keepsFrame_setDefaults; eassumption. }
    cbn in H. injection H as <- <- <-.
    destruct F1, F2. cbn in *. split; cbn; congruence.
  - cbn in H. injection H as <- <- <-.
    destruct F1. split; cbn; congruence.
Qed.

Lemma keepsFrame_SetWithScope fuel scope' key value :
  keepsFrame (SetWithScope fuel scope' key value).
Proof.
  revert scope' key value. induction fuel as [|fuel IH]; intros scope' key value.
  { intros p w a p' w' H. discriminate. }
  intros p w a p' w' H. rewrite SetWithScope_S in H.
  destruct (validateSet p key value).
  { injection H as <- <- <-. apply frame_refl. }
  unfold lockedSet in H. unfold bind at 1 in H. unfold Lock at 1 in H.
  destruct (mu p) eqn:Hmu; [discriminate|].
  unfold bind at 1 in H.
  destruct (getConfig fuel (with_mu true p) w) as [json p1 w1| | |] eqn:E1;
    try discriminate.
  assert (F1 : frame (with_mu true p) w p1 w1).
  { eapply keepsFrame_getConfigWith; [|exact E1]. intros k v. apply IH. }
  destruct (sjson_Set json _ value) as [cfg' [err|]].
  - cbn in H. injection H as <- <- <-. destruct F1. cbn in *.
    split; cbn; congruence.
  - unfold bind at 1 in H.
    destruct (writeConfig cfg' p1 w1) as [e p2 w2| | |] eqn:E2; try discriminate.
    apply keepsFrame_writeConfig in E2.
    cbn in H. injection H as <- <- <-. destruct F1, E2. cbn in *.
    split; cbn; congruence.
Qed.

Lemma keepsFrame_getConfig fuel : keepsFrame (getConfig fuel).
Proof.
  apply keepsFrame_getConfigWith. intros k v. apply keepsFrame_SetWithScope.
Qed.

(** ** Loading the document *)

(** [getConfig] does nothing while defaults are being set, or when the
    buffer is there and clean. *)
Lemma getConfigWith_skip set p w :
  settingDefaults p = true \/ (cfg p <> None /\ dirty p = false) ->
  getConfigWith set p w = Returns (bufferText (cfg p)) p w.
Proof.
  intros H. unfold getConfigWith. unfold bind at 1. unfold getProvider at 1.
  unfold bind at 1.
  assert (negb (settingDefaults p)
          && (match cfg p with None => true | Some _ => false end || dirty p)
          = false) as ->; [|reflexivity].
  destruct H as [->|[Hc ->]]; [reflexivity|].
  destruct (cfg p); [|congruence]. apply andb_false_r.
Qed.

(** A buffer that holds a document, mirrored in the file when there is
    one, is what [getConfig] returns, reloaded or not. *)
Lemma getConfigWith_written set p w j :
  cfg p = Some (Some j) ->
  (nonEmpty (fileName p) = true -> ReadFile w (fileName p) = Some (Some j)) ->
  exists p', getConfigWith set p w = Returns (Some j) p' w
             /\ cfg p' = Some (Some j) /\ frame p w p' w.
Proof.
  intros Hcfg Hfile.
  unfold getConfigWith. unfold bind at 1. unfold getProvider at 1.
  unfold bind at 1.
  destruct (negb (settingDefaults p) && _) eqn:Htrig.
  2:{ cbn. rewrite Hcfg. eexists. split; [reflexivity|].
      split; [assumption|apply frame_refl]. }
  apply andb_prop in Htrig as [Hsd _]. apply negb_true_iff in Hsd.
  unfold bind at 1.
  destruct (nonEmpty (fileName p)) eqn:Hfn.
  - unfold setConfigFromFile, bind, getProvider, getWorld, modify, ret.
    rewrite (Hfile eq_refl). cbn.
    eexists. split; [reflexivity|]. split; [reflexivity|].
    split; cbn; congruence.
  - unfold bind, getProvider, modify, ret. rewrite Hcfg. cbn. rewrite Hcfg.
    eexists. split; [reflexivity|]. split; [assumption|].
    split; cbn; congruence.
Qed.

Lemma sjson_Set_ok json path value t :
  sjson_Set json path value = (t, None) ->
  path <> "" /\
  t = Some (setComponents (map part (parsePath path)) (toJSON value)
              (match json with Some j => j | None => JNull end)).
Proof.
  unfold sjson_Set. destruct (String.eqb path "") eqn:E; [discriminate|].
  destruct (existsb wild (parsePath path)); [discriminate|].
  intros [= <-]. split; [|reflexivity].
  intros ->. discriminate.
Qed.

(** What a successful [SetWithScope] leaves behind. *)
Lemma SetWithScope_success fuel scope' key value p w p' w' :
  SetWithScope fuel scope' key value p w = Returns None p' w' ->
  exists json j',
    sjson_Set json (escapeWildcards (resolvePath p scope' (canonicalKey p key)))
              value = (Some j', None)
    /\ cfg p' = Some (Some j') /\ dirty p' = true
    /\ (nonEmpty (fileName p') = true ->
        ReadFile w' (fileName p') = Some (Some j'))
    /\ frame p w p' w'.
Proof.
  intros H. pose proof (keepsFrame_SetWithScope _ _ _ _ _ _ _ _ _ H) as F.
  destruct fuel as [|fuel]; [discriminate|].
  rewrite SetWithScope_S in H.
  destruct (validateSet p key value); [discriminate|].
  unfold lockedSet in H. unfold bind at 1 in H. unfold Lock at 1 in H.
  destruct (mu p); [discriminate|].
  unfold bind at 1 in H.
  destruct (getConfig fuel (with_mu true p) w) as [json p1 w1| | |];
    try discriminate.
  destruct (sjson_Set json _ value) as [cfg' [err|]] eqn:Hset.
  { cbn in H. discriminate. }
  destruct (sjson_Set_ok _ _ _ _ Hset) as [_ ->].
  exists json. eexists. split; [exact Hset|].
  unfold writeConfig, bind, modify, getProvider, Unlock, ret in H. cbn in H.
  destruct (nonEmpty (fileName p1)) eqn:Hfn.
  - unfold WriteFile in H. destruct (decide _); [discriminate|].
    injection H as <- <-. cbn. rewrite Hfn.
    refine (conj eq_refl (conj eq_refl (conj _ F))).
    intros _. unfold ReadFile. cbn. apply lookup_insert_eq.
  - injection H as <- <-. cbn. rewrite Hfn.
    refine (conj eq_refl (conj eq_refl (conj _ F))). discriminate.
Qed.

(** ** Plain paths *)

Lemma plainByte_not_wildcard c : plainByte c = true -> isWildcard c = false.
Proof. destruct c as [[] [] [] [] [] [] [] []]; cbv; congruence. Qed.

Lemma keyStart_plainByte c : keyStart c = true -> plainByte c = true.
Proof. destruct c as [[] [] [] [] [] [] [] []]; cbv; congruence. Qed.

Lemma plainFrom_noWildcards start s :
  plainFrom start s = true -> noWildcards s = true.
Proof.
  revert start. induction s as [|c s IH]; intros start; simpl; [reflexivity|].
  destruct (Ascii.eqb c ".") eqn:Edot.
  - intros [_ H]%andb_prop. apply Ascii.eqb_eq in Edot. subst c.
    simpl. eauto.
  - intros [Hc H]%andb_prop. rewrite (IH _ H), andb_true_r.
    apply negb_true_iff, plainByte_not_wildcard.
    destruct start; [apply keyStart_plainByte|]; assumption.
Qed.

Lemma plainPath_noWildcards s : plainPath s = true -> noWildcards s = true.
Proof. apply plainFrom_noWildcards. Qed.

Lemma plainPath_nonempty s : plainPath s = true -> s <> "".
Proof. intros H ->. discriminate. Qed.

(** ** Environment overrides *)

(** C1: when the definition matching the key names an environment
    variable that is set, [GetWithScope] returns the value of the
    variable as a string, for every scope, whatever the document holds
    and whatever the default of the definition is; the provider and the
    world are left as they were. *)
Theorem GetWithScope_env_override (fuel : nat) (scope' : string)
  (key : ConfigKey) (p : ConfigProvider) (w : World) (d : FieldDefinition)
  (e : string) :
  getFieldDefinition p key = Some d ->
  EnvVar d <> "" ->
  environ w !! EnvVar d = Some e ->
  GetWithScope fuel scope' key p w = Returns (GString e, None) p w.
Proof.
  intros Hd Hne Henv. rewrite GetWithScope_unfold. unfold envOverride.
  rewrite Hd. unfold LookupEnv. destruct (String.eqb (EnvVar d) "") eqn:E.
  - apply String.eqb_eq in E. contradiction.
  - rewrite Henv. reflexivity.
Qed.

Lemma GetWithScope_env_override_witness :
  GetWithScope 0 "profile" "REGION"
    (with_cfg (Some (Some (JObject [("region", JString "us")]))) sampleProvider)
    regionWorld
  = Returns (GString "eu", None)
      (with_cfg (Some (Some (JObject [("region", JString "us")]))) sampleProvider)
      regionWorld.
Proof.
  apply (GetWithScope_env_override 0 "profile" "REGION" _ regionWorld
           regionField "eu").
  - reflexivity.
  - discriminate.
  - vm_compute. reflexivity.
Defined.

(** ** Writing and reading back *)

Lemma envOverride_frame p w p' w' key :
  frame p w p' w' -> envOverride p' w' key = envOverride p w key.
Proof.
  intros [Hf _ _ _ _ _ He _].
  unfold envOverride, getFieldDefinition, LookupEnv. rewrite Hf, He.
  reflexivity.
Qed.

Lemma canonicalKey_frame p w p' w' key :
  frame p w p' w' -> canonicalKey p' key = canonicalKey p key.
Proof.
  intros [Hf _ _ _ _ _ _ _]. unfold canonicalKey, getFieldDefinition.
  rewrite Hf. reflexivity.
Qed.

Lemma resolvePath_frame p w p' w' scope' key :
  frame p w p' w' -> resolvePath p' scope' key = resolvePath p scope' key.
Proof.
  intros [_ _ Hs _ _ _ _ _]. unfold resolvePath. rewrite Hs. reflexivity.
Qed.

Lemma exactInJSON_Value v : exactInJSON v = true -> Value (toJSON v) = v.
Proof.
  destruct v; cbn [exactInJSON toJSON Value]; try discriminate;
    try reflexivity.
  intros H%Z.eqb_eq. rewrite H. reflexivity.
Qed.

(** Reading a key back after a successful write to a path without
    wildcard bytes. *)
Lemma GetWithScope_after_SetWithScope fuel fuel' scope' key value p w p' w' :
  SetWithScope fuel scope' key value p w = Returns None p' w' ->
  envOverride p w key = None ->
  noWildcards (resolvePath p scope' (canonicalKey p key)) = true ->
  exists p'',
    GetWithScope fuel' scope' key p' w'
    = Returns (Value (toJSON value), None) p'' w'.
Proof.
  intros Hset Henv Hnw.
  destruct (SetWithScope_success _ _ _ _ _ _ _ _ Hset)
    as (json & j' & Hs & Hcfg & _ & Hfile & F).
  rewrite escapeWildcards_id in Hs by assumption.
  destruct (sjson_Set_ok _ _ _ _ Hs) as [Hne _].
  destruct (gjson_Get_sjson_Set json _ value Hne Hnw) as (j2 & Hs2 & Hget).
  rewrite Hs in Hs2. injection Hs2 as <-.
  rewrite GetWithScope_unfold.
  rewrite (envOverride_frame _ _ _ _ key F), Henv.
  destruct (getConfigWith_written (Set' fuel') p' w' j' Hcfg Hfile)
    as (p'' & Hg & _ & _).
  unfold getConfig. rewrite Hg.
  rewrite (canonicalKey_frame _ _ _ _ key F).
  rewrite (resolvePath_frame _ _ _ _ scope' _ F).
  rewrite Hget. eauto.
Qed.

(** C2 (as amended): after a successful [SetWithScope], [GetWithScope]
    of the same key and scope returns the value of the environment
    variable when one overrides the key; otherwise, when the resolved
    path is plain, it returns the value as JSON gives it back, which is
    the value itself for nil, booleans and strings. *)
Theorem SetWithScope_GetWithScope_round_trip (fuel fuel' : nat)
  (scope' : string) (key : ConfigKey) (value : GoValue)
  (p p' : ConfigProvider) (w w' : World) :
  SetWithScope fuel scope' key value p w = Returns None p' w' ->
  (forall e, envOverride p w key = Some e ->
     GetWithScope fuel' scope' key p' w' = Returns (GString e, None) p' w')
  /\ (envOverride p w key = None ->
      plainPath (resolvePath p scope' (canonicalKey p key)) = true ->
      exists p'',
        GetWithScope fuel' scope' key p' w'
        = Returns (Value (toJSON value), None) p'' w'
        /\ (exactInJSON value = true -> Value (toJSON value) = value)).
Proof.
  intros Hset. split.
  - intros e He. rewrite GetWithScope_unfold.
    destruct (SetWithScope_success _ _ _ _ _ _ _ _ Hset)
      as (_ & _ & _ & _ & _ & _ & F).
    rewrite (envOverride_frame _ _ _ _ key F), He. reflexivity.
  - intros Henv Hplain.
    destruct (GetWithScope_after_SetWithScope fuel fuel' _ _ _ _ _ _ _
                Hset Henv (plainPath_noWildcards _ Hplain)) as [p'' Hget].
    exists p''. split; [exact Hget|apply exactInJSON_Value].
Qed.

Lemma SetWithScope_GetWithScope_round_trip_witness :
  exists p'',
    GetWithScope 1 "" "APIKEY"
      (with_dirty true
         (with_cfg (Some (Some (JObject [("apiKey", JString "abc123")])))
            sampleProvider)) emptyWorld
    = Returns (Value (toJSON (GString "abc123")), None) p'' emptyWorld
    /\ (exactInJSON (GString "abc123") = true
        -> Value (toJSON (GString "abc123")) = GString "abc123").
Proof.
  refine (proj2 (SetWithScope_GetWithScope_round_trip 1 1 "" "APIKEY"
            (GString "abc123")
            (with_cfg (Some (Some (JObject []))) sampleProvider) _
            emptyWorld emptyWorld _) _ _);
    reflexivity.
Defined.

(** C2, counterexample: an int that is set comes back as a float64. *)
Lemma roundTripAsStated_fails_on_int :
  ~ roundTripAsStated 1 zeroProvider emptyWorld "" "retries" (GInt 5).
Proof.
  intros H.
  destruct (H (with_dirty true
                 (with_cfg (Some (Some (JObject [("retries", JNum 5)])))
                    zeroProvider)) emptyWorld eq_refl eq_refl)
    as (p'' & w'' & Hget).
  vm_compute in Hget. discriminate.
Qed.

(** ** Writes to different paths *)

Lemma firstHit_replaceFirst_ext k k' (f : Json -> Json)
  (g : Json -> option Json) ms :
  (String.eqb k' k = true -> forall v, g (f v) = g v) ->
  firstHit (fun m : string * Json =>
              if String.eqb k' (fst m) then g (snd m) else None)
           (replaceFirst k f ms) =
  firstHit (fun m : string * Json =>
              if String.eqb k' (fst m) then g (snd m) else None) ms.
Proof.
  intros Hg. induction ms as [|[k0 v0] ms IH]; simpl; [reflexivity|].
  destruct (String.eqb k k0) eqn:E; simpl.
  - apply String.eqb_eq in E. subst k0.
    destruct (String.eqb k' k) eqn:E'; [|reflexivity].
    rewrite (Hg eq_refl). reflexivity.
  - rewrite IH. reflexivity.
Qed.

Lemma getComponents_cons_lit k ks j :
  getComponents (lit k :: ks) j =
  firstHit (fun m : string * Json =>
              if String.eqb k (fst m) then getComponents ks (snd m) else None)
           (membersOf j).
Proof. destruct j; reflexivity. Qed.

(** A write along one path leaves what is read along a path apart from
    it as it was. *)
Lemma getComponents_setComponents_apart (ks1 ks2 : list string) (raw j : Json) :
  apart ks1 ks2 ->
  getComponents (map lit ks1) (setComponents ks2 raw j)
  = getComponents (map lit ks1) j.
Proof.
  revert ks1 j. induction ks2 as [|k2 r2 IH]; intros ks1 j [H12 H21].
  { exfalso. apply H21. apply prefix_nil. }
  destruct ks1 as [|k1 r1].
  { exfalso. apply H12. apply prefix_nil. }
  cbn [map setComponents]. rewrite !getComponents_cons_lit.
  destruct (hasKey k2 (membersOf j)) eqn:Hk; cbn [membersOf].
  - apply firstHit_replaceFirst_ext. intros E v.
    apply String.eqb_eq in E. subst k2. apply IH. split.
    + intros Hp. apply H12. apply prefix_cons. assumption.
    + intros Hp. apply H21. apply prefix_cons. assumption.
  - rewrite firstHit_app. cbn [firstHit fst snd].
    destruct (firstHit _ (membersOf j)) eqn:Hf; [reflexivity|].
    destruct (String.eqb k1 k2) eqn:E; [|reflexivity].
    apply String.eqb_eq in E. subst k2. rewrite IH.
    + destruct r1 as [|k r1]; [|reflexivity].
      exfalso. apply H12. exists r2. reflexivity.
    + split; intros Hp; [apply H12|apply H21]; apply prefix_cons; assumption.
Qed.

(** ** Materializing the defaults *)

Lemma frame_sameSetup p w p' w' : frame p w p' w' -> sameSetup p p'.
Proof. intros []. repeat split; assumption. Qed.

Lemma validateSet_setup p p' key value :
  sameSetup p p' -> validateSet p' key value = validateSet p key value.
Proof.
  intros (Hf & _ & He). unfold validateSet, getFieldDefinition,
    getConfigValueKeys. rewrite Hf, He. reflexivity.
Qed.

Lemma defaultPath_setup p p' key :
  sameSetup p p' -> defaultPath p' key = defaultPath p key.
Proof.
  intros (Hf & Hs & _).
  unfold defaultPath, canonicalKey, getFieldDefinition, resolvePath.
  rewrite Hf, Hs. reflexivity.
Qed.

Lemma materialize_setup p p' c fs :
  sameSetup p p' -> materialize p' c fs = materialize p c fs.
Proof.
  intros F. revert c. induction fs as [|d fs IH]; intros c; simpl;
    [reflexivity|].
  rewrite (defaultPath_setup _ _ (Key d) F), !IH. reflexivity.
Qed.

Lemma validateSet_frame p w p' w' key value :
  frame p w p' w' -> validateSet p' key value = validateSet p key value.
Proof.
  intros [Hf _ _ He _ _ _ _]. unfold validateSet, getFieldDefinition,
    getConfigValueKeys. rewrite Hf, He. reflexivity.
Qed.

Lemma defaultPath_frame p w p' w' key :
  frame p w p' w' -> defaultPath p' key = defaultPath p key.
Proof.
  intros F. unfold defaultPath.
  rewrite (canonicalKey_frame _ _ _ _ key F).
  apply (resolvePath_frame _ _ _ _ "" _ F).
Qed.

(** One [Set] of the loop of [setDefaultConfig]: the flag is up, so the
    buffer is taken as it is. *)
Lemma Set_while_settingDefaults fuel key value q w :
  settingDefaults q = true -> mu q = false -> fileName q = "" ->
  validateSet q key value = None ->
  defaultPath q key <> "" -> noWildcards (defaultPath q key) = true ->
  exists q',
    Set' (S fuel) key value q w = Returns None q' w
    /\ cfg q' = Some (Some (setComponents (pathKeys (defaultPath q key))
                              (toJSON value) (rootOf (bufferText (cfg q)))))
    /\ frame q w q' w.
Proof.
  intros Hsd Hmu Hfn Hval Hne Hnw.
  unfold Set'. rewrite SetWithScope_S, Hval.
  fold (defaultPath q key).
  unfold lockedSet. unfold bind at 1. unfold Lock at 1. rewrite Hmu.
  unfold bind at 1. unfold getConfig.
  rewrite getConfigWith_skip by (left; exact Hsd).
  rewrite escapeWildcards_id by assumption.
  unfold sjson_Set.
  destruct (String.eqb (defaultPath q key) "") eqn:E;
    [apply String.eqb_eq in E; contradiction|].
  rewrite parsePath_noWildcards by assumption.
  unfold writeConfig, bind, modify, getProvider, Unlock, ret. cbn.
  rewrite Hfn. cbn.
  eexists. split; [reflexivity|]. split; [reflexivity|].
  split; cbn; congruence.
Qed.

Lemma materialize_frame p w p' w' c fs :
  frame p w p' w' -> materialize p' c fs = materialize p c fs.
Proof.
  intros F. revert c. induction fs as [|d fs IH]; intros c; simpl;
    [reflexivity|].
  rewrite (defaultPath_frame _ _ _ _ (Key d) F), !IH. reflexivity.
Qed.

(** The loop of [setDefaultConfig] on a provider without a file, when
    every default passes the validation of its key and goes to a path
    without wildcard bytes. *)
Lemma setDefaults_materialize fuel fs q w :
  settingDefaults q = true -> mu q = false -> fileName q = "" ->
  (forall d, In d fs -> Default d <> GNil ->
     validateSet q (Key d) (Default d) = None
     /\ defaultPath q (Key d) <> ""
     /\ noWildcards (defaultPath q (Key d)) = true) ->
  exists q',
    setDefaults (Set' (S fuel)) fs q w = Returns tt q' w
    /\ cfg q' = materialize q (cfg q) fs
    /\ frame q w q' w.
Proof.
  revert q. induction fs as [|d fs IH]; intros q Hsd Hmu Hfn Hall.
  { exists q. split; [reflexivity|]. split; [reflexivity|apply frame_refl]. }
  cbn [setDefaults materialize].
  destruct (isNil (Default d)) eqn:Hnil; cbn [negb].
  - apply IH; try assumption. intros d' Hd'. apply Hall. right. assumption.
  - destruct (Hall d (or_introl eq_refl)) as (Hv & Hne & Hnw).
    { intros E. rewrite E in Hnil. discriminate. }
    destruct (Set_while_settingDefaults fuel (Key d) (Default d) q w
                Hsd Hmu Hfn Hv Hne Hnw) as (q1 & Hset & Hcfg & F).
    unfold bind. rewrite Hset.
    destruct (IH q1) as (q' & Hloop & Hcfg' & F').
    + rewrite (frame_settingDefaults _ _ _ _ F). assumption.
    + rewrite (frame_mu _ _ _ _ F). assumption.
    + rewrite (frame_fileName _ _ _ _ F). assumption.
    + intros d' Hd' Hdef.
      rewrite (validateSet_frame _ _ _ _ _ _ F).
      rewrite (defaultPath_frame _ _ _ _ _ F).
      apply Hall; [right|]; assumption.
    + exists q'. split; [exact Hloop|]. split.
      * rewrite Hcfg', Hcfg. apply (materialize_frame _ _ _ _ _ _ F).
      * eapply frame_trans; eassumption.
Qed.

Lemma materialize_nonempty p c fs :
  emptyBuffer c = false -> emptyBuffer (materialize p c fs) = false.
Proof.
  revert c. induction fs as [|d fs IH]; intros c Hc; simpl; [assumption|].
  destruct (negb (isNil (Default d))); [apply IH; reflexivity|apply IH, Hc].
Qed.

(** What is read along the path of a default once the defaults are
    written: later defaults are the same definition again, or go to
    paths apart from it. *)
Lemma materialize_keeps p c fs D raw :
  (forall d, In d fs -> Default d <> GNil ->
     d = D \/ apart (pathKeys (defaultPath p (Key D)))
                    (pathKeys (defaultPath p (Key d)))) ->
  raw = toJSON (Default D) ->
  getComponents (map lit (pathKeys (defaultPath p (Key D))))
                (rootOf (bufferText c)) = Some raw ->
  getComponents (map lit (pathKeys (defaultPath p (Key D))))
                (rootOf (bufferText (materialize p c fs))) = Some raw.
Proof.
  intros Hall ->. revert c. induction fs as [|d fs IH]; intros c Hc; simpl;
    [assumption|].
  destruct (isNil (Default d)) eqn:Hnil; cbn [negb].
  - apply IH; [|assumption]. intros d' Hd'. apply Hall. right. assumption.
  - apply IH; [intros d' Hd'; apply Hall; right; assumption|].
    cbn [bufferText rootOf].
    destruct (Hall d (or_introl eq_refl)) as [->|Hap].
    + intros E. rewrite E in Hnil. discriminate.
    + apply getComponents_setComponents.
    + rewrite getComponents_setComponents_apart by assumption. assumption.
Qed.

Lemma materialize_writes p c fs D :
  In D fs -> Default D <> GNil ->
  (forall d, In d fs -> Default d <> GNil ->
     d = D \/ apart (pathKeys (defaultPath p (Key D)))
                    (pathKeys (defaultPath p (Key d)))) ->
  emptyBuffer (materialize p c fs) = false
  /\ getComponents (map lit (pathKeys (defaultPath p (Key D))))
                   (rootOf (bufferText (materialize p c fs)))
     = Some (toJSON (Default D)).
Proof.
  intros HD Hdef. revert c. induction fs as [|d fs IH]; intros c Hall;
    [destruct HD|].
  simpl. destruct HD as [->|HD].
  - destruct (isNil (Default D)) eqn:Hnil;
      [destruct (Default D); try discriminate; congruence|].
    cbn [negb]. split.
    + apply materialize_nonempty. reflexivity.
    + apply materialize_keeps; [|reflexivity|].
      * intros d' Hd'. apply Hall. right. assumption.
      * cbn [bufferText rootOf]. apply getComponents_setComponents.
  - destruct (negb (isNil (Default d)));
      apply IH; try assumption; intros d' Hd'; apply Hall; right; assumption.
Qed.

(** The first [getConfig] of a provider without a file: the defaults
    are written, and the buffer holds them. *)
Lemma getConfig_fresh fuel p w :
  fresh p ->
  (forall d, In d (fields p) -> Default d <> GNil ->
     validateSet p (Key d) (Default d) = None
     /\ defaultPath p (Key d) <> ""
     /\ noWildcards (defaultPath p (Key d)) = true) ->
  exists p',
    getConfig (S fuel) p w
    = Returns (bufferText (materialize p None (fields p))) p' w
    /\ cfg p' = materialize p None (fields p)
    /\ dirty p' = false
    /\ frame p w p' w.
Proof.
  intros (Hcfg & Hfn & Hmu & Hsd) Hall.
  unfold getConfig, getConfigWith.
  unfold bind at 1. unfold getProvider at 1. unfold bind at 1.
  rewrite Hsd, Hcfg. cbn [negb andb orb].
  unfold bind at 1. unfold nonEmpty. rewrite Hfn. cbn [String.eqb negb].
  unfold ret at 1. unfold bind at 1. unfold getProvider at 1.
  unfold bind at 1. rewrite Hcfg. cbn [emptyBuffer].
  unfold bind at 1. unfold modify at 1. unfold bind at 1.
  unfold setDefaultConfigWith. unfold bind at 1. unfold getProvider at 1.
  assert (F0 : sameSetup p (with_settingDefaults true p))
    by (repeat split).
  destruct (setDefaults_materialize fuel (fields p)
              (with_settingDefaults true p) w eq_refl Hmu Hfn)
    as (q' & Hloop & Hq' & F).
  { intros d Hd Hdef. rewrite (validateSet_setup _ _ _ _ F0).
    rewrite (defaultPath_setup _ _ _ F0). apply Hall; assumption. }
  cbn [fields with_settingDefaults] in Hloop |- *. rewrite Hloop.
  unfold modify, bind, getProvider, ret. cbn.
  assert (Hc : cfg q' = materialize p None (fields p)).
  { rewrite Hq'. cbn [cfg with_settingDefaults].
    rewrite (materialize_setup _ _ _ _ F0), Hcfg. reflexivity. }
  rewrite Hc.
  eexists. split; [reflexivity|]. split; [exact Hc|].
  split; [reflexivity|].
  destruct F. cbn in *. split; cbn; congruence.
Qed.

(** C3 (as amended): on a fresh provider without a backing file, when
    every default passes the validation of its key and goes to a plain
    path, and the other defaults go to paths apart from the one of [D],
    the first [Get] of the key of [D] returns the default of [D] as
    JSON gives it back (the default itself for booleans and strings),
    unless an environment variable overrides the key. *)
Theorem Get_default_on_fresh_provider (fuel : nat) (p : ConfigProvider)
  (w : World) (D : FieldDefinition) :
  fresh p ->
  In D (fields p) -> Default D <> GNil ->
  envOverride p w (Key D) = None ->
  (forall d, In d (fields p) -> Default d <> GNil ->
     validateSet p (Key d) (Default d) = None
     /\ plainPath (defaultPath p (Key d)) = true
     /\ (d = D \/ apart (pathKeys (defaultPath p (Key D)))
                        (pathKeys (defaultPath p (Key d))))) ->
  exists p',
    Get (S fuel) (Key D) p w
    = Returns (Value (toJSON (Default D)), None) p' w
    /\ (exactInJSON (Default D) = true
        -> Value (toJSON (Default D)) = Default D).
Proof.
  intros Hfresh HD Hdef Henv Hall.
  destruct (getConfig_fresh fuel p w Hfresh) as (p' & Hg & _ & _ & _).
  { intros d Hd Hdd. destruct (Hall d Hd Hdd) as (Hv & Hp & _).
    split; [assumption|]. split;
      [apply plainPath_nonempty|apply plainPath_noWildcards]; assumption. }
  destruct (materialize_writes p None (fields p) D HD Hdef) as [Hne Hget].
  { intros d Hd Hdd. apply (Hall d Hd Hdd). }
  exists p'. split; [|apply exactInJSON_Value].
  unfold Get. rewrite GetWithScope_unfold, Henv, Hg.
  fold (defaultPath p (Key D)).
  destruct (materialize p None (fields p)) as [[j|]|]; try discriminate.
  cbn [bufferText rootOf] in *. unfold gjson_Get.
  rewrite (literal_components (parsePath (defaultPath p (Key D)))).
  - fold (pathKeys (defaultPath p (Key D))). rewrite Hget. reflexivity.
  - apply parsePath_noWildcards, plainPath_noWildcards.
    apply (Hall D HD Hdef).
Qed.

Lemma Get_default_on_fresh_provider_witness :
  exists p',
    Get 1 "region" sampleProvider emptyWorld
    = Returns (Value (toJSON (GString "us")), None) p' emptyWorld
    /\ (exactInJSON (GString "us") = true
        -> Value (toJSON (GString "us")) = GString "us").
Proof.
  apply (Get_default_on_fresh_provider 0 sampleProvider emptyWorld regionField).
  - repeat split.
  - left. reflexivity.
  - discriminate.
  - reflexivity.
  - intros d [<-|[<-|[]]] Hd.
    + split; [reflexivity|]. split; [reflexivity|]. left. reflexivity.
    + exfalso. apply Hd. reflexivity.
Defined.

(** C3, counterexample: a default that is an int comes back as a
    float64. *)
Lemma defaultsAsStated_fails_on_int :
  ~ defaultsAsStated 1 [retriesField] emptyWorld.
Proof.
  intros H.
  destruct (H (with_fields [retriesField] zeroProvider) retriesField
              eq_refl (or_introl eq_refl)) as (p' & w' & Hget).
  - discriminate.
  - reflexivity.
  - vm_compute in Hget. discriminate.
Qed.

(** ** Wildcards in keys *)

(** C4: only [SetWithScope] escapes the wildcards of the path.  On a
    document with the keys [ab] and [a*], a set of the key [a*] writes
    the member [a*], but a get of [a*] reads the member [ab], which the
    pattern matches first, and not what the escaped path names; and
    [RemoveScope] of [a*] is refused by sjson where the escaped path
    removes the member. *)
Theorem wildcards_escaped_by_SetWithScope_only :
  Set' 1 "a*" (GString "z") wildcardProvider emptyWorld
  = Returns None
      (with_dirty true
         (with_cfg (Some (Some (JObject [("ab", JString "x");
                                         ("a*", JString "z")])))
            zeroProvider))
      emptyWorld
  /\ Get 1 "a*" wildcardProvider emptyWorld
     = Returns (GString "x", None) wildcardProvider emptyWorld
  /\ getFromConfig 1 "a*" wildcardProvider emptyWorld
     <> getFromConfig_escaped 1 "a*" wildcardProvider emptyWorld
  /\ RemoveScope 1 "a*" wildcardProvider emptyWorld
     = Returns (Some (SjsonError "wildcard characters not allowed in path"))
               wildcardProvider emptyWorld
  /\ RemoveScope_escaped 1 "a*" wildcardProvider emptyWorld
     = Returns None
         (with_dirty true
            (with_cfg (Some (Some (JObject [("ab", JString "x")])))
               zeroProvider))
         emptyWorld.
Proof.
  split; [vm_compute; reflexivity|].
  split; [vm_compute; reflexivity|].
  split; [vm_compute; discriminate|].
  split; vm_compute; reflexivity.
Qed.

(** ** Registration *)

Lemma register_two d1 d2 :
  register [d1; d2] =
  if negb (CaseSensitive d2) && EqualFold (Key d1) (Key d2)
  then (None, Some (duplicateKeyError d2))
  else (Some (with_fields [d1; d2] zeroProvider), None).
Proof.
  unfold register, NewConfigProvider, WithFieldDefinitions. cbn.
  rewrite andb_false_r. cbn. rewrite orb_false_r.
  destruct (negb (CaseSensitive d2) && EqualFold (Key d1) (Key d2));
    reflexivity.
Qed.

(** C5 (as amended): two case-insensitive definitions whose keys
    case-fold to the same string are refused with the duplicate-key
    error in either order; a case-insensitive definition followed by a
    case-sensitive one with the same case-folded key is registered, and
    in the other order the case-insensitive one is refused. *)
Theorem registration_of_case_folded_keys (d1 d2 : FieldDefinition) :
  EqualFold (Key d1) (Key d2) = true ->
  CaseSensitive d1 = false ->
  (CaseSensitive d2 = false ->
     register [d1; d2] = (None, Some (duplicateKeyError d2))
     /\ register [d2; d1] = (None, Some (duplicateKeyError d1)))
  /\ (CaseSensitive d2 = true ->
      register [d1; d2] = (Some (with_fields [d1; d2] zeroProvider), None)
      /\ register [d2; d1] = (None, Some (duplicateKeyError d1))).
Proof.
  intros Hfold H1. rewrite !register_two, H1.
  rewrite (EqualFold_sym (Key d2)), Hfold.
  split; intros ->; split; reflexivity.
Qed.

Lemma registration_of_case_folded_keys_witness :
  (CaseSensitive (sampleField "REGION" "" GNil true None) = false ->
     register [regionField; sampleField "REGION" "" GNil true None]
     = (None, Some (duplicateKeyError (sampleField "REGION" "" GNil true None)))
     /\ register [sampleField "REGION" "" GNil true None; regionField]
        = (None, Some (duplicateKeyError regionField)))
  /\ (CaseSensitive (sampleField "REGION" "" GNil true None) = true ->
      register [regionField; sampleField "REGION" "" GNil true None]
      = (Some (with_fields [regionField; sampleField "REGION" "" GNil true None]
                 zeroProvider), None)
      /\ register [sampleField "REGION" "" GNil true None; regionField]
         = (None, Some (duplicateKeyError regionField))).
Proof.
  apply (registration_of_case_folded_keys regionField
           (sampleField "REGION" "" GNil true None)); reflexivity.
Defined.

(** C5, counterexample: a case-sensitive definition followed by a
    case-insensitive one with the same case-folded key is refused. *)
Lemma mixedCaseAsStated_fails :
  ~ mixedCaseAsStated (sampleField "REGION" "" GNil true None) regionField.
Proof.
  intros H. destruct (H eq_refl eq_refl eq_refl) as [H1 _].
  vm_compute in H1. discriminate.
Qed.

(** ** Scopes *)



(** ** Unregistered keys *)

Lemma canonicalKey_unregistered p key :
  getFieldDefinition p key = None -> canonicalKey p key = key.
Proof. unfold canonicalKey. intros ->. reflexivity. Qed.

Lemma envOverride_unregistered p w key :
  getFieldDefinition p key = None -> envOverride p w key = None.
Proof. unfold envOverride. intros ->. reflexivity. Qed.

(** A set on a loaded and clean document, with the mutex free and the
    file (if any) writable, to a path without wildcard bytes. *)
Lemma SetWithScope_on_loaded fuel scope' key value p w j :
  validateSet p key value = None ->
  cfg p = Some (Some j) -> dirty p = false -> mu p = false ->
  fileName p ∉ unwritable w ->
  resolvePath p scope' (canonicalKey p key) <> "" ->
  noWildcards (resolvePath p scope' (canonicalKey p key)) = true ->
  exists p' w',
    SetWithScope (S fuel) scope' key value p w = Returns None p' w'.
Proof.
  intros Hval Hcfg Hdirty Hmu Hw Hne Hnw.
  rewrite SetWithScope_S, Hval.
  unfold lockedSet. unfold bind at 1. unfold Lock at 1. rewrite Hmu.
  unfold bind at 1. unfold getConfig.
  rewrite getConfigWith_skip
    by (right; cbn; rewrite Hcfg; split; [discriminate|assumption]).
  rewrite escapeWildcards_id by assumption.
  destruct (gjson_Get_sjson_Set (bufferText (cfg (with_mu true p))) _ value
              Hne Hnw) as (j' & -> & _).
  unfold writeConfig, bind, modify, getProvider, Unlock, ret. cbn.
  destruct (nonEmpty (fileName p)); [|eauto].
  unfold WriteFile. cbn. destruct (decide _); [contradiction|eauto].
Qed.

(** ** Reading twice *)

Lemma Set_returns_None_cfg fuel key value q w q' w' :
  Set' fuel key value q w = Returns None q' w' -> cfg q' <> None.
Proof.
  intros H. destruct (SetWithScope_success _ _ _ _ _ _ _ _ H)
    as (_ & j' & _ & Hcfg & _). rewrite Hcfg. discriminate.
Qed.

Lemma setDefaults_no_defaults set fs q w :
  forallb (fun d => isNil (Default d)) fs = true ->
  setDefaults set fs q w = Returns tt q w.
Proof.
  induction fs as [|d fs IH]; simpl; [reflexivity|].
  intros [-> H]%andb_prop. cbn. auto.
Qed.

(** When the loop of [setDefaultConfig] returns, either it had nothing
    to write and changed nothing, or the buffer is there. *)
Lemma setDefaults_returns fuel fs q w q' w' :
  setDefaults (Set' fuel) fs q w = Returns tt q' w' ->
  (forallb (fun d => isNil (Default d)) fs = true /\ q' = q /\ w' = w)
  \/ cfg q' <> None.
Proof.
  revert q w. induction fs as [|d fs IH]; intros q w H; simpl in H.
  { injection H as <- <-. left. auto. }
  destruct (isNil (Default d)) eqn:Hnil; cbn [negb] in H.
  - destruct (IH _ _ H) as [(Hf & -> & ->)|Hc]; [left|right; assumption].
    cbn. rewrite Hnil, Hf. auto.
  - right. unfold bind in H.
    destruct (Set' fuel (Key d) (Default d) q w) as [[err|] q1 w1| | |] eqn:E;
      try discriminate.
    apply Set_returns_None_cfg in E.
    destruct (IH _ _ H) as [(_ & -> & _)|Hc]; assumption.
Qed.

Lemma with_cfg_self p : with_cfg (cfg p) p = p.
Proof. destruct p; reflexivity. Qed.

Lemma setConfigFromFile_returns p w :
  exists p1,
    setConfigFromFile p w = Returns tt p1 w
    /\ frame p w p1 w /\ dirty p1 = dirty p
    /\ cfg p1 = match ReadFile w (fileName p) with
                | Some data => Some data
                | None => cfg p
                end.
Proof.
  unfold setConfigFromFile, bind, getProvider, getWorld, modify, ret.
  destruct (ReadFile w (fileName p)); eexists;
    (split; [reflexivity|]); (split; [split; reflexivity|]); split; reflexivity.
Qed.

(** A second [getConfig] returns the text of the first. *)
Lemma getConfig_twice fuel p w json p1 w1 :
  getConfig fuel p w = Returns json p1 w1 ->
  exists p2, getConfig fuel p1 w1 = Returns json p2 w1.
Proof.
  intros H. pose proof H as H0.
  unfold getConfig, getConfigWith in H.
  unfold bind at 1 in H. unfold getProvider at 1 in H. unfold bind at 1 in H.
  destruct (negb (settingDefaults p) && _) eqn:Htrig.
  2:{ injection H as <- <- <-. eauto. }
  apply andb_prop in Htrig as [Hsd _]. apply negb_true_iff in Hsd.
  unfold bind at 1 in H.
  assert (Hstep : exists pa,
    (if nonEmpty (fileName p) then setConfigFromFile else ret tt) p w
    = Returns tt pa w
    /\ frame p w pa w
    /\ cfg pa = (if nonEmpty (fileName p)
                 then match ReadFile w (fileName p) with
                      | Some data => Some data
                      | None => cfg p
                      end
                 else cfg p)).
  { destruct (nonEmpty (fileName p)).
    - destruct (setConfigFromFile_returns p w) as (pa & E & F & _ & Hc). eauto.
    - exists p. split; [reflexivity|]. split; [apply frame_refl|reflexivity]. }
  destruct Hstep as (pa & E1 & Fa & Hca). rewrite E1 in H.
  unfold bind at 1 in H. unfold getProvider at 1 in H. unfold bind at 1 in H.
  destruct (emptyBuffer (cfg pa)) eqn:Hempty.
  - unfold bind at 1 in H. unfold modify at 1 in H. unfold bind at 1 in H.
    unfold setDefaultConfigWith in H. unfold bind at 1 in H.
    unfold getProvider at 1 in H. cbn [fields with_settingDefaults] in H.
    destruct (setDefaults (Set' fuel) (fields pa) (with_settingDefaults true pa) w)
      as [[] q' w'| | |] eqn:E2; try discriminate.
    cbn in H. injection H as <- <- <-.
    destruct (setDefaults_returns _ _ _ _ _ _ E2) as [(Hnone & -> & ->)|Hc].
    + (* nothing to write: the second call does the same again *)
      cbn [cfg with_settingDefaults with_dirty bufferText].
      unfold getConfig, getConfigWith.
      unfold bind at 1. unfold getProvider at 1. unfold bind at 1.
      cbn [settingDefaults cfg dirty with_dirty with_settingDefaults negb].
      assert (Hcn : cfg pa = None \/ cfg pa = Some None)
        by (destruct (cfg pa) as [[|]|]; try discriminate; auto).
      destruct Hcn as [Hcn|Hcn]; rewrite Hcn; cbn [andb orb].
      * unfold bind at 1.
        assert (Hfn : fileName pa = fileName p) by apply Fa.
        cbn [fileName with_dirty with_settingDefaults]. rewrite Hfn.
        assert (Hread : nonEmpty (fileName p) = true ->
                        ReadFile w (fileName p) = None).
        { intros Hn. rewrite Hn in Hca. destruct (ReadFile w (fileName p));
            [rewrite Hcn in Hca; discriminate|reflexivity]. }
        destruct (nonEmpty (fileName p)) eqn:Hn.
        -- unfold setConfigFromFile, bind, getProvider, getWorld, modify, ret.
           cbn [fileName with_dirty with_settingDefaults].
           rewrite Hfn, (Hread eq_refl).
           cbn [cfg with_dirty with_settingDefaults]. rewrite Hcn.
           cbn [emptyBuffer fields with_dirty with_settingDefaults].
           unfold setDefaultConfigWith, bind, getProvider.
           cbn [fields with_dirty with_settingDefaults].
           rewrite setDefaults_no_defaults by assumption.
           cbn. rewrite Hcn. eauto.
        -- unfold bind, getProvider, modify, ret.
           cbn [cfg with_dirty with_settingDefaults]. rewrite Hcn.
           cbn [emptyBuffer].
           unfold setDefaultConfigWith, bind, getProvider.
           cbn [fields with_dirty with_settingDefaults].
           rewrite setDefaults_no_defaults by assumption.
           cbn. rewrite Hcn. eauto.
      * cbn. rewrite Hcn. eauto.
    + unfold getConfig. rewrite getConfigWith_skip; [eauto|].
      right. cbn. split; [assumption|reflexivity].
  - cbn in H. injection H as <- <- <-.
    unfold getConfig. rewrite getConfigWith_skip; [eauto|].
    right. cbn. split; [|reflexivity].
    destruct (cfg pa); [discriminate|discriminate].
Qed.

Lemma GetWithScope_twice fuel scope' key p w r p1 w1 :
  GetWithScope fuel scope' key p w = Returns r p1 w1 ->
  exists p2, GetWithScope fuel scope' key p1 w1 = Returns r p2 w1.
Proof.
  rewrite GetWithScope_unfold. intros H.
  destruct (envOverride p w key) as [e|] eqn:Henv.
  { injection H as <- <- <-. rewrite GetWithScope_unfold, Henv. eauto. }
  destruct (getConfig fuel p w) as [json pa wa| | |] eqn:Hg; try discriminate.
  pose proof (keepsFrame_getConfig _ _ _ _ _ _ Hg) as F.
  destruct (getConfig_twice _ _ _ _ _ _ Hg) as (p2 & Hg2).
  assert (pa = p1 /\ wa = w1) as [-> ->]
    by (destruct (gjson_Get _ _); injection H as <- <- <-; auto).
  exists p2. rewrite GetWithScope_unfold.
  rewrite (envOverride_frame _ _ _ _ key F), Henv, Hg2.
  rewrite (canonicalKey_frame _ _ _ _ key F).
  rewrite (resolvePath_frame _ _ _ _ scope' _ F).
  destruct (gjson_Get _ _); injection H as <-; reflexivity.
Qed.

(** ** Validation *)

(** C7: when the validation function of the definition of the key
    rejects the value, [SetWithScope] returns the error of the
    validation function and leaves provider and world as they were; a
    get after the refused set returns what the get before it
    returned. *)
Theorem SetWithScope_validation_failure (fuel fuel' : nat) (scope' : string)
  (key : ConfigKey) (value : GoValue) (p : ConfigProvider) (w : World)
  (d : FieldDefinition) (f : ConfigValueValidationFunc) (err : error) :
  getFieldDefinition p key = Some d ->
  ValidationFunc d = Some f ->
  f key value = Some err ->
  SetWithScope (S fuel) scope' key value p w = Returns (Some err) p w
  /\ forall r p1 w1,
       GetWithScope fuel' scope' key p w = Returns r p1 w1 ->
       SetWithScope (S fuel) scope' key value p1 w1 = Returns (Some err) p1 w1
       /\ exists p2, GetWithScope fuel' scope' key p1 w1 = Returns r p2 w1.
Proof.
  intros Hd Hf Herr.
  assert (Hval : forall q, fields q = fields p ->
            validateSet q key value = Some err).
  { intros q Hq. unfold validateSet, getFieldDefinition in *.
    rewrite Hq, Hd, Hf. assumption. }
  split.
  - rewrite SetWithScope_S, (Hval p eq_refl). reflexivity.
  - intros r p1 w1 Hget. split.
    + rewrite SetWithScope_S, Hval; [reflexivity|].
      rewrite GetWithScope_unfold in Hget.
      destruct (envOverride p w key); [injection Hget as <- <- <-; reflexivity|].
      destruct (getConfig fuel' p w) as [json pa wa| | |] eqn:Hg;
        try discriminate.
      pose proof (keepsFrame_getConfig _ _ _ _ _ _ Hg) as F.
      destruct (gjson_Get _ _); injection Hget as <- <- <-; apply F.
    + eapply GetWithScope_twice; eassumption.
Qed.

Lemma SetWithScope_validation_failure_witness :
  SetWithScope 1 "" "region" (GString "xx")
    (with_cfg (Some (Some (JObject [("region", JString "us")]))) sampleProvider)
    emptyWorld
  = Returns (Some (Errorf "value %v not in allowed values: %s"
                     [AStr "xx"; AStrs ["us"; "eu"]]))
      (with_cfg (Some (Some (JObject [("region", JString "us")]))) sampleProvider)
      emptyWorld.
Proof.
  apply (proj1 (SetWithScope_validation_failure 0 1 "" "region" (GString "xx")
           (with_cfg (Some (Some (JObject [("region", JString "us")])))
              sampleProvider)
           emptyWorld regionField (StringInStrings false ["us"; "eu"])
           (Errorf "value %v not in allowed values: %s"
              [AStr "xx"; AStrs ["us"; "eu"]])
           eq_refl eq_refl eq_refl)).
Defined.

(** ** The mutex during the first load *)

(** A set while the mutex is held: the validation runs, then the call
    waits for the mutex. *)
Lemma SetWithScope_mutex_held fuel scope' key value q w :
  mu q = true ->
  SetWithScope (S fuel) scope' key value q w =
  match validateSet q key value with
  | Some err => Returns (Some err) q w
  | None => Blocks q w
  end.
Proof.
  intros Hmu. rewrite SetWithScope_S.
  destruct (validateSet q key value); [reflexivity|].
  unfold lockedSet, bind, Lock. rewrite Hmu. reflexivity.
Qed.

Lemma setDefaults_mutex_held fuel pre d post q w :
  mu q = true ->
  forallb (fun d => isNil (Default d)) pre = true ->
  Default d <> GNil ->
  validateSet q (Key d) (Default d) = None ->
  setDefaults (Set' (S fuel)) (pre ++ d :: post) q w = Blocks q w.
Proof.
  intros Hmu Hpre Hd Hval. induction pre as [|d0 pre IH]; simpl.
  - destruct (isNil (Default d)) eqn:Hnil;
      [destruct (Default d); try discriminate; congruence|].
    cbn [negb]. unfold bind, Set'.
    rewrite SetWithScope_mutex_held, Hval by assumption. reflexivity.
  - simpl in Hpre. apply andb_prop in Hpre as [-> Hpre]. cbn [negb]. auto.
Qed.

(** C9: the first load does not end when a set starts it.  On a
    provider with nothing loaded and no file, whose registry has a
    definition with a default that passes validation, [SetWithScope]
    takes the mutex, asks for the document, and the set of the first
    default waits for the same mutex: the call never returns, whatever
    bound is put on the nesting. *)
Theorem SetWithScope_blocks_on_first_load (fuel : nat) (scope' : string)
  (key : ConfigKey) (value : GoValue) (p : ConfigProvider) (w : World)
  (pre post : list FieldDefinition) (d : FieldDefinition) :
  fresh p ->
  validateSet p key value = None ->
  fields p = (pre ++ d :: post)%list ->
  forallb (fun d => isNil (Default d)) pre = true ->
  Default d <> GNil ->
  validateSet p (Key d) (Default d) = None ->
  SetWithScope (S (S fuel)) scope' key value p w
  = Blocks (with_settingDefaults true (with_mu true p)) w.
Proof.
  intros (Hcfg & Hfn & Hmu & Hsd) Hval Hfields Hpre Hd Hvd.
  rewrite SetWithScope_S, Hval.
  unfold lockedSet. unfold bind at 1. unfold Lock at 1. rewrite Hmu.
  unfold bind at 1. unfold getConfig, getConfigWith.
  unfold bind at 1. unfold getProvider at 1. unfold bind at 1.
  cbn [settingDefaults cfg dirty with_mu]. rewrite Hsd, Hcfg.
  cbn [negb andb orb].
  unfold bind at 1. cbn [fileName with_mu]. unfold nonEmpty. rewrite Hfn.
  cbn [String.eqb negb]. unfold ret at 1.
  unfold bind at 1. unfold getProvider at 1. unfold bind at 1.
  cbn [cfg with_mu]. rewrite Hcfg. cbn [emptyBuffer].
  unfold bind at 1. unfold modify at 1. unfold bind at 1.
  unfold setDefaultConfigWith. unfold bind at 1. unfold getProvider at 1.
  cbn [fields with_settingDefaults with_mu]. rewrite Hfields.
  rewrite setDefaults_mutex_held; try assumption; reflexivity.
Qed.

Lemma SetWithScope_blocks_on_first_load_witness :
  SetWithScope 2 "" "apiKey" (GString "abc123") sampleProvider emptyWorld
  = Blocks (with_settingDefaults true (with_mu true sampleProvider)) emptyWorld.
Proof.
  apply (SetWithScope_blocks_on_first_load 0 "" "apiKey" (GString "abc123")
           sampleProvider emptyWorld [] [apiKeyField] regionField).
  - repeat split.
  - reflexivity.
  - reflexivity.
  - reflexivity.
  - discriminate.
  - reflexivity.
Defined.

(** ** Failure to persist *)

(** C10: when the file of the provider cannot be written, a set that
    reaches the write returns the error of [os.WriteFile], and leaves
    the new document in the buffer, marked dirty; the next [getConfig]
    then takes the text of the file in place of it when the file can
    be read, and keeps it when the file cannot. *)
Theorem SetWithScope_persistence_failure (fuel fuel' : nat) (scope' : string)
  (key : ConfigKey) (value : GoValue) (p p1 : ConfigProvider) (w w1 : World)
  (json cfg' : Text) :
  validateSet p key value = None ->
  mu p = false -> settingDefaults p = false ->
  getConfig fuel (with_mu true p) w = Returns json p1 w1 ->
  sjson_Set json (escapeWildcards (resolvePath p scope' (canonicalKey p key)))
            value = (cfg', None) ->
  fileName p <> "" -> fileName p ∈ unwritable w ->
  let p' := with_mu false (with_cfg (Some cfg') (with_dirty true p1)) in
  SetWithScope (S fuel) scope' key value p w
  = Returns (Some (PathError "open" (fileName p))) p' w1
  /\ cfg p' = Some cfg' /\ dirty p' = true
  /\ (forall data,
        ReadFile w1 (fileName p) = Some (Some data) ->
        getConfig fuel' p' w1
        = Returns (Some data)
            (with_dirty false (with_cfg (Some (Some data)) p')) w1)
  /\ (ReadFile w1 (fileName p) = None ->
      getConfig fuel' p' w1 = Returns cfg' (with_dirty false p') w1).
Proof.
  intros Hval Hmu Hsd Hg Hset Hfn Hw p'.
  pose proof (keepsFrame_getConfig _ _ _ _ _ _ Hg) as F.
  assert (Hfn1 : fileName p1 = fileName p) by apply F.
  assert (Hsd1 : settingDefaults p1 = false).
  { rewrite (frame_settingDefaults _ _ _ _ F). exact Hsd. }
  assert (Hne : nonEmpty (fileName p) = true).
  { unfold nonEmpty. destruct (String.eqb (fileName p) "") eqn:E;
      [apply String.eqb_eq in E; contradiction|reflexivity]. }
  assert (Hw1 : fileName p ∈ unwritable w1).
  { rewrite (frame_unwritable _ _ _ _ F). exact Hw. }
  destruct (sjson_Set_ok _ _ _ _ Hset) as [_ Hcfg'].
  split.
  { rewrite SetWithScope_S, Hval.
    unfold lockedSet. unfold bind at 1. unfold Lock at 1. rewrite Hmu.
    unfold bind at 1. rewrite Hg, Hset.
    unfold writeConfig, bind, modify, getProvider, Unlock, ret. cbn.
    rewrite Hfn1, Hne. unfold WriteFile. cbn.
    destruct (decide _); [reflexivity|contradiction]. }
  split; [reflexivity|]. split; [reflexivity|].
  assert (Htrig : forall set,
    getConfigWith set p' w1 =
    (let* _ :=
       (let* _ := setConfigFromFile in
        let* q := getProvider in
        let* _ := (if emptyBuffer (cfg q)
                   then let* _ := modify (with_settingDefaults true) in
                        let* _ := setDefaultConfigWith set in
                        modify (with_settingDefaults false)
                   else ret tt) in
        modify (with_dirty false)) in
     let* p2 := getProvider in
     ret (bufferText (cfg p2))) p' w1).
  { intros set. unfold getConfigWith.
    unfold bind at 1. unfold getProvider at 1.
    unfold bind at 6. unfold getProvider at 3.
    subst p'. cbn [settingDefaults cfg dirty with_mu with_cfg with_dirty
                   fileName].
    rewrite Hsd1, Hfn1, Hne. reflexivity. }
  split.
  - intros data Hread. unfold getConfig. rewrite Htrig.
    unfold setConfigFromFile, bind, getProvider, getWorld, modify, ret.
    subst p'. cbn [fileName with_mu with_cfg with_dirty]. rewrite Hfn1, Hread.
    reflexivity.
  - intros Hread. unfold getConfig. rewrite Htrig.
    unfold setConfigFromFile, bind, getProvider, getWorld, modify, ret.
    subst p'. cbn [fileName with_mu with_cfg with_dirty]. rewrite Hfn1, Hread.
    cbn [cfg with_mu with_cfg with_dirty]. rewrite Hcfg'. reflexivity.
Qed.

Lemma SetWithScope_persistence_failure_witness :
  SetWithScope 1 "" "theme" (GString "dark") readOnlyProvider readOnlyWorld
  = Returns (Some (PathError "open" "/etc/newrelic.json"))
      (with_mu false
         (with_cfg (Some (Some (JObject [("region", JString "us");
                                         ("theme", JString "dark")])))
            (with_dirty true (with_mu true readOnlyProvider))))
      readOnlyWorld.
Proof.
  refine (proj1 (SetWithScope_persistence_failure 0 0 "" "theme"
            (GString "dark") readOnlyProvider (with_mu true readOnlyProvider)
            readOnlyWorld readOnlyWorld
            (Some (JObject [("region", JString "us")]))
            (Some (JObject [("region", JString "us");
                            ("theme", JString "dark")]))
            _ _ _ _ _ _ _)); try reflexivity.
  discriminate.
Defined.

(** ** The bound on the nesting of calls *)

Lemma lockedSet_unfold fuel path value p w :
  lockedSet fuel path value p w =
  if mu p then Blocks p w
  else match getConfig fuel (with_mu true p) w with
       | Returns json p1 w1 =>
           match sjson_Set json (escapeWildcards path) value with
           | (_, Some err) => Returns (Some err) (with_mu false p1) w1
           | (cfg', None) =>
               match writeConfig cfg' p1 w1 with
               | Returns err p2 w2 => Returns err (with_mu false p2) w2
               | Exits p2 w2 => Exits p2 w2
               | Blocks p2 w2 => Blocks p2 w2
               | OutOfFuel => OutOfFuel
               end
           end
       | Exits p1 w1 => Exits p1 w1
       | Blocks p1 w1 => Blocks p1 w1
       | OutOfFuel => OutOfFuel
       end.
Proof.
  unfold lockedSet. unfold bind at 1. unfold Lock at 1.
  destruct (mu p); [reflexivity|].
  unfold bind at 1. destruct (getConfig fuel (with_mu true p) w); try reflexivity.
  destruct (sjson_Set _ _ value) as [cfg' [err|]]; [reflexivity|].
  unfold bind at 1. destruct (writeConfig cfg' p0 w0); reflexivity.
Qed.

Lemma getConfigWith_unfold set p w :
  getConfigWith set p w =
  if negb (settingDefaults p)
     && (match cfg p with None => true | Some _ => false end || dirty p)
  then
    match (if nonEmpty (fileName p) then setConfigFromFile else ret tt) p w with
    | Returns _ p1 w1 =>
        if emptyBuffer (cfg p1)
        then match setDefaults set (fields p1) (with_settingDefaults true p1) w1
             with
             | Returns _ q w' =>
                 Returns (bufferText (cfg q))
                   (with_dirty false (with_settingDefaults false q)) w'
             | Exits q w' => Exits q w'
             | Blocks q w' => Blocks q w'
             | OutOfFuel => OutOfFuel
             end
        else Returns (bufferText (cfg p1)) (with_dirty false p1) w1
    | Exits p1 w1 => Exits p1 w1
    | Blocks p1 w1 => Blocks p1 w1
    | OutOfFuel => OutOfFuel
    end
  else Returns (bufferText (cfg p)) p w.
Proof.
  unfold getConfigWith. unfold bind at 1. unfold getProvider at 1.
  unfold bind at 1.
  destruct (negb (settingDefaults p) && _); [|reflexivity].
  unfold bind at 1.
  destruct ((if nonEmpty (fileName p) then setConfigFromFile else ret tt) p w)
    as [[] p1 w1| | |]; try reflexivity.
  unfold bind at 1. unfold getProvider at 1. unfold bind at 1.
  destruct (emptyBuffer (cfg p1)); [|reflexivity].
  unfold bind at 1. unfold modify at 1. unfold bind at 1.
  unfold setDefaultConfigWith. unfold bind at 1. unfold getProvider at 1.
  cbn [fields with_settingDefaults].
  destruct (setDefaults set (fields p1) (with_settingDefaults true p1) w1)
    as [[] q w'| | |]; reflexivity.
Qed.

Lemma SetWithScope_while_settingDefaults_any_fuel fuel scope' key value q w :
  settingDefaults q = true ->
  SetWithScope (S fuel) scope' key value q w
  = SetWithScope 1 scope' key value q w.
Proof.
  intros Hsd. rewrite !SetWithScope_S.
  destruct (validateSet q key value); [reflexivity|].
  rewrite !lockedSet_unfold. destruct (mu q); [reflexivity|].
  unfold getConfig.
  rewrite !getConfigWith_skip by (left; exact Hsd). reflexivity.
Qed.

Lemma setDefaults_any_fuel fuel fs q w :
  settingDefaults q = true ->
  setDefaults (Set' (S fuel)) fs q w = setDefaults (Set' 1) fs q w.
Proof.
  revert q w. induction fs as [|d fs IH]; intros q w Hsd; simpl;
    [reflexivity|].
  destruct (negb (isNil (Default d))); [|auto].
  unfold bind, Set'.
  rewrite SetWithScope_while_settingDefaults_any_fuel by assumption.
  destruct (SetWithScope 1 "" (Key d) (Default d) q w)
    as [[err|] q1 w1| | |] eqn:E; try reflexivity.
  apply IH. apply keepsFrame_SetWithScope in E.
  rewrite (frame_settingDefaults _ _ _ _ E). assumption.
Qed.

(** [getConfig] depends on the setter only through the loop of
    [setDefaultConfig], which runs with the flag up. *)
Lemma getConfigWith_ext set1 set2 p w :
  (forall fs q w', settingDefaults q = true ->
     setDefaults set1 fs q w' = setDefaults set2 fs q w') ->
  getConfigWith set1 p w = getConfigWith set2 p w.
Proof.
  intros Hext. rewrite !getConfigWith_unfold.
  destruct (negb (settingDefaults p) && _); [|reflexivity].
  destruct ((if nonEmpty (fileName p) then setConfigFromFile else ret tt) p w)
    as [[] p1 w1| | |]; try reflexivity.
  destruct (emptyBuffer (cfg p1)); [|reflexivity].
  rewrite Hext by reflexivity. reflexivity.
Qed.

Lemma getConfig_any_fuel fuel p w : getConfig (S fuel) p w = getConfig 1 p w.
Proof.
  apply getConfigWith_ext. intros fs q w' Hsd.
  apply setDefaults_any_fuel, Hsd.
Qed.

Lemma writeConfig_returns json p w :
  exists err p' w', writeConfig json p w = Returns err p' w'.
Proof.
  unfold writeConfig, bind, modify, getProvider, ret. cbn.
  destruct (nonEmpty (fileName p)); [|eauto].
  unfold WriteFile. destruct (decide _); eauto.
Qed.

Lemma SetWithScope_while_settingDefaults_in_fuel scope' key value q w :
  settingDefaults q = true ->
  SetWithScope 1 scope' key value q w <> OutOfFuel.
Proof.
  intros Hsd. rewrite SetWithScope_S.
  destruct (validateSet q key value); [discriminate|].
  rewrite lockedSet_unfold. destruct (mu q); [discriminate|].
  unfold getConfig. rewrite getConfigWith_skip by (left; exact Hsd).
  destruct (sjson_Set _ _ value) as [cfg' [err|]]; [discriminate|].
  destruct (writeConfig_returns cfg' (with_mu true q) w)
    as (err & p' & w' & ->). discriminate.
Qed.

Lemma setDefaults_in_fuel fs q w :
  settingDefaults q = true -> setDefaults (Set' 1) fs q w <> OutOfFuel.
Proof.
  revert q w. induction fs as [|d fs IH]; intros q w Hsd; simpl;
    [discriminate|].
  destruct (negb (isNil (Default d))); [|auto].
  unfold bind, Set'.
  destruct (SetWithScope 1 "" (Key d) (Default d) q w)
    as [[err|] q1 w1| | |] eqn:E; try discriminate.
  - apply IH. apply keepsFrame_SetWithScope in E.
    rewrite (frame_settingDefaults _ _ _ _ E). assumption.
  - exfalso. eapply SetWithScope_while_settingDefaults_in_fuel; eassumption.
Qed.

Lemma getConfig_in_fuel p w : getConfig 1 p w <> OutOfFuel.
Proof.
  unfold getConfig. rewrite getConfigWith_unfold.
  destruct (negb (settingDefaults p) && _); [|discriminate].
  destruct ((if nonEmpty (fileName p) then setConfigFromFile else ret tt) p w)
    as [[] p1 w1| | |] eqn:E1; try discriminate.
  2:{ destruct (nonEmpty (fileName p)); [|discriminate].
      destruct (setConfigFromFile_returns p w) as (pa & Ea & _).
      congruence. }
  destruct (emptyBuffer (cfg p1)); [|discriminate].
  destruct (setDefaults (Set' 1) (fields p1) (with_settingDefaults true p1) w1)
    as [[] q' w'| | |] eqn:E2; try discriminate.
  exfalso. eapply setDefaults_in_fuel; [|exact E2]. reflexivity.
Qed.

(** X1: a get never exhausts the bound on nested calls: with any bound
    of at least one it does what it does with bound one, which is never
    to run out.  The load it starts nests one set at most. *)
Theorem GetWithScope_terminates (fuel : nat) (scope' : string)
  (key : ConfigKey) (p : ConfigProvider) (w : World) :
  GetWithScope (S fuel) scope' key p w = GetWithScope 1 scope' key p w
  /\ GetWithScope (S fuel) scope' key p w <> OutOfFuel.
Proof.
  assert (H : GetWithScope (S fuel) scope' key p w
              = GetWithScope 1 scope' key p w).
  { rewrite !GetWithScope_unfold, getConfig_any_fuel. reflexivity. }
  split; [exact H|]. rewrite H, GetWithScope_unfold.
  destruct (envOverride p w key); [discriminate|].
  pose proof (getConfig_in_fuel p w) as Hg.
  destruct (getConfig 1 p w); try discriminate; [|congruence].
  destruct (gjson_Get _ _); discriminate.
Qed.

(** X2: a set never exhausts the bound either: two levels are enough,
    one for the set and one for the sets of the defaults. *)
Theorem SetWithScope_terminates_or_blocks (fuel : nat) (scope' : string)
  (key : ConfigKey) (value : GoValue) (p : ConfigProvider) (w : World) :
  SetWithScope (S (S fuel)) scope' key value p w
  = SetWithScope 2 scope' key value p w
  /\ SetWithScope (S (S fuel)) scope' key value p w <> OutOfFuel.
Proof.
  assert (H : SetWithScope (S (S fuel)) scope' key value p w
              = SetWithScope 2 scope' key value p w).
  { rewrite !SetWithScope_S. destruct (validateSet p key value); [reflexivity|].
    rewrite !lockedSet_unfold. destruct (mu p); [reflexivity|].
    rewrite getConfig_any_fuel. reflexivity. }
  split; [exact H|]. rewrite H, SetWithScope_S.
  destruct (validateSet p key value); [discriminate|].
  rewrite lockedSet_unfold. destruct (mu p); [discriminate|].
  pose proof (getConfig_in_fuel (with_mu true p) w) as Hg.
  destruct (getConfig 1 (with_mu true p) w) as [json p1 w1| | |];
    try discriminate; [|congruence].
  destruct (sjson_Set _ _ value) as [cfg' [err|]]; [discriminate|].
  destruct (writeConfig_returns cfg' p1 w1) as (err & p' & w' & ->).
  discriminate.
Qed.

(** ** The validators *)

(** X3: [IntGreaterThan n] accepts the ints above [n] and nothing
    else; in particular it rejects every value read back from the
    document, where numbers are float64. *)
Theorem IntGreaterThan_accepts (n : Z) (key : ConfigKey) (value : GoValue) :
  (IntGreaterThan n key value = None <-> exists s, value = GInt s /\ s > n)
  /\ forall j, IntGreaterThan n key (Value j) <> None.
Proof.
  split.
  - unfold IntGreaterThan. split.
    + destruct value; try discriminate.
      destruct (n0 >? n) eqn:E; [|discriminate].
      intros _. exists n0. split; [reflexivity|]. lia.
    + intros (s & -> & Hs). destruct (s >? n) eqn:E; [reflexivity|lia].
  - intros [| | | |]; cbn; discriminate.
Qed.

(** X4: on ASCII strings, [StringInStrings] accepts the strings equal
    to an allowed value, or equal to one up to case when it is not
    case-sensitive, and nothing else; what the case-sensitive validator
    accepts, the other accepts too. *)
Theorem StringInStrings_accepts (caseSensitive : bool)
  (allowedValues : list string) (key : ConfigKey) (value : GoValue) :
  forallb isASCII allowedValues = true ->
  (forall s, value = GString s -> isASCII s = true) ->
  (StringInStrings caseSensitive allowedValues key value = None <->
   exists s v, value = GString s /\ In v allowedValues
               /\ (if caseSensitive then s = v else EqualFold s v = true))
  /\ (StringInStrings true allowedValues key value = None ->
      StringInStrings false allowedValues key value = None).
Proof.
  intros _ _.
  assert (Hiff : forall cs,
    StringInStrings cs allowedValues key value = None <->
    exists s v, value = GString s /\ In v allowedValues
                /\ (if cs then s = v else EqualFold s v = true)).
  { intros cs. unfold StringInStrings. split.
    - destruct value; try discriminate.
      destruct (existsb _ allowedValues) eqn:E; [|discriminate].
      intros _. apply existsb_exists in E as (v & Hv & Hm).
      exists s, v. split; [reflexivity|]. split; [assumption|].
      destruct cs; cbn in Hm.
      + rewrite orb_false_r in Hm. apply String.eqb_eq, Hm.
      + exact Hm.
    - intros (s & v & -> & Hv & Hm).
      assert (existsb (fun v0 => cs && String.eqb s v0
                                 || negb cs && EqualFold s v0) allowedValues
              = true) as ->; [|reflexivity].
      apply existsb_exists. exists v. split; [assumption|].
      destruct cs; cbn.
      + rewrite orb_false_r. apply String.eqb_eq, Hm.
      + exact Hm. }
  split; [apply Hiff|].
  intros (s & v & -> & Hv & ->)%Hiff. apply Hiff.
  exists v, v. split; [reflexivity|]. split; [assumption|].
  apply EqualFold_refl.
Qed.

Lemma StringInStrings_accepts_witness :
  (StringInStrings false ["us"; "eu"] "region" (GString "EU") = None <->
   exists s v, GString "EU" = GString s /\ In v ["us"; "eu"]
               /\ EqualFold s v = true)
  /\ (StringInStrings true ["us"; "eu"] "region" (GString "EU") = None ->
      StringInStrings false ["us"; "eu"] "region" (GString "EU") = None).
Proof.
  apply (StringInStrings_accepts false ["us"; "eu"] "region" (GString "EU")).
  - reflexivity.
  - intros s [= <-]. reflexivity.
Defined.

(** ** The registry *)

Lemma with_fields_self p : with_fields (fields p) p = p.
Proof. destruct p; reflexivity. Qed.

Lemma registrable_cons seen d rest :
  registrable seen (d :: rest) <->
  (CaseSensitive d = false ->
   forall d', In d' seen -> EqualFold (Key d') (Key d) = false)
  /\ registrable (seen ++ [d]) rest.
Proof.
  unfold registrable. split.
  - intros H. split.
    + intros Hcs d' Hd'. apply (H [] d rest eq_refl Hcs).
      rewrite app_nil_r. assumption.
    + intros l1 d0 l2 -> Hcs d' Hd'.
      apply (H (d :: l1) d0 l2 eq_refl Hcs).
      rewrite <- app_assoc in Hd'. exact Hd'.
  - intros [Hd Hrest] l1 d0 l2 Heq Hcs d' Hd'.
    destruct l1 as [|x l1]; simpl in Heq; injection Heq as <- ->.
    + rewrite app_nil_r in Hd'. apply Hd; assumption.
    + apply (Hrest l1 d0 l2 eq_refl Hcs). rewrite <- app_assoc. exact Hd'.
Qed.

Lemma addFieldDefinitions_registrable ds p0 :
  (registrable (fields p0) ds ->
   addFieldDefinitions ds p0 = (with_fields (fields p0 ++ ds) p0, None))
  /\ (snd (addFieldDefinitions ds p0) = None -> registrable (fields p0) ds).
Proof.
  revert p0. induction ds as [|d ds IH]; intros p0.
  { split.
    - intros _. simpl. rewrite app_nil_r, with_fields_self. reflexivity.
    - intros _ l1 d l2 Heq. destruct l1; discriminate. }
  cbn [addFieldDefinitions].
  destruct (negb (CaseSensitive d)
            && existsb (fun k => EqualFold k (Key d)) (getConfigValueKeys p0))
    eqn:Hdup.
  - apply andb_prop in Hdup as [Hcs Hex]. apply negb_true_iff in Hcs.
    apply existsb_exists in Hex as (k & Hk & Hfold).
    unfold getConfigValueKeys in Hk. apply in_map_iff in Hk as (d' & <- & Hd').
    split; [|discriminate].
    intros [Hd _]%registrable_cons. rewrite (Hd Hcs d' Hd') in Hfold.
    discriminate.
  - destruct (IH (with_fields (fields p0 ++ [d]) p0)) as [IH1 IH2].
    cbn [fields with_fields] in IH1, IH2.
    assert (Hd : CaseSensitive d = false ->
                 forall d', In d' (fields p0) ->
                            EqualFold (Key d') (Key d) = false).
    { intros Hcs d' Hd'. rewrite Hcs in Hdup. cbn in Hdup.
      destruct (EqualFold (Key d') (Key d)) eqn:E; [|reflexivity].
      assert (existsb (fun k => EqualFold k (Key d)) (getConfigValueKeys p0)
              = true); [|congruence].
      apply existsb_exists. exists (Key d'). split; [|assumption].
      unfold getConfigValueKeys. apply in_map. assumption. }
    split.
    + intros [_ Hrest]%registrable_cons. rewrite (IH1 Hrest).
      rewrite <- app_assoc. reflexivity.
    + intros Hnone. apply registrable_cons. auto.
Qed.

(** X5: for definitions with ASCII keys, registration succeeds
    exactly when no case-insensitive definition case-folds to the key
    of a definition given before it; the provider then holds the
    definitions in the order given, and no two of its case-insensitive
    definitions share a case-folded key. *)
Theorem register_succeeds_iff (ds : list FieldDefinition) :
  asciiKeys ds = true ->
  (snd (register ds) = None <-> registrable [] ds)
  /\ (registrable [] ds ->
      register ds = (Some (with_fields ds zeroProvider), None)
      /\ forall l1 d1 l2 d2 l3,
           ds = (l1 ++ d1 :: l2 ++ d2 :: l3)%list ->
           CaseSensitive d1 = false -> CaseSensitive d2 = false ->
           EqualFold (Key d1) (Key d2) = false).
Proof.
  intros _.
  destruct (addFieldDefinitions_registrable ds zeroProvider) as [H1 H2].
  assert (Hreg : registrable [] ds ->
                 register ds = (Some (with_fields ds zeroProvider), None)).
  { intros Hr. unfold register, NewConfigProvider, WithFieldDefinitions.
    cbn [applyOptions]. rewrite (H1 Hr). reflexivity. }
  split; [split|].
  - intros Hs. apply H2. unfold register, NewConfigProvider,
      WithFieldDefinitions in Hs. cbn [applyOptions] in Hs.
    destruct (addFieldDefinitions ds zeroProvider) as [p' [err|]];
      [discriminate|reflexivity].
  - intros Hr. rewrite (Hreg Hr). reflexivity.
  - intros Hr. split; [apply Hreg, Hr|].
    intros l1 d1 l2 d2 l3 -> _ Hcs2.
    apply (Hr (l1 ++ d1 :: l2)%list d2 l3).
    + rewrite <- app_assoc. reflexivity.
    + assumption.
    + cbn. apply in_or_app. right. left. reflexivity.
Qed.

Lemma register_succeeds_iff_witness :
  register [regionField; apiKeyField]
  = (Some (with_fields [regionField; apiKeyField] zeroProvider), None).
Proof.
  apply (proj2 (register_succeeds_iff [regionField; apiKeyField] eq_refl)).
  intros l1 d l2 Heq Hcs d' Hd'.
  destruct l1 as [|x [|y [|z l1]]]; simpl in Heq.
  - destruct Hd'.
  - injection Heq as <- <- <-. destruct Hd' as [<-|[]]. reflexivity.
  - discriminate.
  - discriminate.
Defined.

Lemma fieldMatches_EqualFold key d :
  fieldMatches key d = true -> EqualFold key (Key d) = true.
Proof.
  unfold fieldMatches. intros [[_ H]%andb_prop|[_ H]%andb_prop]%orb_prop.
  - exact H.
  - apply String_eqb_EqualFold, H.
Qed.

(** X6: a definition behind a case-insensitive one with the same
    case-folded key is shadowed: every key that matches it matches the
    case-insensitive one too, and the lookup returns a definition that
    stands no later than that one. *)
Theorem getFieldDefinition_shadowed (p : ConfigProvider)
  (l1 l2 : list FieldDefinition) (d1 d2 : FieldDefinition) (key : ConfigKey) :
  fields p = (l1 ++ d1 :: l2)%list ->
  In d2 l2 ->
  CaseSensitive d1 = false ->
  EqualFold (Key d1) (Key d2) = true ->
  fieldMatches key d2 = true ->
  exists d, getFieldDefinition p key = Some d /\ In d (l1 ++ [d1])%list.
Proof.
  intros Hf _ Hcs Hfold Hm.
  assert (Hm1 : fieldMatches key d1 = true).
  { unfold fieldMatches. rewrite Hcs. cbn. rewrite orb_false_r.
    eapply EqualFold_trans; [apply fieldMatches_EqualFold, Hm|].
    rewrite EqualFold_sym. exact Hfold. }
  unfold getFieldDefinition. rewrite Hf. clear Hf.
  induction l1 as [|x l1 IH]; simpl.
  - rewrite Hm1. exists d1. auto.
  - destruct (fieldMatches key x); [exists x; auto|].
    destruct IH as (d & -> & Hd). exists d. auto.
Qed.

Lemma getFieldDefinition_shadowed_witness :
  exists d,
    getFieldDefinition
      (with_fields [regionField; sampleField "REGION" "" GNil true None]
         zeroProvider) "REGION" = Some d
    /\ In d ([] ++ [regionField])%list.
Proof.
  apply (getFieldDefinition_shadowed _ [] [sampleField "REGION" "" GNil true None]
           regionField (sampleField "REGION" "" GNil true None) "REGION");
    try reflexivity.
  left. reflexivity.
Defined.

(** X7: the key of a registered definition is always found by the
    lookup, so a set of it is never checked against the explicit-values
    mode: the verdict is the one of the validation function of the
    definition found, and there is none without such a function. *)
Theorem registered_key_is_known (p : ConfigProvider) (d : FieldDefinition)
  (value : GoValue) :
  In d (fields p) ->
  exists d',
    getFieldDefinition p (Key d) = Some d'
    /\ fieldMatches (Key d) d' = true
    /\ validateSet p (Key d) value
       = match ValidationFunc d' with
         | Some f => f (Key d) value
         | None => None
         end.
Proof.
  intros Hd.
  assert (Hm : fieldMatches (Key d) d = true).
  { unfold fieldMatches. rewrite EqualFold_refl, String.eqb_refl.
    destruct (CaseSensitive d); reflexivity. }
  unfold validateSet, getFieldDefinition.
  destruct (find (fieldMatches (Key d)) (fields p)) as [d'|] eqn:E.
  - exists d'. split; [reflexivity|]. split; [|reflexivity].
    apply (find_some _ _ E).
  - rewrite (find_none _ _ E d Hd) in Hm. discriminate.
Qed.

Lemma registered_key_is_known_witness :
  exists d',
    getFieldDefinition (with_explicitValues true sampleProvider) "apiKey"
    = Some d'
    /\ fieldMatches "apiKey" d' = true
    /\ validateSet (with_explicitValues true sampleProvider) "apiKey"
         (GString "abc123")
       = match ValidationFunc d' with
         | Some f => f "apiKey" (GString "abc123")
         | None => None
         end.
Proof.
  apply (registered_key_is_known (with_explicitValues true sampleProvider)
           apiKeyField (GString "abc123")).
  right. left. reflexivity.
Defined.

(** ** The typed accessors *)

Lemma float64_of_Z_exact (n : Z) : Z.abs n <= 2 ^ 53 -> float64_of_Z n = n.
Proof.
  intros H. unfold float64_of_Z.
  destruct (Z.abs n <? 2 ^ 53) eqn:E; [reflexivity|].
  apply Z.ltb_ge in E. assert (Ha : Z.abs n = 2 ^ 53) by lia.
  rewrite Ha. destruct (Z.abs_spec n) as [[_ Hn]|[_ Hn]].
  - rewrite Hn in Ha. subst n. reflexivity.
  - assert (n = - 2 ^ 53) as -> by lia. reflexivity.
Qed.

Lemma GetIntWithScope_unfold fuel scope' key p w :
  GetIntWithScope fuel scope' key p w =
  match GetWithScope fuel scope' key p w with
  | Returns (_, Some err) p' w' => Returns (0, Some err) p' w'
  | Returns (GFloat64 x, None) p' w' => Returns (int64_of_float64 x, None) p' w'
  | Returns (GString s, None) p' w' =>
      match Atoi s with
      | Some i => Returns (i, None) p' w'
      | None =>
          Returns (0, Some (Errorf "value %v for key %s is not an int"
                              [AValue (GString s); AStr key])) p' w'
      end
  | Returns (v, None) p' w' =>
      Returns (0, Some (Errorf "value %v for key %s is not an int"
                          [AValue v; AStr key])) p' w'
  | Exits p' w' => Exits p' w'
  | Blocks p' w' => Blocks p' w'
  | OutOfFuel => OutOfFuel
  end.
Proof.
  unfold GetIntWithScope, bind.
  destruct (GetWithScope fuel scope' key p w) as [[v [err|]] p' w'| | |];
    try reflexivity.
  - destruct v; reflexivity.
  - destruct v; try reflexivity. destruct (Atoi s); reflexivity.
Qed.

Lemma GetStringWithScope_unfold fuel scope' key p w :
  GetStringWithScope fuel scope' key p w =
  match GetWithScope fuel scope' key p w with
  | Returns (_, Some err) p' w' => Returns ("", Some err) p' w'
  | Returns (GString s, None) p' w' => Returns (s, None) p' w'
  | Returns (v, None) p' w' =>
      Returns ("", Some (Errorf "value %v for key %s is not a string"
                           [AValue v; AStr key])) p' w'
  | Exits p' w' => Exits p' w'
  | Blocks p' w' => Blocks p' w'
  | OutOfFuel => OutOfFuel
  end.
Proof.
  unfold GetStringWithScope, bind.
  destruct (GetWithScope fuel scope' key p w) as [[v [err|]] p' w'| | |];
    try reflexivity; destruct v; reflexivity.
Qed.

(** X8: an int that was set is read back by [GetIntWithScope] through
    float64: the result is the int itself up to 2^53 in absolute value,
    and the int64 of the nearest float64 beyond. *)
Theorem GetIntWithScope_after_SetWithScope (fuel fuel' : nat)
  (scope' : string) (key : ConfigKey) (n : Z) (p p' : ConfigProvider)
  (w w' : World) :
  SetWithScope fuel scope' key (GInt n) p w = Returns None p' w' ->
  envOverride p w key = None ->
  plainPath (resolvePath p scope' (canonicalKey p key)) = true ->
  exists p'',
    GetIntWithScope fuel' scope' key p' w'
    = Returns (int64_of_float64 (float64_of_Z n), None) p'' w'
    /\ (Z.abs n <= 2 ^ 53 -> int64_of_float64 (float64_of_Z n) = n).
Proof.
  intros Hset Henv Hplain.
  destruct (GetWithScope_after_SetWithScope fuel fuel' _ _ _ _ _ _ _
              Hset Henv (plainPath_noWildcards _ Hplain)) as [p'' Hget].
  exists p''. split.
  - rewrite GetIntWithScope_unfold, Hget. reflexivity.
  - intros Hn. rewrite float64_of_Z_exact by assumption.
    unfold int64_of_float64, inInt64.
    assert (- 2 ^ 63 <= n < 2 ^ 63) by lia.
    destruct (- 2 ^ 63 <=? n) eqn:E1; [|lia].
    destruct (n <? 2 ^ 63) eqn:E2; [reflexivity|lia].
Qed.

Lemma GetIntWithScope_after_SetWithScope_witness :
  exists p'',
    GetIntWithScope 1 "" "retries"
      (with_dirty true
         (with_cfg (Some (Some (JObject [("retries", JNum 9007199254740993)])))
            zeroProvider)) emptyWorld
    = Returns (int64_of_float64 (float64_of_Z 9007199254740993), None)
        p'' emptyWorld
    /\ (Z.abs 9007199254740993 <= 2 ^ 53 ->
        int64_of_float64 (float64_of_Z 9007199254740993) = 9007199254740993).
Proof.
  apply (GetIntWithScope_after_SetWithScope 1 1 "" "retries" 9007199254740993
           zeroProvider _ emptyWorld emptyWorld); reflexivity.
Defined.

(** X9: a string that was set is read back by [GetStringWithScope];
    an int that was set is not a string for it: it fails with the
    type error, which carries the float64 read back and the key. *)
Theorem GetStringWithScope_after_SetWithScope (fuel fuel' : nat)
  (scope' : string) (key : ConfigKey) (value : GoValue)
  (p p' : ConfigProvider) (w w' : World) :
  SetWithScope fuel scope' key value p w = Returns None p' w' ->
  envOverride p w key = None ->
  plainPath (resolvePath p scope' (canonicalKey p key)) = true ->
  exists p'',
    (forall s, value = GString s ->
       GetStringWithScope fuel' scope' key p' w' = Returns (s, None) p'' w')
    /\ (forall n, value = GInt n ->
          GetStringWithScope fuel' scope' key p' w'
          = Returns ("", Some (Errorf "value %v for key %s is not a string"
                                 [AValue (GFloat64 (float64_of_Z n)); AStr key]))
              p'' w').
Proof.
  intros Hset Henv Hplain.
  destruct (GetWithScope_after_SetWithScope fuel fuel' _ _ _ _ _ _ _
              Hset Henv (plainPath_noWildcards _ Hplain)) as [p'' Hget].
  exists p''. split; intros x ->;
    rewrite GetStringWithScope_unfold, Hget; reflexivity.
Qed.

Lemma GetStringWithScope_after_SetWithScope_witness :
  exists p'',
    (forall s, GString "abc123" = GString s ->
       GetStringWithScope 1 "" "apiKey"
         (with_dirty true
            (with_cfg (Some (Some (JObject [("apiKey", JString "abc123")])))
               zeroProvider)) emptyWorld
       = Returns (s, None) p'' emptyWorld)
    /\ (forall n, GString "abc123" = GInt n ->
          GetStringWithScope 1 "" "apiKey"
            (with_dirty true
               (with_cfg (Some (Some (JObject [("apiKey", JString "abc123")])))
                  zeroProvider)) emptyWorld
          = Returns ("", Some (Errorf "value %v for key %s is not a string"
                                 [AValue (GFloat64 (float64_of_Z n));
                                  AStr "apiKey"]))
              p'' emptyWorld).
Proof.
  apply (GetStringWithScope_after_SetWithScope 1 1 "" "apiKey"
           (GString "abc123") zeroProvider _ emptyWorld emptyWorld);
    reflexivity.
Defined.

(** X10: under an environment override the typed accessors work on the
    string of the variable: [GetStringWithScope] returns it, and
    [GetIntWithScope] returns the int [strconv.Atoi] reads in it, or
    the type error when it is not a decimal int. *)
Theorem typed_accessors_env_override (fuel : nat) (scope' : string)
  (key : ConfigKey) (p : ConfigProvider) (w : World) (d : FieldDefinition)
  (e : string) :
  getFieldDefinition p key = Some d ->
  EnvVar d <> "" ->
  environ w !! EnvVar d = Some e ->
  GetStringWithScope fuel scope' key p w = Returns (e, None) p w
  /\ GetIntWithScope fuel scope' key p w
     = Returns (match Atoi e with
                | Some i => (i, None)
                | None => (0, Some (Errorf "value %v for key %s is not an int"
                                      [AValue (GString e); AStr key]))
                end) p w.
Proof.
  intros Hd Hne Henv.
  assert (Hget : GetWithScope fuel scope' key p w
                 = Returns (GString e, None) p w).
  { rewrite GetWithScope_unfold. unfold envOverride. rewrite Hd.
    unfold LookupEnv. destruct (String.eqb (EnvVar d) "") eqn:E;
      [apply String.eqb_eq in E; contradiction|].
    rewrite Henv. reflexivity. }
  split.
  - rewrite GetStringWithScope_unfold, Hget. reflexivity.
  - rewrite GetIntWithScope_unfold, Hget. destruct (Atoi e); reflexivity.
Qed.

Lemma typed_accessors_env_override_witness :
  GetStringWithScope 0 "" "region" sampleProvider regionWorld
  = Returns ("eu", None) sampleProvider regionWorld
  /\ GetIntWithScope 0 "" "region" sampleProvider regionWorld
     = Returns (match Atoi "eu" with
                | Some i => (i, None)
                | None => (0, Some (Errorf "value %v for key %s is not an int"
                                      [AValue (GString "eu"); AStr "region"]))
                end) sampleProvider regionWorld.
Proof.
  apply (typed_accessors_env_override 0 "" "region" sampleProvider regionWorld
           regionField "eu").
  - reflexivity.
  - discriminate.
  - vm_compute. reflexivity.
Defined.

(** ** Sets on a loaded document *)

(** A successful set on a loaded and clean document: the new document
    is the old one with the member written. *)
Lemma SetWithScope_success_on_loaded fuel scope' key value p w j p' w' :
  cfg p = Some (Some j) -> dirty p = false ->
  SetWithScope fuel scope' key value p w = Returns None p' w' ->
  cfg p' = Some (Some (setComponents
                         (pathKeys (escapeWildcards
                            (resolvePath p scope' (canonicalKey p key))))
                         (toJSON value) j)).
Proof.
  intros Hcfg Hdirty H.
  destruct fuel as [|fuel]; [discriminate|].
  rewrite SetWithScope_S in H.
  destruct (validateSet p key value); [discriminate|].
  rewrite lockedSet_unfold in H. destruct (mu p); [discriminate|].
  unfold getConfig in H. rewrite getConfigWith_skip in H
    by (right; cbn; rewrite Hcfg; split; [discriminate|assumption]).
  cbn [cfg with_mu] in H. rewrite Hcfg in H. cbn [bufferText] in H.
  destruct (sjson_Set (Some j) _ value) as [cfg' [err|]] eqn:Hset;
    [discriminate|].
  destruct (sjson_Set_ok _ _ _ _ Hset) as [_ ->].
  unfold writeConfig, bind, modify, getProvider, ret in H. cbn in H.
  destruct (nonEmpty (fileName p)).
  - unfold WriteFile in H. destruct (decide _); [discriminate|].
    injection H as <- <-. reflexivity.
  - injection H as <- <-. reflexivity.
Qed.

(** X11: a set leaves the other keys alone.  On a loaded and clean
    document, after a successful set of one key, a get of a key whose
    path is apart from the path written returns what it returned
    before the set. *)
Theorem SetWithScope_keeps_other_keys (fuel fuel' : nat)
  (scope1 scope2 : string) (key1 key2 : ConfigKey) (value : GoValue)
  (p p' : ConfigProvider) (w w' : World) (j : Json)
  (r : GoValue * option error) :
  cfg p = Some (Some j) -> dirty p = false ->
  SetWithScope fuel scope1 key1 value p w = Returns None p' w' ->
  plainPath (resolvePath p scope1 (canonicalKey p key1)) = true ->
  plainPath (resolvePath p scope2 (canonicalKey p key2)) = true ->
  apart (pathKeys (resolvePath p scope2 (canonicalKey p key2)))
        (pathKeys (resolvePath p scope1 (canonicalKey p key1))) ->
  GetWithScope fuel' scope2 key2 p w = Returns r p w ->
  exists p'', GetWithScope fuel' scope2 key2 p' w' = Returns r p'' w'.
Proof.
  intros Hcfg Hdirty Hset Hp1 Hp2 Hapart Hget.
  pose proof (SetWithScope_success_on_loaded _ _ _ _ _ _ _ _ _
                Hcfg Hdirty Hset) as Hcfg'.
  destruct (SetWithScope_success _ _ _ _ _ _ _ _ Hset)
    as (_ & j' & _ & Hcfg2 & _ & Hfile & F).
  rewrite escapeWildcards_id in Hcfg' by (apply plainPath_noWildcards, Hp1).
  rewrite Hcfg2 in Hcfg'. injection Hcfg' as ->.
  rewrite GetWithScope_unfold in Hget |- *.
  rewrite (envOverride_frame _ _ _ _ key2 F).
  destruct (envOverride p w key2) as [e|].
  { injection Hget as <-. eauto. }
  destruct (getConfigWith_written (Set' fuel') p' w' _ Hcfg2 Hfile)
    as (p'' & Hg & _ & _).
  exists p''. unfold getConfig in *. rewrite Hg.
  rewrite getConfigWith_skip in Hget
    by (right; rewrite Hcfg; split; [discriminate|assumption]).
  rewrite Hcfg in Hget. cbn [bufferText] in Hget.
  rewrite (canonicalKey_frame _ _ _ _ key2 F).
  rewrite (resolvePath_frame _ _ _ _ scope2 _ F).
  assert (Heq : gjson_Get
                  (Some (setComponents
                           (pathKeys (resolvePath p scope1 (canonicalKey p key1)))
                           (toJSON value) j))
                  (resolvePath p scope2 (canonicalKey p key2))
                = gjson_Get (Some j) (resolvePath p scope2 (canonicalKey p key2))).
  { unfold gjson_Get.
    rewrite (literal_components
               (parsePath (resolvePath p scope2 (canonicalKey p key2))))
      by (apply parsePath_noWildcards, plainPath_noWildcards, Hp2).
    apply getComponents_setComponents_apart, Hapart. }
  rewrite Heq.
  destruct (gjson_Get (Some j) _); injection Hget as <-; reflexivity.
Qed.

Lemma SetWithScope_keeps_other_keys_witness :
  exists p'',
    GetWithScope 1 "" "region"
      (with_dirty true
         (with_cfg (Some (Some (JObject [("region", JString "us");
                                         ("apiKey", JString "abc123")])))
            sampleProvider)) emptyWorld
    = Returns (GString "us", None) p'' emptyWorld.
Proof.
  refine (SetWithScope_keeps_other_keys 1 1 "" "" "apiKey" "region"
            (GString "abc123")
            (with_cfg (Some (Some (JObject [("region", JString "us")])))
               sampleProvider) _ emptyWorld emptyWorld
            (JObject [("region", JString "us")]) (GString "us", None)
            _ _ _ _ _ _ _); try reflexivity.
  split; intros [k Hk]; vm_compute in Hk; discriminate.
Defined.

(** ** Scopes in the document *)

Lemma GetScopes_unfold fuel p w :
  GetScopes fuel p w =
  match getConfig fuel p w with
  | Returns json p' w' => Returns (topLevelKeys json) p' w'
  | Exits p' w' => Exits p' w'
  | Blocks p' w' => Blocks p' w'
  | OutOfFuel => OutOfFuel
  end.
Proof.
  unfold GetScopes, bind. destruct (getConfig fuel p w); reflexivity.
Qed.

Lemma replaceFirst_keys k f ms :
  map fst (replaceFirst k f ms) = map fst ms.
Proof.
  induction ms as [|m ms IH]; simpl; [reflexivity|].
  destruct (String.eqb k (fst m)); simpl; [reflexivity|].
  rewrite IH. reflexivity.
Qed.

Lemma hasKey_In k ms : hasKey k ms = true <-> In k (map fst ms).
Proof.
  unfold hasKey. rewrite existsb_exists, in_map_iff. split.
  - intros (m & Hm & ->%String.eqb_eq). eauto.
  - intros (m & <- & Hm). exists m. split; [assumption|apply String.eqb_refl].
Qed.

Lemma setComponents_first_key k ks raw j :
  exists ms, setComponents (k :: ks) raw j = JObject ms /\ In k (map fst ms).
Proof.
  cbn [setComponents]. destruct (hasKey k (membersOf j)) eqn:Hk.
  - eexists. split; [reflexivity|]. rewrite replaceFirst_keys.
    apply hasKey_In, Hk.
  - eexists. split; [reflexivity|]. rewrite map_app. apply in_or_app.
    right. left. reflexivity.
Qed.

(** X12: after a successful set to a plain path, the first key of the
    path is among the scopes [GetScopes] lists: the scope of the
    provider when it has one, else the scope of the call, else the key
    itself (their first component, when they have dots). *)
Theorem GetScopes_after_SetWithScope (fuel fuel' : nat) (scope' : string)
  (key : ConfigKey) (value : GoValue) (p p' : ConfigProvider) (w w' : World) :
  SetWithScope fuel scope' key value p w = Returns None p' w' ->
  plainPath (resolvePath p scope' (canonicalKey p key)) = true ->
  exists first rest scopes p'',
    pathKeys (resolvePath p scope' (canonicalKey p key)) = first :: rest
    /\ GetScopes fuel' p' w' = Returns scopes p'' w'
    /\ In first scopes.
Proof.
  intros Hset Hplain.
  destruct (SetWithScope_success _ _ _ _ _ _ _ _ Hset)
    as (json & j' & Hs & Hcfg & _ & Hfile & _).
  rewrite escapeWildcards_id in Hs by (apply plainPath_noWildcards, Hplain).
  destruct (sjson_Set_ok _ _ _ _ Hs) as [_ Hj'].
  injection Hj' as Hj'.
  destruct (getConfigWith_written (Set' fuel') p' w' _ Hcfg Hfile)
    as (p'' & Hg & _ & _).
  fold (pathKeys (resolvePath p scope' (canonicalKey p key))) in Hj'.
  destruct (pathKeys _) as [|first rest] eqn:Hks.
  { exfalso. unfold pathKeys in Hks. apply map_eq_nil in Hks.
    apply (parsePath_nonempty _ Hks). }
  destruct (setComponents_first_key first rest (toJSON value)
              (match json with Some j => j | None => JNull end))
    as (ms & Hms & Hin).
  exists first, rest, (map fst ms), p''. split; [reflexivity|].
  split; [|assumption].
  rewrite GetScopes_unfold. unfold getConfig. rewrite Hg, Hj', Hms.
  reflexivity.
Qed.

Lemma GetScopes_after_SetWithScope_witness :
  exists first rest scopes p'',
    pathKeys (resolvePath sampleProvider "staging"
                (canonicalKey sampleProvider "apiKey"))
    = first :: rest
    /\ GetScopes 1
         (with_dirty true
            (with_cfg
               (Some (Some (JObject
                              [("region", JString "us");
                               ("staging",
                                JObject [("apiKey", JString "abc123")])])))
               sampleProvider)) emptyWorld
       = Returns scopes p'' emptyWorld
    /\ In first scopes.
Proof.
  apply (GetScopes_after_SetWithScope 1 1 "staging" "apiKey" (GString "abc123")
           (with_cfg (Some (Some (JObject [("region", JString "us")])))
              sampleProvider) _ emptyWorld emptyWorld); reflexivity.
Defined.

(** ** Escaping *)

Lemma map_lit_part_consChar c w cs :
  cs <> [] ->
  map (fun x => lit (part x)) (consChar c w cs)
  = consChar c false (map (fun x => lit (part x)) cs).
Proof. destruct cs as [|h t]; [congruence|]. reflexivity. Qed.

(** On a path without backslashes, escaping the wildcards turns every
    component into a literal key and changes nothing else. *)
Lemma parsePath_escapeWildcards path :
  noBackslash path = true ->
  parsePath (escapeWildcards path)
  = map (fun c => lit (part c)) (parsePath path).
Proof.
  induction path as [|c rest IH]; [reflexivity|].
  cbn [noBackslash]. intros [Hc Hrest]%andb_prop.
  apply negb_true_iff in Hc. specialize (IH Hrest).
  cbn [escapeWildcards]. destruct (isWildcard c) eqn:Hw.
  - assert (Hdot : Ascii.eqb c "." = false).
    { unfold isWildcard in Hw. apply orb_prop in Hw as [H|H];
        apply Ascii.eqb_eq in H; subst c; reflexivity. }
    cbn [parsePath]. cbn [Ascii.eqb Bool.eqb]. rewrite Hdot, Hc, Hw, IH.
    rewrite map_lit_part_consChar by apply parsePath_nonempty. reflexivity.
  - cbn [parsePath]. destruct (Ascii.eqb c "."); [cbn; rewrite IH; reflexivity|].
    rewrite Hc, Hw, IH.
    rewrite map_lit_part_consChar by apply parsePath_nonempty. reflexivity.
Qed.

Lemma existsb_wild_lit (cs : list component) :
  existsb wild (map (fun c => lit (part c)) cs) = false.
Proof. induction cs; simpl; auto. Qed.

Lemma escapeWildcards_nonempty path : path <> "" -> escapeWildcards path <> "".
Proof.
  destruct path as [|c rest]; [congruence|]. intros _.
  cbn. destruct (isWildcard c); discriminate.
Qed.

Lemma wildPlainFrom_noBackslash start s :
  wildPlainFrom start s = true -> noBackslash s = true.
Proof.
  revert start. induction s as [|c s IH]; intros start; cbn; [reflexivity|].
  destruct (Ascii.eqb c ".") eqn:Edot.
  - intros [_ H]%andb_prop. apply Ascii.eqb_eq in Edot. subst c.
    cbn. eauto.
  - intros [Hc H]%andb_prop. rewrite (IH _ H), andb_true_r.
    apply negb_true_iff.
    destruct (Ascii.eqb c "\") eqn:E; [|reflexivity].
    apply Ascii.eqb_eq in E. subst c. destruct start; discriminate.
Qed.

Lemma wildPlainPath_nonempty s : wildPlainPath s = true -> s <> "".
Proof. intros H ->. discriminate. Qed.

(** On a path of plain bytes and wildcards, [sjson.Set] on the escaped
    path writes the member the path names, wildcards taken as bytes. *)
Lemma sjson_Set_escapeWildcards (json : Text) (path : string)
  (value : GoValue) :
  wildPlainPath path = true ->
  sjson_Set json (escapeWildcards path) value
  = (Some (setComponents (pathKeys path) (toJSON value) (rootOf json)), None).
Proof.
  intros Hp. unfold sjson_Set.
  destruct (String.eqb (escapeWildcards path) "") eqn:E.
  { apply String.eqb_eq in E. exfalso.
    eapply escapeWildcards_nonempty; [|eassumption].
    apply wildPlainPath_nonempty, Hp. }
  rewrite parsePath_escapeWildcards
    by (eapply wildPlainFrom_noBackslash; exact Hp).
  rewrite existsb_wild_lit, map_map. reflexivity.
Qed.

(** X13: wildcards in a key are written as bytes.  On a loaded and
    clean document, with the mutex free and the file (if any) writable,
    a set whose value passes the validation and whose resolved path is
    made of plain bytes and wildcards succeeds, and the new buffer is
    the old document with the member the path names, [*] and [?]
    standing for themselves. *)
Theorem SetWithScope_writes_wildcards_as_bytes (fuel : nat) (scope' : string)
  (key : ConfigKey) (value : GoValue) (p : ConfigProvider) (w : World)
  (j : Json) :
  validateSet p key value = None ->
  cfg p = Some (Some j) -> dirty p = false -> mu p = false ->
  (nonEmpty (fileName p) = true -> fileName p ∉ unwritable w) ->
  wildPlainPath (resolvePath p scope' (canonicalKey p key)) = true ->
  exists p' w',
    SetWithScope (S fuel) scope' key value p w = Returns None p' w'
    /\ cfg p' = Some (Some (setComponents
                              (pathKeys (resolvePath p scope'
                                           (canonicalKey p key)))
                              (toJSON value) j)).
Proof.
  intros Hval Hcfg Hdirty Hmu Hw Hp.
  rewrite SetWithScope_S, Hval, lockedSet_unfold, Hmu.
  unfold getConfig. rewrite getConfigWith_skip
    by (right; cbn; rewrite Hcfg; split; [discriminate|assumption]).
  cbn [cfg with_mu]. rewrite Hcfg. cbn [bufferText].
  rewrite (sjson_Set_escapeWildcards _ _ _ Hp). cbn [rootOf].
  unfold writeConfig, bind, modify, getProvider, ret. cbn.
  destruct (nonEmpty (fileName p)) eqn:Hn.
  - unfold WriteFile. cbn.
    destruct (decide _) as [Hin|Hout];
      [exfalso; apply (Hw eq_refl); exact Hin|].
    eexists _, _. split; reflexivity.
  - eexists _, _. split; reflexivity.
Qed.

Lemma SetWithScope_writes_wildcards_as_bytes_witness :
  exists p' w',
    SetWithScope 1 "" "a*" (GString "z") wildcardProvider emptyWorld
    = Returns None p' w'
    /\ cfg p' = Some (Some (setComponents
                              (pathKeys (resolvePath wildcardProvider ""
                                           (canonicalKey wildcardProvider "a*")))
                              (toJSON (GString "z"))
                              (JObject [("ab", JString "x");
                                        ("a*", JString "y")]))).
Proof.
  apply (SetWithScope_writes_wildcards_as_bytes 0 "" "a*" (GString "z")
           wildcardProvider emptyWorld); try reflexivity.
  discriminate.
Defined.

(** X14: a key with wildcards is read back when the caller escapes
    it.  In a registry of ASCII keys without definitions for the key
    and the escaped key, and without scopes, after a successful set of
    a key made of plain bytes and wildcards, a get of the escaped key
    returns the value as JSON gives it back. *)
Theorem Get_of_escaped_key_after_Set (fuel fuel' : nat) (key : ConfigKey)
  (value : GoValue) (p p' : ConfigProvider) (w w' : World) :
  asciiKeys (fields p) = true ->
  getFieldDefinition p key = None ->
  getFieldDefinition p (escapeWildcards key) = None ->
  scope p = "" ->
  wildPlainPath key = true ->
  Set' fuel key value p w = Returns None p' w' ->
  exists p'',
    Get fuel' (escapeWildcards key) p' w'
    = Returns (Value (toJSON value), None) p'' w'.
Proof.
  intros _ Hd Hde Hscope Hwp Hset.
  pose proof (wildPlainFrom_noBackslash _ _ Hwp) as Hnb.
  destruct (SetWithScope_success _ _ _ _ _ _ _ _ Hset)
    as (json & j' & Hs & Hcfg & _ & Hfile & F).
  assert (Hpath : forall k, resolvePath p "" k = k).
  { intros k. unfold resolvePath. rewrite Hscope. reflexivity. }
  rewrite (canonicalKey_unregistered _ _ Hd), Hpath in Hs.
  destruct (sjson_Set_ok _ _ _ _ Hs) as [_ Hj']. injection Hj' as Hj'.
  destruct (getConfigWith_written (Set' fuel') p' w' _ Hcfg Hfile)
    as (p'' & Hg & _ & _).
  exists p''. unfold Get. rewrite GetWithScope_unfold.
  rewrite (envOverride_frame _ _ _ _ _ F).
  rewrite (envOverride_unregistered _ _ _ Hde).
  unfold getConfig. rewrite Hg.
  rewrite (canonicalKey_frame _ _ _ _ _ F).
  rewrite (resolvePath_frame _ _ _ _ "" _ F).
  rewrite (canonicalKey_unregistered _ _ Hde), Hpath.
  unfold gjson_Get. rewrite Hj'.
  rewrite parsePath_escapeWildcards by assumption.
  rewrite map_map. cbn [part lit].
  rewrite <- (map_map part lit). rewrite getComponents_setComponents.
  reflexivity.
Qed.

Lemma Get_of_escaped_key_after_Set_witness :
  exists p'',
    Get 1 (escapeWildcards "a*")
      (with_dirty true
         (with_cfg (Some (Some (JObject [("ab", JString "x");
                                         ("a*", JString "z")])))
            zeroProvider)) emptyWorld
    = Returns (Value (toJSON (GString "z")), None) p'' emptyWorld.
Proof.
  apply (Get_of_escaped_key_after_Set 1 1 "a*" (GString "z") wildcardProvider
           _ emptyWorld emptyWorld); reflexivity.
Defined.

(** ** The mutex *)

Lemma RemoveScope_unfold fuel scope' p w :
  RemoveScope fuel scope' p w =
  if mu p then Blocks p w
  else match getConfig fuel (with_mu true p) w with
       | Returns json p1 w1 =>
           match sjson_Delete json
                   (if nonEmpty (scope p) then scope p ++ "." ++ scope'
                    else scope') with
           | (_, Some err) => Returns (Some err) (with_mu false p1) w1
           | (cfg', None) =>
               match writeConfig cfg' p1 w1 with
               | Returns err p2 w2 => Returns err (with_mu false p2) w2
               | Exits p2 w2 => Exits p2 w2
               | Blocks p2 w2 => Blocks p2 w2
               | OutOfFuel => OutOfFuel
               end
           end
       | Exits p1 w1 => Exits p1 w1
       | Blocks p1 w1 => Blocks p1 w1
       | OutOfFuel => OutOfFuel
       end.
Proof.
  unfold RemoveScope. unfold bind at 1. unfold getProvider at 1.
  unfold bind at 1. unfold Lock at 1.
  destruct (mu p); [reflexivity|].
  unfold bind at 1. destruct (getConfig fuel (with_mu true p) w); try reflexivity.
  destruct (sjson_Delete _ _) as [cfg' [err|]]; [reflexivity|].
  unfold bind at 1. destruct (writeConfig cfg' p0 w0); reflexivity.
Qed.

Lemma keepsFrame_RemoveScope fuel scope' : keepsFrame (RemoveScope fuel scope').
Proof.
  intros p w a p' w' H. rewrite RemoveScope_unfold in H.
  destruct (mu p) eqn:Hmu; [discriminate|].
  destruct (getConfig fuel (with_mu true p) w) as [json p1 w1| | |] eqn:E1;
    try discriminate.
  apply keepsFrame_getConfig in E1.
  destruct (sjson_Delete json _) as [cfg' [err|]].
  - injection H as <- <- <-. destruct E1. cbn in *. split; cbn; congruence.
  - destruct (writeConfig cfg' p1 w1) as [e p2 w2| | |] eqn:E2;
      try discriminate.
    apply keepsFrame_writeConfig in E2. injection H as <- <- <-.
    destruct E1, E2. cbn in *. split; cbn; congruence.
Qed.

(** X15: the mutations give the mutex back and keep the setup.  When
    [SetWithScope] or [RemoveScope] returns, with an error or without,
    the mutex is as it was before the call, and so are the registry,
    the file name, the scope and the mode of the provider. *)
Theorem mutations_release_the_mutex (fuel : nat) (scope' : string)
  (key : ConfigKey) (value : GoValue) (p p' : ConfigProvider) (w w' : World)
  (err : option error) :
  SetWithScope fuel scope' key value p w = Returns err p' w'
  \/ RemoveScope fuel scope' p w = Returns err p' w' ->
  mu p' = mu p /\ fields p' = fields p /\ fileName p' = fileName p
  /\ scope p' = scope p /\ explicitValues p' = explicitValues p.
Proof.
  intros [H|H];
    [apply keepsFrame_SetWithScope in H|apply keepsFrame_RemoveScope in H];
    destruct H; auto.
Qed.

Lemma mutations_release_the_mutex_witness :
  mu (with_dirty true
        (with_cfg (Some (Some (JObject [("region", JString "us");
                                        ("apiKey", JString "abc123")])))
           sampleProvider))
  = mu (with_cfg (Some (Some (JObject [("region", JString "us")])))
          sampleProvider).
Proof.
  refine (proj1 (mutations_release_the_mutex 1 "" "apiKey" (GString "abc123")
            (with_cfg (Some (Some (JObject [("region", JString "us")])))
               sampleProvider) _ emptyWorld emptyWorld None _)).
  left. reflexivity.
Defined.

(** ** Removing a scope *)

Lemma parsePath_simpleKey s : simpleKey s = true -> parsePath s = [lit s].
Proof.
  induction s as [|c rest IH]; [reflexivity|].
  cbn [simpleKey]. intros [[[Hdot Hbs]%andb_prop Hw]%andb_prop Hrest]%andb_prop.
  apply negb_true_iff in Hdot, Hbs, Hw.
  cbn [parsePath]. rewrite Hdot, Hbs, Hw, (IH Hrest). reflexivity.
Qed.

Lemma removeFirst_absent k ms : hasKey k ms = false -> removeFirst k ms = ms.
Proof.
  induction ms as [|m ms IH]; simpl; [reflexivity|].
  intros [Hm Hms]%orb_false_elim. rewrite Hm, (IH Hms). reflexivity.
Qed.

Lemma removeFirst_NoDup k ms :
  List.NoDup (map fst ms) -> ~ In k (map fst (removeFirst k ms)).
Proof.
  induction ms as [|m ms IH]; simpl; [auto|].
  intros Hnd. apply List.NoDup_cons_iff in Hnd as [Hm Hnd].
  destruct (String.eqb k (fst m)) eqn:E.
  - apply String.eqb_eq in E. subst k. exact Hm.
  - simpl. intros [Heq|Hin]; [|apply (IH Hnd Hin)].
    subst k. rewrite String.eqb_refl in E. discriminate.
Qed.

Lemma sjson_Delete_simpleKey (ms : list (string * Json)) (s : string) :
  simpleKey s = true -> s <> "" ->
  sjson_Delete (Some (JObject ms)) s
  = (Some (JObject (removeFirst s ms)), None).
Proof.
  intros Hs Hne. unfold sjson_Delete.
  destruct (String.eqb s "") eqn:E; [apply String.eqb_eq in E; contradiction|].
  rewrite (parsePath_simpleKey _ Hs). cbn [existsb wild lit orb map part].
  cbn [deleteComponents membersOf].
  destruct (hasKey s ms) eqn:Hk; [reflexivity|].
  rewrite (removeFirst_absent _ _ Hk). reflexivity.
Qed.

(** [RemoveScope] of a simple key, without a scope on the provider,
    when the load under the mutex gives an object. *)
Lemma RemoveScope_simpleKey fuel s p w ms p1 :
  mu p = false -> scope p = "" -> fileName p ∉ unwritable w ->
  simpleKey s = true -> s <> "" ->
  getConfig fuel (with_mu true p) w = Returns (Some (JObject ms)) p1 w ->
  exists p' w',
    RemoveScope fuel s p w = Returns None p' w'
    /\ cfg p' = Some (Some (JObject (removeFirst s ms)))
    /\ (nonEmpty (fileName p') = true ->
        ReadFile w' (fileName p')
        = Some (Some (JObject (removeFirst s ms)))).
Proof.
  intros Hmu Hscope Hw Hs Hne Hg.
  pose proof (keepsFrame_getConfig _ _ _ _ _ _ Hg) as F.
  rewrite RemoveScope_unfold, Hmu, Hg. unfold nonEmpty at 1.
  rewrite Hscope. cbn [String.eqb negb].
  rewrite (sjson_Delete_simpleKey ms s Hs Hne).
  unfold writeConfig, bind, modify, getProvider, ret. cbn.
  assert (Hfn : fileName p1 = fileName p) by apply F.
  destruct (nonEmpty (fileName p1)) eqn:Hn.
  - unfold WriteFile. cbn. rewrite Hfn.
    destruct (decide _); [contradiction|].
    eexists _, _. split; [reflexivity|]. cbn. split; [reflexivity|].
    intros _. unfold ReadFile. cbn. rewrite Hfn. apply lookup_insert_eq.
  - eexists _, _. split; [reflexivity|]. cbn. split; [reflexivity|].
    rewrite Hn. discriminate.
Qed.

Lemma plainKey_simple s :
  plainKey s = true -> simpleKey s = true /\ s <> "".
Proof.
  unfold plainKey. intros [Hp Hs]%andb_prop. split; [exact Hs|].
  apply plainPath_nonempty, Hp.
Qed.

(** X16: removing a scope twice.  Without a scope on the provider, on
    a loaded and clean object whose keys are all different, with the
    mutex free and the file (if any) writable, [RemoveScope] of a plain
    key succeeds and takes the member out; [GetScopes] no longer lists
    the key; and a second [RemoveScope] of the key succeeds too and
    leaves the document as it is. *)
Theorem RemoveScope_twice (fuel fuel' fuel'' : nat) (s : string)
  (p : ConfigProvider) (w : World) (ms : list (string * Json)) :
  cfg p = Some (Some (JObject ms)) -> dirty p = false ->
  mu p = false -> scope p = "" -> fileName p ∉ unwritable w ->
  plainKey s = true ->
  List.NoDup (map fst ms) ->
  exists p' w',
    RemoveScope fuel s p w = Returns None p' w'
    /\ cfg p' = Some (Some (JObject (removeFirst s ms)))
    /\ (exists scopes p'',
          GetScopes fuel' p' w' = Returns scopes p'' w' /\ ~ In s scopes)
    /\ (exists p3 w3,
          RemoveScope fuel'' s p' w' = Returns None p3 w3
          /\ cfg p3 = cfg p').
Proof.
  intros Hcfg Hdirty Hmu Hscope Hw Hpk Hnd.
  destruct (plainKey_simple _ Hpk) as [Hs Hne].
  assert (Hg : getConfig fuel (with_mu true p) w
               = Returns (Some (JObject ms)) (with_mu true p) w).
  { unfold getConfig. rewrite getConfigWith_skip
      by (right; cbn; rewrite Hcfg; split; [discriminate|assumption]).
    cbn. rewrite Hcfg. reflexivity. }
  destruct (RemoveScope_simpleKey fuel s p w ms _ Hmu Hscope Hw Hs Hne Hg)
    as (p' & w' & Hrm & Hcfg' & Hfile').
  pose proof (keepsFrame_RemoveScope _ _ _ _ _ _ _ Hrm) as F.
  exists p', w'. split; [exact Hrm|]. split; [exact Hcfg'|]. split.
  - destruct (getConfigWith_written (Set' fuel') p' w' _ Hcfg' Hfile')
      as (p'' & Hg' & _ & _).
    exists (map fst (removeFirst s ms)), p''. split.
    + rewrite GetScopes_unfold. unfold getConfig. rewrite Hg'. reflexivity.
    + apply removeFirst_NoDup, Hnd.
  - destruct (getConfigWith_written (Set' fuel'') (with_mu true p') w' _
                Hcfg' Hfile') as (p2 & Hg2 & _ & _).
    assert (Hmu' : mu p' = false).
    { rewrite (frame_mu _ _ _ _ F). exact Hmu. }
    assert (Hscope' : scope p' = "").
    { rewrite (frame_scope _ _ _ _ F). exact Hscope. }
    assert (Hw' : fileName p' ∉ unwritable w').
    { rewrite (frame_fileName _ _ _ _ F), (frame_unwritable _ _ _ _ F).
      exact Hw. }
    destruct (RemoveScope_simpleKey fuel'' s p' w' (removeFirst s ms) p2
                Hmu' Hscope' Hw' Hs Hne Hg2) as (p3 & w3 & Hrm2 & Hcfg3 & _).
    exists p3, w3. split; [exact Hrm2|].
    rewrite Hcfg3, Hcfg'.
    rewrite (removeFirst_absent s (removeFirst s ms)); [reflexivity|].
    destruct (hasKey s (removeFirst s ms)) eqn:Hk; [|reflexivity].
    apply hasKey_In in Hk. exfalso. apply (removeFirst_NoDup s ms Hnd Hk).
Qed.

Lemma RemoveScope_twice_witness :
  exists p' w',
    RemoveScope 0 "staging"
      (with_cfg (Some (Some (JObject [("region", JString "us");
                                      ("staging", JObject [])])))
         sampleProvider) emptyWorld = Returns None p' w'
    /\ cfg p' = Some (Some (JObject (removeFirst "staging"
                                       [("region", JString "us");
                                        ("staging", JObject [])])))
    /\ (exists scopes p'',
          GetScopes 0 p' w' = Returns scopes p'' w' /\ ~ In "staging" scopes)
    /\ (exists p3 w3,
          RemoveScope 0 "staging" p' w' = Returns None p3 w3
          /\ cfg p3 = cfg p').
Proof.
  apply (RemoveScope_twice 0 0 0 "staging"
           (with_cfg (Some (Some (JObject [("region", JString "us");
                                           ("staging", JObject [])])))
              sampleProvider) emptyWorld
           [("region", JString "us"); ("staging", JObject [])]);
    try reflexivity.
  - vm_compute. set_solver.
  - repeat constructor; cbn; intros H;
      repeat (destruct H as [H|H]; try discriminate); destruct H.
Defined.

(** ** The backing file *)

Lemma nonEmpty_true s : s <> "" -> nonEmpty s = true.
Proof.
  intros H. unfold nonEmpty. destruct (String.eqb s "") eqn:E;
    [apply String.eqb_eq in E; contradiction|reflexivity].
Qed.

(** The first [getConfig] of a provider whose file holds a document:
    the document of the file is taken, and no default is written. *)
Lemma getConfig_from_file fuel q w j :
  cfg q = None -> settingDefaults q = false ->
  fileName q <> "" -> ReadFile w (fileName q) = Some (Some j) ->
  getConfig fuel q w
  = Returns (Some j) (with_dirty false (with_cfg (Some (Some j)) q)) w.
Proof.
  intros Hcfg Hsd Hfn Hread. unfold getConfig.
  rewrite getConfigWith_unfold, Hsd, Hcfg, (nonEmpty_true _ Hfn).
  cbn [negb andb orb].
  unfold setConfigFromFile, bind, getProvider, getWorld, modify, ret.
  rewrite Hread. reflexivity.
Qed.

(** X17: what one provider sets, another provider on the same file
    gets.  After a successful set on a provider with a backing file, a
    provider that has the same definitions, scope and file name and
    has loaded nothing yet returns, from its first get of the key, the
    value as JSON gives it back. *)
Theorem GetWithScope_in_another_provider (fuel fuel' : nat) (scope' : string)
  (key : ConfigKey) (value : GoValue) (p p' q : ConfigProvider)
  (w w' : World) :
  SetWithScope fuel scope' key value p w = Returns None p' w' ->
  fileName p <> "" ->
  envOverride p w key = None ->
  plainPath (resolvePath p scope' (canonicalKey p key)) = true ->
  sameSetup p q -> fileName q = fileName p ->
  cfg q = None -> settingDefaults q = false ->
  GetWithScope fuel' scope' key q w'
  = Returns (Value (toJSON value), None)
      (with_dirty false
         (with_cfg (Some (bufferText (cfg p'))) q)) w'.
Proof.
  intros Hset Hfn Henv Hplain Hsame Hfq Hcq Hsq.
  destruct (SetWithScope_success _ _ _ _ _ _ _ _ Hset)
    as (json & j' & Hs & Hcfg & _ & Hfile & F).
  pose proof (plainPath_noWildcards _ Hplain) as Hnw.
  rewrite escapeWildcards_id in Hs by assumption.
  destruct (sjson_Set_ok _ _ _ _ Hs) as [Hne _].
  destruct (gjson_Get_sjson_Set json _ value Hne Hnw) as (j2 & Hs2 & Hget).
  rewrite Hs in Hs2. injection Hs2 as <-.
  assert (Hread : ReadFile w' (fileName q) = Some (Some j')).
  { rewrite Hfq, <- (frame_fileName _ _ _ _ F). apply Hfile.
    apply nonEmpty_true. rewrite (frame_fileName _ _ _ _ F). exact Hfn. }
  rewrite GetWithScope_unfold.
  destruct Hsame as (Hfields & Hscope & _).
  assert (Henvq : envOverride q w' key = None).
  { unfold envOverride, getFieldDefinition, LookupEnv in *.
    rewrite Hfields, (frame_environ _ _ _ _ F). exact Henv. }
  rewrite Henvq.
  rewrite (getConfig_from_file fuel' q w' j' Hcq Hsq) by congruence.
  assert (Hpath : resolvePath q scope' (canonicalKey q key)
                  = resolvePath p scope' (canonicalKey p key)).
  { unfold resolvePath, canonicalKey, getFieldDefinition.
    rewrite Hfields, Hscope. reflexivity. }
  rewrite Hpath, Hget, Hcfg. reflexivity.
Qed.

Lemma GetWithScope_in_another_provider_witness :
  GetWithScope 0 "" "apiKey"
    (with_fileName "/home/me/.newrelic/config.json" sampleProvider)
    {| environ := ∅;
       files := {[ "/home/me/.newrelic/config.json" :=
                   Some (JObject [("region", JString "us");
                                  ("apiKey", JString "abc123")]) ]};
       unwritable := ∅ |}
  = Returns (Value (toJSON (GString "abc123")), None)
      (with_dirty false
         (with_cfg (Some (Some (JObject [("region", JString "us");
                                         ("apiKey", JString "abc123")])))
            (with_fileName "/home/me/.newrelic/config.json" sampleProvider)))
      {| environ := ∅;
         files := {[ "/home/me/.newrelic/config.json" :=
                     Some (JObject [("region", JString "us");
                                    ("apiKey", JString "abc123")]) ]};
         unwritable := ∅ |}.
Proof.
  refine (GetWithScope_in_another_provider 1 0 "" "apiKey" (GString "abc123")
            (with_cfg (Some (Some (JObject [("region", JString "us")])))
               (with_fileName "/home/me/.newrelic/config.json" sampleProvider))
            (with_dirty true
               (with_cfg (Some (Some (JObject [("region", JString "us");
                                               ("apiKey", JString "abc123")])))
                  (with_fileName "/home/me/.newrelic/config.json"
                     sampleProvider)))
            (with_fileName "/home/me/.newrelic/config.json" sampleProvider)
            emptyWorld _ _ _ _ _ _ _ _ _); try reflexivity.
  all: try discriminate.
  all: try (repeat split; fail).
  all: vm_compute; reflexivity.
Defined.

(** X18: a document in the file keeps the defaults out.  When the
    file of a provider that has loaded nothing holds a document, the
    first get reads that document and writes no default: a key the
    document lacks is not found, whatever default its definition has. *)
Theorem file_document_suppresses_defaults (fuel : nat) (scope' : string)
  (key : ConfigKey) (q : ConfigProvider) (w : World) (j : Json) :
  cfg q = None -> settingDefaults q = false ->
  fileName q <> "" -> ReadFile w (fileName q) = Some (Some j) ->
  envOverride q w key = None ->
  GetWithScope fuel scope' key q w
  = Returns
      (match gjson_Get (Some j) (resolvePath q scope' (canonicalKey q key)) with
       | Some res => (Value res, None)
       | None =>
           (GString "",
            Some (Errorf "no value found at path %s"
                    [AStr (resolvePath q scope' (canonicalKey q key))]))
       end)
      (with_dirty false (with_cfg (Some (Some j)) q)) w.
Proof.
  intros Hcfg Hsd Hfn Hread Henv.
  rewrite GetWithScope_unfold, Henv.
  rewrite (getConfig_from_file fuel q w j Hcfg Hsd Hfn Hread).
  destruct (gjson_Get _ _); reflexivity.
Qed.

Lemma file_document_suppresses_defaults_witness :
  GetWithScope 0 "" "region"
    (with_fileName "/home/me/.newrelic/config.json" sampleProvider)
    {| environ := ∅;
       files := {[ "/home/me/.newrelic/config.json" :=
                   Some (JObject [("apiKey", JString "abc123")]) ]};
       unwritable := ∅ |}
  = Returns
      (GString "",
       Some (Errorf "no value found at path %s" [AStr "region"]))
      (with_dirty false
         (with_cfg (Some (Some (JObject [("apiKey", JString "abc123")])))
            (with_fileName "/home/me/.newrelic/config.json" sampleProvider)))
      {| environ := ∅;
         files := {[ "/home/me/.newrelic/config.json" :=
                     Some (JObject [("apiKey", JString "abc123")]) ]};
         unwritable := ∅ |}.
Proof.
  refine (file_document_suppresses_defaults 0 "" "region"
            (with_fileName "/home/me/.newrelic/config.json" sampleProvider)
            _ (JObject [("apiKey", JString "abc123")]) _ _ _ _ _);
    try reflexivity.
  all: try discriminate.
  all: vm_compute; reflexivity.
Defined.

(** The first [getConfig] when there is no file to read: the loop of
    the defaults decides. *)
Lemma getConfig_first_load fuel p w :
  cfg p = None -> settingDefaults p = false ->
  (nonEmpty (fileName p) = true -> ReadFile w (fileName p) = None) ->
  getConfig fuel p w =
  match setDefaults (Set' fuel) (fields p) (with_settingDefaults true p) w with
  | Returns _ q w' =>
      Returns (bufferText (cfg q))
        (with_dirty false (with_settingDefaults false q)) w'
  | Exits q w' => Exits q w'
  | Blocks q w' => Blocks q w'
  | OutOfFuel => OutOfFuel
  end.
Proof.
  intros Hcfg Hsd Hread. unfold getConfig.
  rewrite getConfigWith_unfold, Hsd, Hcfg. cbn [negb andb orb].
  destruct (nonEmpty (fileName p)) eqn:Hn.
  - unfold setConfigFromFile, bind, getProvider, getWorld, modify, ret.
    rewrite (Hread eq_refl), Hcfg. reflexivity.
  - unfold ret. rewrite Hcfg. reflexivity.
Qed.

Lemma setDefaults_first_error set pre d post q w err q1 w1 :
  forallb (fun d => isNil (Default d)) pre = true ->
  Default d <> GNil ->
  set (Key d) (Default d) q w = Returns (Some err) q1 w1 ->
  setDefaults set (pre ++ d :: post) q w = Exits q1 w1.
Proof.
  intros Hpre Hd Hset. induction pre as [|d0 pre IH]; simpl.
  - destruct (isNil (Default d)) eqn:Hnil;
      [destruct (Default d); try discriminate; congruence|].
    cbn [negb]. unfold bind. rewrite Hset. reflexivity.
  - simpl in Hpre. apply andb_prop in Hpre as [-> Hpre]. cbn [negb]. auto.
Qed.

(** X19: a default that its validation rejects ends the process.  On
    a provider that has nothing loaded and no file to read, when the
    first definition with a default has a default that fails the
    validation applied to its key, the first get of any key without an
    environment override calls [log.Fatalf]. *)
Theorem rejected_default_is_fatal (fuel : nat) (scope' : string)
  (key : ConfigKey) (p : ConfigProvider) (w : World)
  (pre post : list FieldDefinition) (d : FieldDefinition) (err : error) :
  cfg p = None -> settingDefaults p = false ->
  (nonEmpty (fileName p) = true -> ReadFile w (fileName p) = None) ->
  fields p = (pre ++ d :: post)%list ->
  forallb (fun d => isNil (Default d)) pre = true ->
  Default d <> GNil ->
  validateSet p (Key d) (Default d) = Some err ->
  envOverride p w key = None ->
  GetWithScope (S fuel) scope' key p w = Exits (with_settingDefaults true p) w.
Proof.
  intros Hcfg Hsd Hread Hfields Hpre Hd Hval Henv.
  rewrite GetWithScope_unfold, Henv.
  rewrite (getConfig_first_load _ _ _ Hcfg Hsd Hread), Hfields.
  rewrite (setDefaults_first_error _ pre d post _ _ err
             (with_settingDefaults true p) w Hpre Hd); [reflexivity|].
  unfold Set'. rewrite SetWithScope_S.
  rewrite (validateSet_setup p) by (repeat split). rewrite Hval. reflexivity.
Qed.

Lemma rejected_default_is_fatal_witness :
  GetWithScope 1 "" "apiKey"
    (with_fields [sampleField "region" "" (GString "xx") false
                    (Some (StringInStrings false ["us"; "eu"]));
                  apiKeyField] zeroProvider) emptyWorld
  = Exits
      (with_settingDefaults true
         (with_fields [sampleField "region" "" (GString "xx") false
                         (Some (StringInStrings false ["us"; "eu"]));
                       apiKeyField] zeroProvider)) emptyWorld.
Proof.
  refine (rejected_default_is_fatal 0 "" "apiKey" _ emptyWorld [] [apiKeyField]
            (sampleField "region" "" (GString "xx") false
               (Some (StringInStrings false ["us"; "eu"])))
            (Errorf "value %v not in allowed values: %s"
               [AStr "xx"; AStrs ["us"; "eu"]]) _ _ _ _ _ _ _ _);
    try reflexivity.
  all: discriminate.
Defined.

(** A set of the loop of the defaults, with a file that can be
    written. *)
Lemma Set_while_settingDefaults_file fuel key value q w :
  settingDefaults q = true -> mu q = false ->
  fileName q ∉ unwritable w ->
  validateSet q key value = None ->
  defaultPath q key <> "" -> noWildcards (defaultPath q key) = true ->
  exists q' w',
    Set' (S fuel) key value q w = Returns None q' w'
    /\ cfg q' = Some (Some (setComponents (pathKeys (defaultPath q key))
                              (toJSON value) (rootOf (bufferText (cfg q)))))
    /\ frame q w q' w'
    /\ (nonEmpty (fileName q) = true ->
        ReadFile w' (fileName q) = Some (bufferText (cfg q'))).
Proof.
  intros Hsd Hmu Hw Hval Hne Hnw.
  unfold Set'. rewrite SetWithScope_S, Hval.
  fold (defaultPath q key).
  rewrite lockedSet_unfold, Hmu. unfold getConfig.
  rewrite getConfigWith_skip by (left; exact Hsd).
  rewrite escapeWildcards_id by assumption.
  unfold sjson_Set.
  destruct (String.eqb (defaultPath q key) "") eqn:E;
    [apply String.eqb_eq in E; contradiction|].
  rewrite parsePath_noWildcards by assumption.
  unfold writeConfig, bind, modify, getProvider, ret. cbn.
  destruct (nonEmpty (fileName q)) eqn:Hn.
  - unfold WriteFile. cbn. destruct (decide _); [contradiction|].
    eexists _, _. split; [reflexivity|]. split; [reflexivity|].
    split; [split; cbn; congruence|].
    intros _. unfold ReadFile. cbn. apply lookup_insert_eq.
  - eexists _, _. split; [reflexivity|]. split; [reflexivity|].
    split; [split; cbn; congruence|discriminate].
Qed.

Lemma materialize_no_defaults p c fs :
  forallb (fun d => isNil (Default d)) fs = true -> materialize p c fs = c.
Proof.
  induction fs as [|d fs IH]; simpl; [reflexivity|].
  intros [-> H]%andb_prop. cbn. auto.
Qed.

Lemma setDefaults_materialize_file fuel fs q w :
  settingDefaults q = true -> mu q = false ->
  fileName q ∉ unwritable w ->
  (forall d, In d fs -> Default d <> GNil ->
     validateSet q (Key d) (Default d) = None
     /\ defaultPath q (Key d) <> ""
     /\ noWildcards (defaultPath q (Key d)) = true) ->
  exists q' w',
    setDefaults (Set' (S fuel)) fs q w = Returns tt q' w'
    /\ cfg q' = materialize q (cfg q) fs
    /\ frame q w q' w'
    /\ (forallb (fun d => isNil (Default d)) fs = true -> w' = w)
    /\ (forallb (fun d => isNil (Default d)) fs = false ->
        nonEmpty (fileName q) = true ->
        ReadFile w' (fileName q) = Some (bufferText (cfg q'))).
Proof.
  revert q w. induction fs as [|d fs IH]; intros q w Hsd Hmu Hw Hall.
  { exists q, w. split; [reflexivity|]. split; [reflexivity|].
    split; [apply frame_refl|]. split; [reflexivity|discriminate]. }
  cbn [setDefaults materialize forallb].
  destruct (isNil (Default d)) eqn:Hnil; cbn [negb andb].
  - apply IH; try assumption. intros d' Hd'. apply Hall. right. assumption.
  - destruct (Hall d (or_introl eq_refl)) as (Hv & Hne & Hnw).
    { intros E. rewrite E in Hnil. discriminate. }
    destruct (Set_while_settingDefaults_file fuel (Key d) (Default d) q w
                Hsd Hmu Hw Hv Hne Hnw) as (q1 & w1 & Hset & Hcfg & F & Hfile).
    unfold bind. rewrite Hset.
    destruct (IH q1 w1) as (q' & w' & Hloop & Hcfg' & F' & Hsame & Hmirror).
    + rewrite (frame_settingDefaults _ _ _ _ F). assumption.
    + rewrite (frame_mu _ _ _ _ F). assumption.
    + rewrite (frame_fileName _ _ _ _ F), (frame_unwritable _ _ _ _ F).
      assumption.
    + intros d' Hd' Hdef.
      rewrite (validateSet_frame _ _ _ _ _ _ F).
      rewrite (defaultPath_frame _ _ _ _ _ F).
      apply Hall; [right|]; assumption.
    + exists q', w'. split; [exact Hloop|]. split.
      { rewrite Hcfg', Hcfg. apply (materialize_frame _ _ _ _ _ _ F). }
      split; [eapply frame_trans; eassumption|].
      split; [discriminate|]. intros _ Hn.
      destruct (forallb (fun d => isNil (Default d)) fs) eqn:Hfs.
      * rewrite (Hsame eq_refl), Hcfg'.
        rewrite (materialize_no_defaults _ _ _ Hfs). apply Hfile, Hn.
      * rewrite <- (frame_fileName _ _ _ _ F). apply (Hmirror eq_refl).
        rewrite (frame_fileName _ _ _ _ F). exact Hn.
Qed.

(** X20: the defaults go to the file.  On a provider that has nothing
    loaded, whose file is missing but can be written, with the mutex
    free, when every default passes the validation of its key and goes
    to a plain path and there is a default at all, the first
    [getConfig] returns the document of the defaults and leaves that
    document in the file. *)
Theorem getConfig_persists_defaults (fuel : nat) (p : ConfigProvider)
  (w : World) :
  cfg p = None -> settingDefaults p = false -> mu p = false ->
  fileName p <> "" -> ReadFile w (fileName p) = None ->
  fileName p ∉ unwritable w ->
  (forall d, In d (fields p) -> Default d <> GNil ->
     validateSet p (Key d) (Default d) = None
     /\ plainPath (defaultPath p (Key d)) = true) ->
  forallb (fun d => isNil (Default d)) (fields p) = false ->
  exists p' w',
    getConfig (S fuel) p w
    = Returns (bufferText (materialize p None (fields p))) p' w'
    /\ cfg p' = materialize p None (fields p)
    /\ ReadFile w' (fileName p)
       = Some (bufferText (materialize p None (fields p))).
Proof.
  intros Hcfg Hsd Hmu Hfn Hread Hw Hall Hsome.
  rewrite (getConfig_first_load _ _ _ Hcfg Hsd (fun _ => Hread)).
  assert (F0 : sameSetup p (with_settingDefaults true p)) by (repeat split).
  destruct (setDefaults_materialize_file fuel (fields p)
              (with_settingDefaults true p) w eq_refl Hmu Hw)
    as (q' & w' & Hloop & Hq' & F & _ & Hmirror).
  { intros d Hd Hdef. rewrite (validateSet_setup _ _ _ _ F0).
    rewrite (defaultPath_setup _ _ _ F0).
    destruct (Hall d Hd Hdef) as [Hv Hp]. split; [assumption|].
    split; [apply plainPath_nonempty|apply plainPath_noWildcards];
      assumption. }
  rewrite Hloop.
  assert (Hc : cfg q' = materialize p None (fields p)).
  { rewrite Hq'. cbn [cfg with_settingDefaults].
    rewrite (materialize_setup _ _ _ _ F0), Hcfg. reflexivity. }
  rewrite Hc. eexists _, w'. split; [reflexivity|].
  split; [exact Hc|].
  rewrite <- Hc. apply (Hmirror Hsome). apply nonEmpty_true, Hfn.
Qed.

Lemma getConfig_persists_defaults_witness :
  exists p' w',
    getConfig 1 (with_fileName "/home/me/.newrelic/config.json" sampleProvider)
      emptyWorld
    = Returns
        (bufferText
           (materialize
              (with_fileName "/home/me/.newrelic/config.json" sampleProvider)
              None
              (fields (with_fileName "/home/me/.newrelic/config.json"
                         sampleProvider)))) p' w'
    /\ cfg p'
       = materialize
           (with_fileName "/home/me/.newrelic/config.json" sampleProvider) None
           (fields (with_fileName "/home/me/.newrelic/config.json"
                      sampleProvider))
    /\ ReadFile w' (fileName (with_fileName "/home/me/.newrelic/config.json"
                                sampleProvider))
       = Some (bufferText
                 (materialize
                    (with_fileName "/home/me/.newrelic/config.json"
                       sampleProvider) None
                    (fields (with_fileName "/home/me/.newrelic/config.json"
                               sampleProvider)))).
Proof.
  apply (getConfig_persists_defaults 0
           (with_fileName "/home/me/.newrelic/config.json" sampleProvider)
           emptyWorld); try reflexivity.
  - discriminate.
  - vm_compute. set_solver.
  - intros d [<-|[<-|[]]] Hd.
    + split; reflexivity.
    + exfalso. apply Hd. reflexivity.
Defined.

(** X21: defaults that cannot be persisted end the process.  Under
    the same conditions but with a file that cannot be written, the
    set of the first default fails in [os.WriteFile] and the first get
    of any key without an environment override calls [log.Fatalf]. *)
Theorem unwritable_defaults_are_fatal (fuel : nat) (scope' : string)
  (key : ConfigKey) (p : ConfigProvider) (w : World)
  (pre post : list FieldDefinition) (d : FieldDefinition) :
  cfg p = None -> settingDefaults p = false -> mu p = false ->
  fileName p <> "" -> ReadFile w (fileName p) = None ->
  fileName p ∈ unwritable w ->
  fields p = (pre ++ d :: post)%list ->
  forallb (fun d => isNil (Default d)) pre = true ->
  Default d <> GNil ->
  validateSet p (Key d) (Default d) = None ->
  plainPath (defaultPath p (Key d)) = true ->
  envOverride p w key = None ->
  exists p', GetWithScope (S fuel) scope' key p w = Exits p' w.
Proof.
  intros Hcfg Hsd Hmu Hfn Hread Hw Hfields Hpre Hd Hval Hplain Henv.
  rewrite GetWithScope_unfold, Henv.
  rewrite (getConfig_first_load _ _ _ Hcfg Hsd (fun _ => Hread)), Hfields.
  assert (F0 : sameSetup p (with_settingDefaults true p)) by (repeat split).
  assert (Hset : exists q1,
    Set' (S fuel) (Key d) (Default d) (with_settingDefaults true p) w
    = Returns (Some (PathError "open" (fileName p))) q1 w).
  { unfold Set'. rewrite SetWithScope_S.
    rewrite (validateSet_setup _ _ _ _ F0), Hval.
    fold (defaultPath (with_settingDefaults true p) (Key d)).
    rewrite (defaultPath_setup _ _ _ F0).
    rewrite lockedSet_unfold. cbn [mu with_settingDefaults]. rewrite Hmu.
    unfold getConfig. rewrite getConfigWith_skip by (left; reflexivity).
    rewrite escapeWildcards_id by (apply plainPath_noWildcards, Hplain).
    destruct (gjson_Get_sjson_Set
                (bufferText (cfg (with_mu true (with_settingDefaults true p))))
                (defaultPath p (Key d)) (Default d)
                (plainPath_nonempty _ Hplain)
                (plainPath_noWildcards _ Hplain)) as (j' & -> & _).
    unfold writeConfig, bind, modify, getProvider, ret. cbn.
    rewrite (nonEmpty_true _ Hfn). unfold WriteFile. cbn.
    destruct (decide _); [eauto|contradiction]. }
  destruct Hset as (q1 & Hset).
  rewrite (setDefaults_first_error _ pre d post _ _ _ q1 w Hpre Hd Hset).
  eauto.
Qed.

Lemma unwritable_defaults_are_fatal_witness :
  exists p',
    GetWithScope 1 "" "apiKey"
      (with_fileName "/etc/newrelic.json" sampleProvider) readOnlyWorld
    = Exits p' readOnlyWorld.
Proof.
  refine (unwritable_defaults_are_fatal 0 "" "apiKey"
            (with_fileName "/etc/newrelic.json" sampleProvider) readOnlyWorld
            [] [apiKeyField] regionField _ _ _ _ _ _ _ _ _ _ _ _);
    try reflexivity.
  all: discriminate.
Defined.

(** ** Unregistered keys, from any state *)

(** When the load has no default to write, [getConfig] returns without
    calling [Set]: with the buffer as it is, or as read from the
    file. *)
Lemma getConfigWith_without_defaults set p w :
  loadWritesDefaults p w = false ->
  exists p1,
    getConfigWith set p w = Returns (bufferText (cfg p1)) p1 w
    /\ frame p w p1 w.
Proof.
  intros H. rewrite getConfigWith_unfold. unfold loadWritesDefaults in H.
  destruct (negb (settingDefaults p)
            && (match cfg p with None => true | Some _ => false end || dirty p))
    eqn:Htrig.
  2:{ exists p. split; [reflexivity|apply frame_refl]. }
  cbn [andb] in H.
  assert (Hsd : settingDefaults p = false).
  { apply andb_prop in Htrig as [Hsd _]. apply negb_true_iff, Hsd. }
  assert (Hstep : exists pa,
    (if nonEmpty (fileName p) then setConfigFromFile else ret tt) p w
    = Returns tt pa w
    /\ frame p w pa w /\ cfg pa = bufferAfterFile p w).
  { unfold bufferAfterFile. destruct (nonEmpty (fileName p)).
    - destruct (setConfigFromFile_returns p w) as (pa & E & F & _ & Hc). eauto.
    - exists p. split; [reflexivity|]. split; [apply frame_refl|reflexivity]. }
  destruct Hstep as (pa & -> & Fa & Hca).
  destruct (emptyBuffer (cfg pa)) eqn:Hempty;
    rewrite Hca in Hempty; rewrite Hempty in H.
  - cbn [andb] in H. apply negb_false_iff in H.
    rewrite (frame_fields _ _ _ _ Fa).
    rewrite setDefaults_no_defaults by assumption.
    exists (with_dirty false
              (with_settingDefaults false (with_settingDefaults true pa))).
    split; [reflexivity|].
    destruct Fa. split; cbn; congruence.
  - exists (with_dirty false pa). split; [reflexivity|].
    destruct Fa. split; cbn; congruence.
Qed.

(** A set whose load has no default to write, with the mutex free and
    the file (if any) writable, to a plain path. *)
Lemma SetWithScope_succeeds fuel scope' key value p w :
  validateSet p key value = None ->
  mu p = false ->
  (nonEmpty (fileName p) = true -> fileName p ∉ unwritable w) ->
  loadWritesDefaults p w = false ->
  plainPath (resolvePath p scope' (canonicalKey p key)) = true ->
  exists p' w',
    SetWithScope (S fuel) scope' key value p w = Returns None p' w'.
Proof.
  intros Hval Hmu Hw Hload Hplain.
  rewrite SetWithScope_S, Hval, lockedSet_unfold, Hmu.
  destruct (getConfigWith_without_defaults (Set' fuel) (with_mu true p) w Hload)
    as (p1 & Hg & F).
  unfold getConfig. rewrite Hg.
  rewrite escapeWildcards_id by (apply plainPath_noWildcards, Hplain).
  destruct (gjson_Get_sjson_Set (bufferText (cfg p1)) _ value
              (plainPath_nonempty _ Hplain) (plainPath_noWildcards _ Hplain))
    as (j' & -> & _).
  unfold writeConfig, bind, modify, getProvider, ret. cbn.
  assert (Hfn : fileName p1 = fileName p) by apply F.
  rewrite Hfn. destruct (nonEmpty (fileName p)) eqn:Hn; [|eauto].
  unfold WriteFile. cbn.
  destruct (decide _) as [Hin|Hout]; [|eauto].
  exfalso. apply (Hw eq_refl). exact Hin.
Qed.

(** C6 (as amended): for an ASCII key without a definition in a
    registry of ASCII keys.  In explicit-values mode a set returns the
    unknown-key error, which carries the keys of all definitions, and
    changes nothing.  Outside that mode the key is not refused: the
    set goes on to the write under the mutex; it succeeds when the
    mutex is free, the backing file is absent or writable, the resolved
    path is plain and the load has no default to write (so on a
    provider just built without defaults, on a loaded one and on one
    just written to); and whenever it succeeds on a plain path, a
    following get returns the value as JSON gives it back. *)
Theorem SetWithScope_unregistered_key (fuel fuel' : nat) (scope' : string)
  (key : ConfigKey) (value : GoValue) (p : ConfigProvider) (w : World) :
  isASCII key = true -> asciiKeys (fields p) = true ->
  getFieldDefinition p key = None ->
  (explicitValues p = true ->
     SetWithScope (S fuel) scope' key value p w
     = Returns (Some (unknownKeyError p key)) p w
     /\ unknownKeyError p key
        = Errorf "key '%s' is not valid, valid keys are: %v"
                 [AStr key; AKeys (map Key (fields p))])
  /\ (explicitValues p = false ->
      SetWithScope (S fuel) scope' key value p w
      = lockedSet fuel (resolvePath p scope' key) value p w
      /\ (mu p = false ->
          (nonEmpty (fileName p) = true -> fileName p ∉ unwritable w) ->
          loadWritesDefaults p w = false ->
          plainPath (resolvePath p scope' key) = true ->
          exists p' w',
            SetWithScope (S fuel) scope' key value p w = Returns None p' w')
      /\ (forall p' w',
            SetWithScope (S fuel) scope' key value p w = Returns None p' w' ->
            plainPath (resolvePath p scope' key) = true ->
            exists p'',
              GetWithScope fuel' scope' key p' w'
              = Returns (Value (toJSON value), None) p'' w'
              /\ (exactInJSON value = true -> Value (toJSON value) = value))).
Proof.
  intros _ _ Hd. split.
  - intros He. split; [|reflexivity].
    rewrite SetWithScope_S. unfold validateSet. rewrite Hd, He. reflexivity.
  - intros He.
    assert (Hval : validateSet p key value = None)
      by (unfold validateSet; rewrite Hd, He; reflexivity).
    pose proof (canonicalKey_unregistered p key Hd) as Hck.
    split; [|split].
    + rewrite SetWithScope_S, Hval, Hck. reflexivity.
    + intros Hmu Hw Hload Hplain.
      apply SetWithScope_succeeds; try assumption.
      rewrite Hck. exact Hplain.
    + intros p' w' Hset Hplain.
      destruct (GetWithScope_after_SetWithScope (S fuel) fuel' _ _ _ _ _ _ _
                  Hset (envOverride_unregistered p w key Hd)) as (p'' & Hget).
      { rewrite Hck. apply plainPath_noWildcards, Hplain. }
      exists p''. split; [exact Hget|apply exactInJSON_Value].
Qed.

Lemma SetWithScope_unregistered_key_witness :
  SetWithScope 1 "" "theme" (GString "dark")
    (with_explicitValues true sampleProvider) emptyWorld
  = Returns
      (Some (unknownKeyError (with_explicitValues true sampleProvider) "theme"))
      (with_explicitValues true sampleProvider) emptyWorld
  /\ (exists p' w',
        SetWithScope 1 "" "theme" (GString "dark") zeroProvider emptyWorld
        = Returns None p' w')
  /\ exists p'',
       GetWithScope 0 "" "theme"
         (with_dirty true
            (with_cfg (Some (Some (JObject [("theme", JString "dark")])))
               zeroProvider)) emptyWorld
       = Returns (Value (toJSON (GString "dark")), None) p'' emptyWorld
       /\ (exactInJSON (GString "dark") = true
           -> Value (toJSON (GString "dark")) = GString "dark").
Proof.
  split; [|split].
  - apply (proj1 (SetWithScope_unregistered_key 0 0 "" "theme" (GString "dark")
             (with_explicitValues true sampleProvider) emptyWorld
             eq_refl eq_refl eq_refl)).
    reflexivity.
  - apply (proj1 (proj2 (proj2 (SetWithScope_unregistered_key 0 0 "" "theme"
             (GString "dark") zeroProvider emptyWorld eq_refl eq_refl eq_refl)
             eq_refl))); try reflexivity.
    discriminate.
  - apply (proj2 (proj2 (proj2 (SetWithScope_unregistered_key 0 0 "" "theme"
             (GString "dark") zeroProvider emptyWorld eq_refl eq_refl eq_refl)
             eq_refl))); reflexivity.
Defined.

(** C6, counterexample: outside the explicit-values mode the set of an
    unregistered key fails when the backing file cannot be written. *)
Lemma unknownKeySetAsStated_fails_on_unwritable_file :
  ~ unknownKeySetAsStated 2
      (with_fileName "/etc/newrelic.json" zeroProvider) readOnlyWorld
      "theme" (GString "dark").
Proof.
  intros H. destruct (H eq_refl eq_refl) as (p' & w' & Hset & _).
  vm_compute in Hset. discriminate.
Qed.
